(** * A versioned content-resource store: repository and service

    Shallow embedding of [src/db/ContentResourceRepository.ts], the drizzle
    schema it writes to and the service wrapped around it
    ([ContentResourceService]).

    The four tables are lists of rows in insertion (rowid) order.  The host
    environment -- [crypto.randomUUID()], [new Date()] and the storage engine,
    which may fail on any statement -- is an explicit oracle; every repository
    method is a computation over the store that either returns a value or
    throws.

    The file has four parts: the embedding of the code, the vocabulary the
    properties are stated in, the properties of the specification with their
    proofs, and further properties of the repository and the service. *)

From Stdlib Require Import List String Ascii ZArith Bool Lia Permutation Sorted.
Import ListNotations.
Local Open Scope string_scope.

(** ** Schema *)

(** [Record<string, any>]: a JSON object. *)
#[warnings="-register-all"]
Inductive Json : Type :=
| JNull
| JBool (b : bool)
| JNum (n : Z)
| JStr (s : string)
| JArr (items : list Json)
| JObj (members : list (string * Json)).

Definition JsonRecord : Type := list (string * Json).

(** The [state] column's enum. *)
Inductive WorkflowState : Type :=
| draft | in_review | approved | published | archived.

Module ContentResource.
Record t : Type := mk {
  id : string;
  type : string;
  createdById : string;
  fields : option JsonRecord;
  currentVersionId : option string;
  state : WorkflowState;
  createdAt : Z;
  updatedAt : Z;
  deletedAt : option Z
}.
End ContentResource.

Module ContentVersion.
Record t : Type := mk {
  id : string;
  resourceId : string;
  content : JsonRecord;
  createdAt : Z;
  createdById : string
}.
End ContentVersion.

Module Tag.
Record t : Type := mk {
  id : string;
  label : string;
  createdAt : Z
}.
End Tag.

Module ContentResourceTag.
Record t : Type := mk {
  resourceId : string;
  tagId : string;
  createdAt : Z
}.

(** The composite primary key [(resource_id, tag_id)]. *)
Definition pk (l : t) : string * string := (resourceId l, tagId l).
End ContentResourceTag.

Record Db : Type := mkDb {
  contentResources : list ContentResource.t;
  contentVersions : list ContentVersion.t;
  tags : list Tag.t;
  contentResourceTags : list ContentResourceTag.t
}.

Definition emptyDb : Db := mkDb [] [] [] [].

(** ** Host environment and store *)

Record Store : Type := mkStore {
  db : Db;
  uuids : nat;
  dates : nat;
  statements : nat
}.

Definition withDb (d : Db) (s : Store) : Store :=
  mkStore d (uuids s) (dates s) (statements s).

Inductive ErrorCode : Type := INVALID_INPUT | NOT_FOUND | SYSTEM_ERROR.

(** Everything that can be thrown.  The first three are what the storage
    engine raises; [Error] is [new Error(message)]. *)
Inductive Thrown : Type :=
| StorageFailure (statement : nat)
| PrimaryKeyViolation (table : string)
| ForeignKeyViolation (table : string)
| Error (message : string)
| ZodError (issues : list string)
| ContentResourceError (message : string) (code : ErrorCode).

Inductive Outcome (A : Type) : Type :=
| Ok (a : A)
| Throw (e : Thrown).
Arguments Ok {A} a.
Arguments Throw {A} e.

(** What the program asks of its host: the n-th [crypto.randomUUID()], the
    n-th [new Date()] (as stored: epoch seconds), whether the n-th SQL
    statement sent to the storage engine fails for reasons of its own, and
    the [message] the engine (or zod) gives an error it raises. *)
Record Host : Type := mkHost {
  uuidAt : nat -> string;
  dateAt : nat -> Z;
  failsAt : nat -> bool;
  messageOf : Thrown -> string
}.

Definition M (A : Type) : Type := Store -> Outcome A * Store.

Definition ret {A} (a : A) : M A := fun s => (Ok a, s).

Definition throw {A} (e : Thrown) : M A := fun s => (Throw e, s).

Definition bind {A B} (m : M A) (f : A -> M B) : M B :=
  fun s =>
    match m s with
    | (Ok a, s') => f a s'
    | (Throw e, s') => (Throw e, s')
    end.

Definition tryCatch {A} (body : M A) (handler : Thrown -> M A) : M A :=
  fun s =>
    match body s with
    | (Ok a, s') => (Ok a, s')
    | (Throw e, s') => handler e s'
    end.

Declare Scope repo_scope.
Delimit Scope repo_scope with repo.
Notation "x <- m ;; k" := (bind m (fun x => k))
  (at level 61, m at next level, right associativity) : repo_scope.
Notation "m ;;; k" := (bind m (fun _ => k))
  (at level 61, right associativity) : repo_scope.
Local Open Scope repo_scope.

(** [db.transaction(async (tx) => ...)] on the durable-sqlite driver.  The
    driver's transaction is synchronous: it begins, calls the callback and
    commits as soon as the callback hands back its promise, before the first
    statement the body awaits has run.  Every statement of the body therefore
    runs after the commit, on the same connection ([tx] and [this.db] are
    one), and is committed on its own: when a later statement throws, the
    promise is rejected with that error and nothing is undone. *)
Definition transaction {A} (body : M A) : M A := body.

(** ** Pure views of the tables *)

Definition isNull {A} (o : option A) : bool :=
  match o with None => true | Some _ => false end.

Definition pkEqb (a b : string * string) : bool :=
  String.eqb (fst a) (fst b) && String.eqb (snd a) (snd b).

Definition resourceIds (d : Db) : list string :=
  map ContentResource.id (contentResources d).
Definition versionIds (d : Db) : list string :=
  map ContentVersion.id (contentVersions d).
Definition tagIds (d : Db) : list string := map Tag.id (tags d).
Definition tagLabels (d : Db) : list string := map Tag.label (tags d).
Definition linkKeys (d : Db) : list (string * string) :=
  map ContentResourceTag.pk (contentResourceTags d).

Definition memS (x : string) (l : list string) : bool :=
  existsb (String.eqb x) l.
Definition memK (k : string * string) (l : list (string * string)) : bool :=
  existsb (pkEqb k) l.

(** [update(contentResources).set(...).where(eq(contentResources.id, id))] *)
Definition setWhereId (g : ContentResource.t -> ContentResource.t)
    (rid : string) (rows : list ContentResource.t) : list ContentResource.t :=
  map (fun r => if String.eqb (ContentResource.id r) rid then g r else r) rows.

Definition setCurrentVersionId (vid : string) (r : ContentResource.t) :=
  ContentResource.mk (ContentResource.id r) (ContentResource.type r)
    (ContentResource.createdById r) (ContentResource.fields r) (Some vid)
    (ContentResource.state r) (ContentResource.createdAt r)
    (ContentResource.updatedAt r) (ContentResource.deletedAt r).

Definition setCurrentVersionIdAt (vid : string) (at_ : Z)
    (r : ContentResource.t) :=
  ContentResource.mk (ContentResource.id r) (ContentResource.type r)
    (ContentResource.createdById r) (ContentResource.fields r) (Some vid)
    (ContentResource.state r) (ContentResource.createdAt r)
    at_ (ContentResource.deletedAt r).

Definition setFieldsAt (f : JsonRecord) (at_ : Z) (r : ContentResource.t) :=
  ContentResource.mk (ContentResource.id r) (ContentResource.type r)
    (ContentResource.createdById r) (Some f)
    (ContentResource.currentVersionId r)
    (ContentResource.state r) (ContentResource.createdAt r)
    at_ (ContentResource.deletedAt r).

Definition setDeletedAt (del upd : Z) (r : ContentResource.t) :=
  ContentResource.mk (ContentResource.id r) (ContentResource.type r)
    (ContentResource.createdById r) (ContentResource.fields r)
    (ContentResource.currentVersionId r)
    (ContentResource.state r) (ContentResource.createdAt r)
    upd (Some del).

(** The relational read [with: { currentVersion: true, tags: { with: { tag:
    true } } }]: the row, the version its pointer designates, and its link
    rows each with the tag row it references. *)
Module Found.
Record TagLink : Type := mkLink {
  link : ContentResourceTag.t;
  tag : option Tag.t
}.
Record t : Type := mk {
  row : ContentResource.t;
  currentVersion : option ContentVersion.t;
  tags : list TagLink
}.
End Found.

Definition findVersion (d : Db) (vid : string) : option ContentVersion.t :=
  find (fun v => String.eqb (ContentVersion.id v) vid) (contentVersions d).

Definition findTag (d : Db) (tid : string) : option Tag.t :=
  find (fun t => String.eqb (Tag.id t) tid) (tags d).

Definition linksOf (d : Db) (rid : string) : list ContentResourceTag.t :=
  filter (fun l => String.eqb (ContentResourceTag.resourceId l) rid)
    (contentResourceTags d).

(** The order of the primary-key index of [content_resource_tags]: by
    [resource_id], then by [tag_id], the bytes compared as SQLite's BINARY
    collation compares them. *)
Definition pkLtb (a b : ContentResourceTag.t) : bool :=
  match String.compare (ContentResourceTag.resourceId a)
          (ContentResourceTag.resourceId b) with
  | Lt => true
  | Gt => false
  | Eq => String.ltb (ContentResourceTag.tagId a) (ContentResourceTag.tagId b)
  end.

Fixpoint insertByPrimaryKey (l : ContentResourceTag.t)
    (rows : list ContentResourceTag.t) : list ContentResourceTag.t :=
  match rows with
  | [] => [l]
  | r :: rest =>
      if pkLtb l r then l :: r :: rest else r :: insertByPrimaryKey l rest
  end.

Fixpoint orderByPrimaryKey (rows : list ContentResourceTag.t)
    : list ContentResourceTag.t :=
  match rows with
  | [] => []
  | l :: rest => insertByPrimaryKey l (orderByPrimaryKey rest)
  end.

(** [with: { currentVersion: true, tags: { with: { tag: true } } }].  The
    links of a resource are read through the primary-key index of
    [content_resource_tags], so they come in the order of that key, not in
    the order they were inserted. *)
Definition withRelations (d : Db) (r : ContentResource.t) : Found.t :=
  Found.mk r
    (match ContentResource.currentVersionId r with
     | Some vid => findVersion d vid
     | None => None
     end)
    (map (fun l => Found.mkLink l (findTag d (ContentResourceTag.tagId l)))
       (orderByPrimaryKey (linksOf d (ContentResource.id r)))).

Definition selectById (d : Db) (id : string) : option Found.t :=
  option_map (withRelations d)
    (find (fun r => String.eqb (ContentResource.id r) id
                    && isNull (ContentResource.deletedAt r))
       (contentResources d)).

Definition selectByType (d : Db) (type : string) : list Found.t :=
  map (withRelations d)
    (filter (fun r => String.eqb (ContentResource.type r) type
                      && isNull (ContentResource.deletedAt r))
       (contentResources d)).

(** [orderBy: versions.createdAt]: ascending; rows with equal timestamps keep
    their table order. *)
Fixpoint insertByCreatedAt (v : ContentVersion.t) (l : list ContentVersion.t)
    : list ContentVersion.t :=
  match l with
  | [] => [v]
  | w :: rest =>
      if (ContentVersion.createdAt v <=? ContentVersion.createdAt w)%Z
      then v :: w :: rest
      else w :: insertByCreatedAt v rest
  end.

Fixpoint orderByCreatedAt (l : list ContentVersion.t) : list ContentVersion.t :=
  match l with
  | [] => []
  | v :: rest => insertByCreatedAt v (orderByCreatedAt rest)
  end.

Definition versionsOf (d : Db) (rid : string) : list ContentVersion.t :=
  filter (fun v => String.eqb (ContentVersion.resourceId v) rid)
    (contentVersions d).

Definition selectVersionHistory (d : Db) (rid : string)
    : list ContentVersion.t :=
  orderByCreatedAt (versionsOf d rid).

Definition selectTagByLabel (d : Db) (label : string) : option Tag.t :=
  find (fun t => String.eqb (Tag.label t) label) (tags d).

(** ** Inputs *)

Module CreateContentResourceInput.
Record t : Type := mk {
  type : string;
  createdById : string;
  fields : option JsonRecord;
  content : JsonRecord;
  tags : option (list string)
}.
End CreateContentResourceInput.

(** An optional property of a JavaScript object: the key is missing, or it
    is there with the value [undefined], or it is there with a value.
    Reading the property gives [undefined] in the first two cases;
    [Object.keys] and [in] tell them apart. *)
Inductive Property (A : Type) : Type :=
| Missing
| Undefined
| Value (a : A).
Arguments Missing {A}.
Arguments Undefined {A}.
Arguments Value {A} a.

(** [object.key] *)
Definition read {A} (p : Property A) : option A :=
  match p with
  | Value a => Some a
  | Missing | Undefined => None
  end.

(** [key in object] *)
Definition present {A} (p : Property A) : bool :=
  match p with
  | Missing => false
  | Undefined | Value _ => true
  end.

(** The property of an object literal that lists the key only when it has a
    value. *)
Definition given {A} (o : option A) : Property A :=
  match o with
  | Some a => Value a
  | None => Missing
  end.

Module UpdateContentResourceInput.
Record t : Type := object {
  fieldsProperty : Property JsonRecord;
  contentProperty : Property JsonRecord;
  tagsProperty : Property (list string);
  stateProperty : Property WorkflowState
}.

(** [input.fields], [input.content], [input.tags], [input.state] *)
Definition fields (input : t) : option JsonRecord :=
  read (fieldsProperty input).
Definition content (input : t) : option JsonRecord :=
  read (contentProperty input).
Definition tags (input : t) : option (list string) :=
  read (tagsProperty input).
Definition state (input : t) : option WorkflowState :=
  read (stateProperty input).

(** The input that lists exactly the keys that have a value. *)
Definition mk (fields content : option JsonRecord)
    (tags : option (list string)) (state : option WorkflowState) : t :=
  object (given fields) (given content) (given tags) (given state).
End UpdateContentResourceInput.

(** ** The repository *)

Module ContentResourceRepository.

Section Repository.

Variable host : Host.

Definition randomUUID : M string :=
  fun s => (Ok (uuidAt host (uuids s)),
            mkStore (db s) (S (uuids s)) (dates s) (statements s)).

Definition newDate : M Z :=
  fun s => (Ok (dateAt host (dates s)),
            mkStore (db s) (uuids s) (S (dates s)) (statements s)).

(** Sending one statement to the storage engine. *)
Definition statement : M unit :=
  fun s =>
    let s' := mkStore (db s) (uuids s) (dates s) (S (statements s)) in
    if failsAt host (statements s)
    then (Throw (StorageFailure (statements s)), s')
    else (Ok tt, s').

Definition getDb : M Db := fun s => (Ok (db s), s).
Definition putDb (d : Db) : M unit := fun s => (Ok tt, withDb d s).

(** The engine enforces what the schema declares: the primary key of each
    table and the [references] of the version and link tables. *)

(** [insert(contentResources).values(row).returning()] *)
Definition insertContentResources (row : ContentResource.t)
    : M ContentResource.t :=
  statement ;;;
  d <- getDb ;;
  if memS (ContentResource.id row) (resourceIds d)
  then throw (PrimaryKeyViolation "content_resources")
  else
    putDb (mkDb (contentResources d ++ [row]) (contentVersions d)
             (tags d) (contentResourceTags d)) ;;;
    ret row.

(** [insert(contentVersions).values(row).returning()] *)
Definition insertContentVersions (row : ContentVersion.t)
    : M ContentVersion.t :=
  statement ;;;
  d <- getDb ;;
  if memS (ContentVersion.id row) (versionIds d)
  then throw (PrimaryKeyViolation "content_versions")
  else if negb (memS (ContentVersion.resourceId row) (resourceIds d))
  then throw (ForeignKeyViolation "content_versions")
  else
    putDb (mkDb (contentResources d) (contentVersions d ++ [row])
             (tags d) (contentResourceTags d)) ;;;
    ret row.

(** [insert(tags).values(row).returning()] *)
Definition insertTags (row : Tag.t) : M Tag.t :=
  statement ;;;
  d <- getDb ;;
  if memS (Tag.id row) (tagIds d)
  then throw (PrimaryKeyViolation "tags")
  else
    putDb (mkDb (contentResources d) (contentVersions d)
             (tags d ++ [row]) (contentResourceTags d)) ;;;
    ret row.

(** [insert(contentResourceTags).values(row)] *)
Definition insertContentResourceTags (row : ContentResourceTag.t)
    : M unit :=
  statement ;;;
  d <- getDb ;;
  if memK (ContentResourceTag.pk row) (linkKeys d)
  then throw (PrimaryKeyViolation "content_resource_tags")
  else if negb (memS (ContentResourceTag.resourceId row) (resourceIds d)
                && memS (ContentResourceTag.tagId row) (tagIds d))
  then throw (ForeignKeyViolation "content_resource_tags")
  else
    putDb (mkDb (contentResources d) (contentVersions d)
             (tags d) (contentResourceTags d ++ [row])).

(** [update(contentResources).set(g).where(eq(contentResources.id, id))] *)
Definition updateContentResources
    (g : ContentResource.t -> ContentResource.t) (id : string) : M unit :=
  statement ;;;
  d <- getDb ;;
  putDb (mkDb (setWhereId g id (contentResources d)) (contentVersions d)
           (tags d) (contentResourceTags d)).

(** [delete(contentResourceTags)
      .where(eq(contentResourceTags.resourceId, id))] *)
Definition deleteContentResourceTags (id : string) : M unit :=
  statement ;;;
  d <- getDb ;;
  putDb (mkDb (contentResources d) (contentVersions d) (tags d)
           (filter (fun l =>
                      negb (String.eqb (ContentResourceTag.resourceId l) id))
              (contentResourceTags d))).

(** [query.tags.findFirst({ where: eq(tags.label, label) })] *)
Definition findFirstTag (label : string) : M (option Tag.t) :=
  statement ;;;
  d <- getDb ;;
  ret (selectTagByLabel d label).

Fixpoint addTags (resourceId : string) (tagLabels : list string) : M unit :=
  match tagLabels with
  | [] => ret tt
  | label :: rest =>
      found <- findFirstTag label ;;
      tag <- match found with
             | Some t => ret t
             | None =>
                 id <- randomUUID ;;
                 at_ <- newDate ;;
                 insertTags (Tag.mk id label at_)
             end ;;
      at_ <- newDate ;;
      insertContentResourceTags
        (ContentResourceTag.mk resourceId (Tag.id tag) at_) ;;;
      addTags resourceId rest
  end.

Definition findById (id : string) : M (option Found.t) :=
  statement ;;;
  d <- getDb ;;
  ret (selectById d id).

Definition findByType (type : string) : M (list Found.t) :=
  statement ;;;
  d <- getDb ;;
  ret (selectByType d type).

(** The callback [create] hands to [db.transaction]. *)
Definition createTx (input : CreateContentResourceInput.t)
    : M ContentResource.t :=
  id <- randomUUID ;;
  createdAt <- newDate ;;
  updatedAt <- newDate ;;
  resource <- insertContentResources
    (ContentResource.mk id
       (CreateContentResourceInput.type input)
       (CreateContentResourceInput.createdById input)
       (CreateContentResourceInput.fields input)
       None draft createdAt updatedAt None) ;;
  vid <- randomUUID ;;
  vAt <- newDate ;;
  version <- insertContentVersions
    (ContentVersion.mk vid (ContentResource.id resource)
       (CreateContentResourceInput.content input) vAt
       (CreateContentResourceInput.createdById input)) ;;
  updateContentResources
    (setCurrentVersionId (ContentVersion.id version))
    (ContentResource.id resource) ;;;
  match CreateContentResourceInput.tags input with
  | Some (l :: ls) => addTags (ContentResource.id resource) (l :: ls)
  | _ => ret tt
  end ;;;
  ret resource.

Definition create (input : CreateContentResourceInput.t)
    : M ContentResource.t :=
  transaction (createTx input).

(** The callback [update] hands to [db.transaction]. *)
Definition updateTx (id : string) (input : UpdateContentResourceInput.t)
    (updatedById : string) : M (option Found.t) :=
  resource <- findById id ;;
  match resource with
  | None => throw (Error "Resource not found")
  | Some _ =>
      match UpdateContentResourceInput.fields input with
      | Some f =>
          at_ <- newDate ;;
          updateContentResources (setFieldsAt f at_) id
      | None => ret tt
      end ;;;
      match UpdateContentResourceInput.content input with
      | Some c =>
          vid <- randomUUID ;;
          vAt <- newDate ;;
          version <- insertContentVersions
            (ContentVersion.mk vid id c vAt updatedById) ;;
          at_ <- newDate ;;
          updateContentResources
            (setCurrentVersionIdAt (ContentVersion.id version) at_) id
      | None => ret tt
      end ;;;
      match UpdateContentResourceInput.tags input with
      | Some ls =>
          deleteContentResourceTags id ;;;
          addTags id ls
      | None => ret tt
      end ;;;
      findById id
  end.

Definition update (id : string) (input : UpdateContentResourceInput.t)
    (updatedById : string) : M (option Found.t) :=
  transaction (updateTx id input updatedById).

Definition softDelete (id : string) : M unit :=
  del <- newDate ;;
  upd <- newDate ;;
  updateContentResources (setDeletedAt del upd) id.

Definition getVersionHistory (id : string) : M (list ContentVersion.t) :=
  statement ;;;
  d <- getDb ;;
  ret (selectVersionHistory d id).

End Repository.

End ContentResourceRepository.

Import ContentResourceRepository.

(** ** The service *)

(** Strings are held as the UTF-8 bytes of the JavaScript string.  The white
    space [String.prototype.trim] strips is TAB, LF, VT, FF, CR, the space,
    U+00A0, U+1680, U+2000 to U+200A, U+2028, U+2029, U+202F, U+205F, U+3000
    and U+FEFF: one, two or three bytes each. *)
Definition isWhiteSpace1 (a : ascii) : bool :=
  let n := nat_of_ascii a in
  (Nat.eqb n 32 || (Nat.leb 9 n && Nat.leb n 13))%bool.

Definition isWhiteSpace2 (a b : ascii) : bool :=
  (Nat.eqb (nat_of_ascii a) 194 && Nat.eqb (nat_of_ascii b) 160)%bool.

Definition isWhiteSpace3 (a b c : ascii) : bool :=
  let x := nat_of_ascii a in
  let y := nat_of_ascii b in
  let z := nat_of_ascii c in
  (Nat.eqb x 225 && Nat.eqb y 154 && Nat.eqb z 128
   || Nat.eqb x 226 && Nat.eqb y 128
      && (Nat.leb 128 z && Nat.leb z 138
          || Nat.eqb z 168 || Nat.eqb z 169 || Nat.eqb z 175)
   || Nat.eqb x 226 && Nat.eqb y 129 && Nat.eqb z 159
   || Nat.eqb x 227 && Nat.eqb y 128 && Nat.eqb z 128
   || Nat.eqb x 239 && Nat.eqb y 187 && Nat.eqb z 191)%bool.

Fixpoint dropWhiteSpace (s : string) : string :=
  match s with
  | EmptyString => EmptyString
  | String a s1 =>
      if isWhiteSpace1 a then dropWhiteSpace s1
      else
        match s1 with
        | EmptyString => s
        | String b s2 =>
            if isWhiteSpace2 a b then dropWhiteSpace s2
            else
              match s2 with
              | EmptyString => s
              | String c s3 =>
                  if isWhiteSpace3 a b c then dropWhiteSpace s3 else s
              end
        end
  end.

(** [!id?.trim()]: nothing is left once the white space is trimmed. *)
Definition isBlank (s : string) : bool :=
  match dropWhiteSpace s with
  | EmptyString => true
  | String _ _ => false
  end.

Definition tooSmall : string := "String must contain at least 1 character(s)".

(** The issues [CreateInputSchema.parse] raises on a typed input. *)
Definition createInputIssues (input : CreateContentResourceInput.t)
    : list string :=
  (if String.eqb (CreateContentResourceInput.type input) "" then [tooSmall]
   else [])
  ++ (if String.eqb (CreateContentResourceInput.createdById input) ""
      then [tooSmall] else []).

(** The issues [UpdateInputSchema.parse] raises.  The object schema keeps
    the keys [fields], [content] and [tags] that the input has -- a key that
    is there with the value [undefined] is kept, [state] is stripped -- and
    the refinement wants [Object.keys] of what is kept to be non-empty. *)
Definition updateInputIssues (input : UpdateContentResourceInput.t)
    : list string :=
  if (present (UpdateContentResourceInput.fieldsProperty input)
      || present (UpdateContentResourceInput.contentProperty input)
      || present (UpdateContentResourceInput.tagsProperty input))%bool
  then []
  else ["At least one field must be provided for update"].

Definition zodParse (issues : list string) : M unit :=
  match issues with
  | [] => ret tt
  | _ => throw (ZodError issues)
  end.

(** [error instanceof Error ? error.message : 'Unknown error'].  Every value
    thrown here is an [Error].  The program's own errors carry the message it
    gave them; the text of the other errors is the host's. *)
Definition getErrorMessage (host : Host) (error : Thrown) : string :=
  match error with
  | Error message | ContentResourceError message _ => message
  | _ => messageOf host error
  end.

Module ContentResourceService.

Section Service.

Variable host : Host.

Definition createResource (input : CreateContentResourceInput.t)
    : M ContentResource.t :=
  tryCatch
    (zodParse (createInputIssues input) ;;;
     create host input)
    (fun error =>
       match error with
       | ZodError issues =>
           throw (ContentResourceError
                    ("Invalid resource data: " ++ String.concat ", " issues)
                    INVALID_INPUT)
       | _ =>
           throw (ContentResourceError
                    ("Failed to create resource: "
                     ++ getErrorMessage host error)
                    SYSTEM_ERROR)
       end).

Definition getResource (id : string) : M Found.t :=
  if isBlank id
  then throw (ContentResourceError "Invalid resource ID" INVALID_INPUT)
  else
    resource <- findById host id ;;
    match resource with
    | None => throw (ContentResourceError "Resource not found" NOT_FOUND)
    | Some r => ret r
    end.

Definition getResourcesByType (type : string) : M (list Found.t) :=
  if isBlank type
  then throw (ContentResourceError "Invalid resource type" INVALID_INPUT)
  else findByType host type.

Definition updateResource (id : string)
    (input : UpdateContentResourceInput.t) (updatedById : string)
    : M (option Found.t) :=
  if isBlank id
  then throw (ContentResourceError "Invalid resource ID" INVALID_INPUT)
  else if isBlank updatedById
  then throw (ContentResourceError "Invalid updater ID" INVALID_INPUT)
  else
    tryCatch
      (zodParse (updateInputIssues input) ;;;
       exists_ <- findById host id ;;
       match exists_ with
       | None => throw (ContentResourceError "Resource not found" NOT_FOUND)
       | Some _ => update host id input updatedById
       end)
      (fun error =>
         match error with
         | ContentResourceError _ _ => throw error
         | ZodError issues =>
             throw (ContentResourceError
                      ("Invalid update data: " ++ String.concat ", " issues)
                      INVALID_INPUT)
         | _ =>
             throw (ContentResourceError
                      ("Failed to update resource: "
                       ++ getErrorMessage host error)
                      SYSTEM_ERROR)
         end).

Definition deleteResource (id : string) : M unit :=
  if isBlank id
  then throw (ContentResourceError "Invalid resource ID" INVALID_INPUT)
  else
    tryCatch
      (exists_ <- findById host id ;;
       match exists_ with
       | None => throw (ContentResourceError "Resource not found" NOT_FOUND)
       | Some _ => softDelete host id
       end)
      (fun error =>
         match error with
         | ContentResourceError _ _ => throw error
         | _ =>
             throw (ContentResourceError
                      ("Failed to delete resource: "
                       ++ getErrorMessage host error)
                      SYSTEM_ERROR)
         end).

Definition getVersionHistory (id : string)
    : M (list ContentVersion.t) :=
  if isBlank id
  then throw (ContentResourceError "Invalid resource ID" INVALID_INPUT)
  else
    tryCatch
      (exists_ <- findById host id ;;
       match exists_ with
       | None => throw (ContentResourceError "Resource not found" NOT_FOUND)
       | Some _ => getVersionHistory host id
       end)
      (fun error =>
         match error with
         | ContentResourceError _ _ => throw error
         | _ =>
             throw (ContentResourceError
                      ("Failed to get version history: "
                       ++ getErrorMessage host error)
                      SYSTEM_ERROR)
         end).

End Service.

End ContentResourceService.

(** * Vocabulary of the specification *)

(** ** Effects on the tables *)

(** What one statement that went through did to the tables. *)

Definition addResource (r : ContentResource.t) (d : Db) : Db :=
  mkDb (contentResources d ++ [r]) (contentVersions d) (tags d)
       (contentResourceTags d).

Definition addVersion (v : ContentVersion.t) (d : Db) : Db :=
  mkDb (contentResources d) (contentVersions d ++ [v]) (tags d)
       (contentResourceTags d).

Definition addTag (t : Tag.t) (d : Db) : Db :=
  mkDb (contentResources d) (contentVersions d) (tags d ++ [t])
       (contentResourceTags d).

Definition addLink (l : ContentResourceTag.t) (d : Db) : Db :=
  mkDb (contentResources d) (contentVersions d) (tags d)
       (contentResourceTags d ++ [l]).

Definition setResources (g : ContentResource.t -> ContentResource.t)
    (id : string) (d : Db) : Db :=
  mkDb (setWhereId g id (contentResources d)) (contentVersions d) (tags d)
       (contentResourceTags d).

Definition dropLinks (id : string) (d : Db) : Db :=
  mkDb (contentResources d) (contentVersions d) (tags d)
       (filter (fun l => negb (String.eqb (ContentResourceTag.resourceId l) id))
          (contentResourceTags d)).

(** ** Relational summaries of the write paths *)

(** Find-or-create of one label. *)
Inductive TagResolved (label : string) (d : Db) (t : Tag.t) : Db -> Prop :=
| Tag_found :
    selectTagByLabel d label = Some t ->
    TagResolved label d t d
| Tag_created :
    selectTagByLabel d label = None ->
    memS (Tag.id t) (tagIds d) = false ->
    Tag.label t = label ->
    TagResolved label d t (addTag t d).

(** The loop of [addTags], when every statement of it went through. *)
Inductive AddTags (rid : string) : list string -> Db -> Db -> Prop :=
| AddTags_nil d : AddTags rid [] d d
| AddTags_cons label rest d t d1 at_ d' :
    TagResolved label d t d1 ->
    memK (rid, Tag.id t) (linkKeys d1) = false ->
    memS rid (resourceIds d1) = true ->
    memS (Tag.id t) (tagIds d1) = true ->
    AddTags rid rest
      (addLink (ContentResourceTag.mk rid (Tag.id t) at_) d1) d' ->
    AddTags rid (label :: rest) d d'.

(** The labels of an optional tag list. *)
Definition tagsGiven (o : option (list string)) : list string :=
  match o with Some l => l | None => [] end.

(** The three optional steps of [update], when they went through. *)

Definition FieldsUpdated (id : string) (o : option JsonRecord) (d d' : Db)
    : Prop :=
  match o with
  | None => d' = d
  | Some f => exists at_, d' = setResources (setFieldsAt f at_) id d
  end.

Definition ContentUpdated (id updatedById : string) (o : option JsonRecord)
    (d d' : Db) : Prop :=
  match o with
  | None => d' = d
  | Some c =>
      exists vid vAt at_,
        memS vid (versionIds d) = false /\
        memS id (resourceIds d) = true /\
        d' = setResources (setCurrentVersionIdAt vid at_) id
               (addVersion (ContentVersion.mk vid id c vAt updatedById) d)
  end.

Definition TagsUpdated (id : string) (o : option (list string)) (d d' : Db)
    : Prop :=
  match o with
  | None => d' = d
  | Some ls => AddTags id ls (dropLinks id d) d'
  end.

(** ** Storage invariants *)

(** What the schema enforces: the four primary keys and the three foreign
    keys. *)
Record Schema (d : Db) : Prop := mkSchema {
  pk_resources : NoDup (resourceIds d);
  pk_versions : NoDup (versionIds d);
  pk_tags : NoDup (tagIds d);
  pk_links : NoDup (linkKeys d);
  fk_versions : forall v, In v (contentVersions d) ->
    In (ContentVersion.resourceId v) (resourceIds d);
  fk_links_resource : forall l, In l (contentResourceTags d) ->
    In (ContentResourceTag.resourceId l) (resourceIds d);
  fk_links_tag : forall l, In l (contentResourceTags d) ->
    In (ContentResourceTag.tagId l) (tagIds d)
}.

(** The current-version invariant: a resource that owns a version has a
    pointer, and a pointer designates a version the resource owns. *)
Definition Pointers (d : Db) : Prop :=
  forall r, In r (contentResources d) ->
    (forall v, In v (contentVersions d) ->
       ContentVersion.resourceId v = ContentResource.id r ->
       ContentResource.currentVersionId r <> None) /\
    (forall vid, ContentResource.currentVersionId r = Some vid ->
       exists v, In v (contentVersions d) /\ ContentVersion.id v = vid /\
                 ContentVersion.resourceId v = ContentResource.id r).

(** What every call that returns keeps true of the tables: the schema, one
    tag row per label, and the current-version invariant. *)
Record Consistent (d : Db) : Prop := mkConsistent {
  schema : Schema d;
  labels_unique : NoDup (tagLabels d);
  pointers : Pointers d
}.

(** ** Histories of repository calls *)

(** One call of a repository method. *)
Inductive Call : Type :=
| CallCreate (input : CreateContentResourceInput.t)
| CallUpdate (id : string) (input : UpdateContentResourceInput.t)
    (updatedById : string)
| CallSoftDelete (id : string)
| CallFindById (id : string)
| CallFindByType (type : string)
| CallGetVersionHistory (id : string).

(** The store a call leaves behind, whether it returned or threw. *)
Definition exec (host : Host) (c : Call) (s : Store) : Store :=
  match c with
  | CallCreate input => snd (create host input s)
  | CallUpdate id input by_ => snd (update host id input by_ s)
  | CallSoftDelete id => snd (softDelete host id s)
  | CallFindById id => snd (findById host id s)
  | CallFindByType type => snd (findByType host type s)
  | CallGetVersionHistory id => snd (getVersionHistory host id s)
  end.

(** The store a sequence of calls leaves behind. *)
Definition run (host : Host) (calls : list Call) (s : Store) : Store :=
  fold_left (fun s c => exec host c s) calls s.

Definition isOk {A} (o : Outcome A) : bool :=
  match o with Ok _ => true | Throw _ => false end.

(** The call returned. *)
Definition returned (host : Host) (c : Call) (s : Store) : bool :=
  match c with
  | CallCreate input => isOk (fst (create host input s))
  | CallUpdate id input by_ => isOk (fst (update host id input by_ s))
  | CallSoftDelete id => isOk (fst (softDelete host id s))
  | CallFindById id => isOk (fst (findById host id s))
  | CallFindByType type => isOk (fst (findByType host type s))
  | CallGetVersionHistory id => isOk (fst (getVersionHistory host id s))
  end.

(** Every call of the sequence returned. *)
Fixpoint allReturned (host : Host) (calls : list Call) (s : Store) : bool :=
  match calls with
  | [] => true
  | c :: rest => returned host c s && allReturned host rest (exec host c s)
  end.


(** ** Reads and their properties *)

(** The row [findById] reads. *)
Definition rowOf (d : Db) (id : string) : option ContentResource.t :=
  find (fun r => String.eqb (ContentResource.id r) id
                 && isNull (ContentResource.deletedAt r))
    (contentResources d).


(** Ascending creation time. *)
Definition createdAtLe (v w : ContentVersion.t) : Prop :=
  (ContentVersion.createdAt v <= ContentVersion.createdAt w)%Z.

(** The resource [rid] is readable, owns [S n] versions, and points at the
    one inserted last. *)
Definition History (rid : string) (n : nat) (d : Db) : Prop :=
  exists row earlier latest,
    rowOf d rid = Some row /\
    versionsOf d rid = (earlier ++ [latest])%list /\
    List.length earlier = n /\
    ContentResource.currentVersionId row = Some (ContentVersion.id latest) /\
    findVersion d (ContentVersion.id latest) = Some latest.

(** Two rows that differ at most in [updatedAt] and [deletedAt]. *)
Definition sameButTimestamps (r r' : ContentResource.t) : Prop :=
  ContentResource.id r' = ContentResource.id r /\
  ContentResource.type r' = ContentResource.type r /\
  ContentResource.createdById r' = ContentResource.createdById r /\
  ContentResource.fields r' = ContentResource.fields r /\
  ContentResource.currentVersionId r' = ContentResource.currentVersionId r /\
  ContentResource.state r' = ContentResource.state r /\
  ContentResource.createdAt r' = ContentResource.createdAt r.

(** What the service promises to throw. *)
Definition isContentResourceError (e : Thrown) : Prop :=
  exists message code, e = ContentResourceError message code.

(** ** Hosts that let the write paths through *)

(** The storage engine fails none of the statements still to come. *)
Definition Healthy (host : Host) (s : Store) : Prop :=
  forall n, statements s <= n -> failsAt host n = false.

(** The identifiers still to come are unused and pairwise distinct. *)
Definition FreshIds (host : Host) (s : Store) : Prop :=
  (forall n, uuids s <= n ->
     ~ In (uuidAt host n) (resourceIds (db s)) /\
     ~ In (uuidAt host n) (versionIds (db s)) /\
     ~ In (uuidAt host n) (tagIds (db s))) /\
  (forall m n, uuids s <= m -> m < n -> uuidAt host m <> uuidAt host n).

(** A store from which the write paths go through. *)
Definition Ready (host : Host) (s : Store) : Prop :=
  Healthy host s /\ FreshIds host s /\ Schema (db s).

(** ** Hosts, inputs and stores of the examples *)

Definition digit (n : nat) : string :=
  String (ascii_of_nat (48 + Nat.modulo n 10)) EmptyString.

(** A host that hands out "uuid-00", "uuid-01", ..., advances its clock
    every third reading, and whose storage engine never fails. *)
Definition demoHost : Host :=
  mkHost (fun n => "uuid-" ++ digit (Nat.div n 10) ++ digit n)
         (fun n => (1700000000 + Z.of_nat (Nat.div n 3))%Z)
         (fun _ => false)
         (fun _ => "SQLITE_ERROR").

(** A host whose identifiers never repeat: the n-th one is n letters long. *)
Fixpoint unary (n : nat) : string :=
  match n with
  | 0 => EmptyString
  | S k => String "u"%char (unary k)
  end.

Definition unaryHost : Host :=
  mkHost unary (fun n => Z.of_nat n) (fun _ => false)
         (fun _ => "SQLITE_ERROR").

(** The storage engine of [demoHost], except that it fails statement [k]. *)
Definition failingHost (k : nat) : Host :=
  mkHost (uuidAt demoHost) (dateAt demoHost) (fun n => Nat.eqb n k)
         (messageOf demoHost).

Definition initialStore : Store := mkStore emptyDb 0 0 0.

Definition scenarioInput : CreateContentResourceInput.t :=
  CreateContentResourceInput.mk "article" "u1" None
    [("title", JStr "T")] (Some ["x"; "y"]).

Definition duplicateInput : CreateContentResourceInput.t :=
  CreateContentResourceInput.mk "article" "u1" None
    [("title", JStr "T")] (Some ["x"; "y"; "x"]).

Definition taggedInput (labels : list string) : CreateContentResourceInput.t :=
  CreateContentResourceInput.mk "article" "u1" None
    [("title", JStr "T")] (Some labels).

Definition contentUpdate (title : string) : UpdateContentResourceInput.t :=
  UpdateContentResourceInput.mk None (Some [("title", JStr title)]) None None.

Definition replaceInput : UpdateContentResourceInput.t :=
  UpdateContentResourceInput.mk None None (Some ["b"]) None.

Definition repeatedInput : UpdateContentResourceInput.t :=
  UpdateContentResourceInput.mk None None (Some ["b"; "b"]) None.

Definition publishInput : UpdateContentResourceInput.t :=
  UpdateContentResourceInput.mk None None None (Some published).

Definition scenarioStore : Store :=
  run demoHost [CallCreate scenarioInput] initialStore.

Definition taggedStore : Store :=
  run demoHost [CallCreate (taggedInput ["a"])] initialStore.

Definition sharedStore : Store :=
  run demoHost [CallCreate (taggedInput ["shared"]);
                CallCreate (taggedInput ["other"; "shared"])] initialStore.


Definition createdRow : ContentResource.t :=
  ContentResource.mk "uuid-00" "article" "u1" None None draft
    1700000000 1700000000 None.


(** ** Vocabulary of the further properties *)

(** What the storage engine raises on the write paths: a failure of its own
    or a primary key that is taken. *)
Definition EngineError (e : Thrown) : Prop :=
  (exists n, e = StorageFailure n) \/
  (exists table, e = PrimaryKeyViolation table).

(** Each label of the list got a link row of its own, the rows in the order
    of the list, each to a tag row that carries the label. *)
Definition LinkedInOrder (rid : string) (d : Db) (labels : list string)
    (links : list ContentResourceTag.t) : Prop :=
  Forall2 (fun label l =>
             ContentResourceTag.resourceId l = rid /\
             exists t, In t (tags d) /\
                       Tag.id t = ContentResourceTag.tagId l /\
                       Tag.label t = label)
    labels links.

(** The labels a denormalized read shows. *)
Definition labelsOf (found : Found.t) : list (option string) :=
  map (fun l => option_map Tag.label (Found.tag l)) (Found.tags found).

(** The link rows a denormalized read shows. *)
Definition linksRead (found : Found.t) : list ContentResourceTag.t :=
  map Found.link (Found.tags found).

(** Ascending primary key of the link table. *)
Definition pkLe (a b : ContentResourceTag.t) : Prop := pkLtb b a = false.

(** The tables of [d'] extend those of [d]: no resource id, version row or
    tag row of [d] is gone or changed. *)
Definition Grown (d d' : Db) : Prop :=
  (exists nr, resourceIds d' = (resourceIds d ++ nr)%list) /\
  (exists nv, contentVersions d' = (contentVersions d ++ nv)%list) /\
  (exists nt, tags d' = (tags d ++ nt)%list).

(** The keys and references of the schema hold, and each label has one tag
    row. *)
Definition Sound (d : Db) : Prop := Schema d /\ NoDup (tagLabels d).

(** Only the rows with the given id may differ. *)
Definition OnlyRow (id : string) (rows rows' : list ContentResource.t)
    : Prop :=
  Forall2 (fun r r' =>
             ContentResource.id r' = ContentResource.id r /\
             (ContentResource.id r <> id -> r' = r))
    rows rows'.

(** The link rows of the other resources. *)
Definition otherLinks (d : Db) (id : string) : list ContentResourceTag.t :=
  filter (fun l => negb (String.eqb (ContentResourceTag.resourceId l) id))
    (contentResourceTags d).

(** ** Requests to the service *)

(** One call of a service method. *)
Inductive Request : Type :=
| CreateResource (input : CreateContentResourceInput.t)
| GetResource (id : string)
| GetResourcesByType (type : string)
| UpdateResource (id : string) (input : UpdateContentResourceInput.t)
    (updatedById : string)
| DeleteResource (id : string)
| GetVersionHistory (id : string).

(** What a call raised, if anything, and the store it left. *)
Definition raised {A} (r : Outcome A * Store) : option Thrown * Store :=
  (match fst r with Ok _ => None | Throw e => Some e end, snd r).

Definition serve (host : Host) (req : Request) (s : Store)
    : option Thrown * Store :=
  match req with
  | CreateResource input =>
      raised (ContentResourceService.createResource host input s)
  | GetResource id => raised (ContentResourceService.getResource host id s)
  | GetResourcesByType type =>
      raised (ContentResourceService.getResourcesByType host type s)
  | UpdateResource id input updatedById =>
      raised (ContentResourceService.updateResource host id input
                updatedById s)
  | DeleteResource id =>
      raised (ContentResourceService.deleteResource host id s)
  | GetVersionHistory id =>
      raised (ContentResourceService.getVersionHistory host id s)
  end.

(** The resource a request is about. *)
Definition requestId (req : Request) : option string :=
  match req with
  | GetResource id | UpdateResource id _ _ | DeleteResource id
  | GetVersionHistory id => Some id
  | CreateResource _ | GetResourcesByType _ => None
  end.

(** The methods whose repository calls sit inside a try/catch. *)
Definition translates (req : Request) : bool :=
  match req with
  | GetResource _ | GetResourcesByType _ => false
  | _ => true
  end.

Definition notFound : Thrown :=
  ContentResourceError "Resource not found" NOT_FOUND.

(** ** More inputs and stores for the examples *)

Definition fieldsUpdate : UpdateContentResourceInput.t :=
  UpdateContentResourceInput.mk (Some [("summary", JStr "S")]) None None None.

Definition retagInput : UpdateContentResourceInput.t :=
  UpdateContentResourceInput.mk None None (Some ["y"; "z"]) None.

(** The scenario's resource, created on [unaryHost]: its id is the empty
    string, the first identifier of that host. *)
Definition unaryStore : Store :=
  run unaryHost [CallCreate scenarioInput] initialStore.

Definition deletedStore : Store :=
  run demoHost [CallCreate scenarioInput; CallSoftDelete "uuid-00"]
    initialStore.

Definition scenarioFound : Found.t :=
  withRelations (db scenarioStore) (setCurrentVersionId "uuid-01" createdRow).

(** * Reasoning about the embedding *)

(** ** The embedding at work *)

(** [trim] strips the no-break space U+00A0 (bytes 194, 160) like the
    space. *)
Example trim_strips_no_break_space :
  isBlank (String (ascii_of_nat 194) (String (ascii_of_nat 160) " ")) = true
  /\ isBlank " x " = false.
Proof. split; reflexivity. Qed.

(** A key that is there with the value [undefined] counts for the
    refinement of [UpdateInputSchema]; [state] does not. *)
Example undefined_key_passes_validation :
  updateInputIssues
    (UpdateContentResourceInput.object Undefined Missing Missing Missing)
  = [] /\
  updateInputIssues publishInput
  = ["At least one field must be provided for update"].
Proof. split; reflexivity. Qed.

(** Versions created in the same second stay in the order they were
    inserted. *)
Example history_keeps_ties_in_table_order :
  map ContentVersion.id
    (orderByCreatedAt
       [ContentVersion.mk "v1" "r" [] 7 "u";
        ContentVersion.mk "v2" "r" [] 5 "u";
        ContentVersion.mk "v3" "r" [] 7 "u";
        ContentVersion.mk "v4" "r" [] 5 "u"])
  = ["v2"; "v4"; "v1"; "v3"].
Proof. reflexivity. Qed.


(** The labels come back in the order of the link keys: the second resource
    of [sharedStore] was given "other" before "shared", and the tag row of
    "shared" is the older one. *)
Example read_in_primary_key_order :
  option_map labelsOf (selectById (db sharedStore) "uuid-03")
  = Some [Some "shared"; Some "other"].
Proof. vm_compute. reflexivity. Qed.

(** ** Membership tests *)

Lemma memS_In (x : string) (l : list string) : memS x l = true <-> In x l.
Proof.
  unfold memS. rewrite existsb_exists. split.
  - intros (y & Hy & E). apply String.eqb_eq in E. now subst.
  - intros H. exists x. split; [assumption | apply String.eqb_refl].
Qed.

Lemma memS_notIn (x : string) (l : list string) : memS x l = false <-> ~ In x l.
Proof.
  rewrite <- memS_In. destruct (memS x l); split; congruence.
Qed.

Lemma pkEqb_eq (a b : string * string) : pkEqb a b = true <-> a = b.
Proof.
  destruct a as [a1 a2], b as [b1 b2]. unfold pkEqb. simpl.
  rewrite andb_true_iff, !String.eqb_eq. split.
  - intros [-> ->]. reflexivity.
  - intros E. inversion E. auto.
Qed.

Lemma memK_In (k : string * string) (l : list (string * string)) :
  memK k l = true <-> In k l.
Proof.
  unfold memK. rewrite existsb_exists. split.
  - intros (y & Hy & E). apply pkEqb_eq in E. now subst.
  - intros H. exists k. split; [assumption | now apply pkEqb_eq].
Qed.

Lemma memK_notIn (k : string * string) (l : list (string * string)) :
  memK k l = false <-> ~ In k l.
Proof.
  rewrite <- memK_In. destruct (memK k l); split; congruence.
Qed.

(** ** Inversion of the monad *)

Lemma bind_Ok {A B} (m : M A) (f : A -> M B) s b s2 :
  bind m f s = (Ok b, s2) ->
  exists a s1, m s = (Ok a, s1) /\ f a s1 = (Ok b, s2).
Proof.
  unfold bind. destruct (m s) as [[a | e] s1]; intros H.
  - exists a, s1. auto.
  - discriminate.
Qed.

Lemma ret_Ok {A} (a b : A) s s' : ret a s = (Ok b, s') -> b = a /\ s' = s.
Proof. unfold ret. intros H. inversion H. auto. Qed.

Lemma transaction_Ok {A} (body : M A) s a s' :
  transaction body s = (Ok a, s') -> body s = (Ok a, s').
Proof. intros H. exact H. Qed.

Lemma transaction_Throw {A} (body : M A) s e s' :
  transaction body s = (Throw e, s') -> body s = (Throw e, s').
Proof. intros H. exact H. Qed.

Lemma bind_assoc {A B C} (m : M A) (f : A -> M B) (g : B -> M C) s :
  bind (bind m f) g s = bind m (fun x => bind (f x) g) s.
Proof. unfold bind. destruct (m s) as [[a | e] s1]; reflexivity. Qed.

Lemma bind_ext {A B} (m : M A) (f g : A -> M B) s :
  (forall a s1, f a s1 = g a s1) -> bind m f s = bind m g s.
Proof. intros H. unfold bind. destruct (m s) as [[a | e] s1]; auto. Qed.

(** ** What a successful statement did *)

Section Statements.

Variable host : Host.

Lemma randomUUID_Ok s x s' :
  randomUUID host s = (Ok x, s') ->
  db s' = db s /\ x = uuidAt host (uuids s).
Proof. unfold randomUUID. intros H. inversion H. auto. Qed.

Lemma newDate_Ok s x s' :
  newDate host s = (Ok x, s') -> db s' = db s /\ x = dateAt host (dates s).
Proof. unfold newDate. intros H. inversion H. auto. Qed.

Lemma statement_Ok s u s' :
  statement host s = (Ok u, s') ->
  db s' = db s /\ failsAt host (statements s) = false.
Proof.
  unfold statement. destruct (failsAt host (statements s)); intros H;
    inversion H. auto.
Qed.

Lemma statement_db s o s' : statement host s = (o, s') -> db s' = db s.
Proof.
  unfold statement. destruct (failsAt host (statements s)); intros H;
    inversion H; reflexivity.
Qed.

Lemma getDb_Ok s d s' : getDb s = (Ok d, s') -> d = db s /\ s' = s.
Proof. unfold getDb. intros H. inversion H. auto. Qed.

Lemma putDb_Ok d s u s' : putDb d s = (Ok u, s') -> db s' = d.
Proof. unfold putDb. intros H. inversion H. reflexivity. Qed.

(** Peel one statement off a computation that returned. *)
Ltac statement_inv H :=
  let u := fresh "u" in
  let s1 := fresh "s" in
  let d := fresh "d" in
  let s2 := fresh "s" in
  let H1 := fresh "Hst" in
  let H2 := fresh "Hget" in
  let E := fresh "Edb" in
  apply bind_Ok in H; destruct H as (u & s1 & H1 & H);
  apply statement_Ok in H1; destruct H1 as [E _];
  apply bind_Ok in H; destruct H as (d & s2 & H2 & H);
  apply getDb_Ok in H2; destruct H2 as [-> ->].

Lemma insertContentResources_Ok row s r s' :
  insertContentResources host row s = (Ok r, s') ->
  r = row /\
  memS (ContentResource.id row) (resourceIds (db s)) = false /\
  db s' = mkDb (contentResources (db s) ++ [row]) (contentVersions (db s))
               (tags (db s)) (contentResourceTags (db s)).
Proof.
  unfold insertContentResources. intros H. statement_inv H.
  rewrite Edb in *.
  destruct (memS (ContentResource.id row) (resourceIds (db s))) eqn:Epk;
    [discriminate |].
  apply bind_Ok in H. destruct H as (u' & s3 & Hput & H).
  apply putDb_Ok in Hput. apply ret_Ok in H. destruct H as [-> ->].
  auto.
Qed.

Lemma insertContentVersions_Ok row s r s' :
  insertContentVersions host row s = (Ok r, s') ->
  r = row /\
  memS (ContentVersion.id row) (versionIds (db s)) = false /\
  memS (ContentVersion.resourceId row) (resourceIds (db s)) = true /\
  db s' = mkDb (contentResources (db s)) (contentVersions (db s) ++ [row])
               (tags (db s)) (contentResourceTags (db s)).
Proof.
  unfold insertContentVersions. intros H. statement_inv H.
  rewrite Edb in *.
  destruct (memS (ContentVersion.id row) (versionIds (db s))) eqn:Epk;
    [discriminate |].
  destruct (memS (ContentVersion.resourceId row) (resourceIds (db s)))
    eqn:Efk; [| discriminate].
  simpl in H.
  apply bind_Ok in H. destruct H as (u' & s3 & Hput & H).
  apply putDb_Ok in Hput. apply ret_Ok in H. destruct H as [-> ->].
  auto.
Qed.

Lemma insertTags_Ok row s r s' :
  insertTags host row s = (Ok r, s') ->
  r = row /\
  memS (Tag.id row) (tagIds (db s)) = false /\
  db s' = mkDb (contentResources (db s)) (contentVersions (db s))
               (tags (db s) ++ [row]) (contentResourceTags (db s)).
Proof.
  unfold insertTags. intros H. statement_inv H.
  rewrite Edb in *.
  destruct (memS (Tag.id row) (tagIds (db s))) eqn:Epk; [discriminate |].
  apply bind_Ok in H. destruct H as (u' & s3 & Hput & H).
  apply putDb_Ok in Hput. apply ret_Ok in H. destruct H as [-> ->].
  auto.
Qed.

Lemma insertContentResourceTags_Ok row s u s' :
  insertContentResourceTags host row s = (Ok u, s') ->
  memK (ContentResourceTag.pk row) (linkKeys (db s)) = false /\
  memS (ContentResourceTag.resourceId row) (resourceIds (db s)) = true /\
  memS (ContentResourceTag.tagId row) (tagIds (db s)) = true /\
  db s' = mkDb (contentResources (db s)) (contentVersions (db s))
               (tags (db s)) (contentResourceTags (db s) ++ [row]).
Proof.
  unfold insertContentResourceTags. intros H. statement_inv H.
  rewrite Edb in *.
  destruct (memK (ContentResourceTag.pk row) (linkKeys (db s))) eqn:Epk;
    [discriminate |].
  destruct (memS (ContentResourceTag.resourceId row) (resourceIds (db s)))
    eqn:Efk1; [| discriminate].
  destruct (memS (ContentResourceTag.tagId row) (tagIds (db s)))
    eqn:Efk2; [| discriminate].
  simpl in H. apply putDb_Ok in H. auto.
Qed.

Lemma updateContentResources_Ok g id s u s' :
  updateContentResources host g id s = (Ok u, s') ->
  db s' = mkDb (setWhereId g id (contentResources (db s)))
               (contentVersions (db s)) (tags (db s))
               (contentResourceTags (db s)).
Proof.
  unfold updateContentResources. intros H. statement_inv H.
  rewrite Edb in *. apply putDb_Ok in H. assumption.
Qed.

Lemma deleteContentResourceTags_Ok id s u s' :
  deleteContentResourceTags host id s = (Ok u, s') ->
  db s' = mkDb (contentResources (db s)) (contentVersions (db s))
               (tags (db s))
               (filter (fun l =>
                          negb (String.eqb
                                  (ContentResourceTag.resourceId l) id))
                  (contentResourceTags (db s))).
Proof.
  unfold deleteContentResourceTags. intros H. statement_inv H.
  rewrite Edb in *. apply putDb_Ok in H. assumption.
Qed.

Lemma findFirstTag_Ok label s r s' :
  findFirstTag host label s = (Ok r, s') ->
  db s' = db s /\ r = selectTagByLabel (db s) label.
Proof.
  unfold findFirstTag. intros H. statement_inv H.
  apply ret_Ok in H. destruct H as [-> ->]. rewrite Edb. auto.
Qed.

Lemma findById_Ok id s r s' :
  findById host id s = (Ok r, s') ->
  db s' = db s /\ r = selectById (db s) id.
Proof.
  unfold findById. intros H. statement_inv H.
  apply ret_Ok in H. destruct H as [-> ->]. rewrite Edb. auto.
Qed.

Lemma findByType_Ok type s r s' :
  findByType host type s = (Ok r, s') ->
  db s' = db s /\ r = selectByType (db s) type.
Proof.
  unfold findByType. intros H. statement_inv H.
  apply ret_Ok in H. destruct H as [-> ->]. rewrite Edb. auto.
Qed.

Lemma getVersionHistory_Ok id s r s' :
  getVersionHistory host id s = (Ok r, s') ->
  db s' = db s /\ r = selectVersionHistory (db s) id.
Proof.
  unfold getVersionHistory. intros H. statement_inv H.
  apply ret_Ok in H. destruct H as [-> ->]. rewrite Edb. auto.
Qed.

End Statements.

(** ** The write paths meet their summaries *)

Lemma db_eta (d : Db) :
  mkDb (contentResources d) (contentVersions d) (tags d)
       (contentResourceTags d) = d.
Proof. destruct d. reflexivity. Qed.

Lemma setWhereId_app g rid l1 l2 :
  (setWhereId g rid (l1 ++ l2)
   = setWhereId g rid l1 ++ setWhereId g rid l2)%list.
Proof. unfold setWhereId. apply map_app. Qed.

Lemma setWhereId_notIn g rid rows :
  ~ In rid (map ContentResource.id rows) -> setWhereId g rid rows = rows.
Proof.
  induction rows as [| r rows IH]; simpl; intros H; [reflexivity |].
  destruct (String.eqb_spec (ContentResource.id r) rid) as [E | E].
  - exfalso. apply H. left. assumption.
  - f_equal. apply IH. intros Hin. apply H. right. assumption.
Qed.

Lemma setWhereId_ids g rid rows :
  (forall r, ContentResource.id (g r) = ContentResource.id r) ->
  map ContentResource.id (setWhereId g rid rows)
  = map ContentResource.id rows.
Proof.
  intros Hg. unfold setWhereId. rewrite map_map. apply map_ext.
  intros r. destruct (String.eqb (ContentResource.id r) rid); auto.
Qed.

Section Summaries.

Variable host : Host.

Ltac step H H1 :=
  let a := fresh "a" in
  let s := fresh "s" in
  apply bind_Ok in H; destruct H as (a & s & H1 & H).

Lemma addTags_Ok rid labels : forall s u s',
  addTags host rid labels s = (Ok u, s') ->
  AddTags rid labels (db s) (db s').
Proof.
  induction labels as [| label rest IH]; intros s u s' H.
  - apply ret_Ok in H. destruct H as [_ ->]. constructor.
  - simpl in H.
    step H Hfind. apply findFirstTag_Ok in Hfind.
    destruct Hfind as [E1 ->].
    step H Htag. step H Hat. apply newDate_Ok in Hat.
    destruct Hat as [E2 ->].
    step H Hlink. apply insertContentResourceTags_Ok in Hlink.
    destruct Hlink as (Hpk & Hfk1 & Hfk2 & E3).
    apply IH in H. rewrite E3, E2 in H. rewrite E2 in Hpk, Hfk1, Hfk2.
    destruct (selectTagByLabel (db s) label) as [t |] eqn:Esel.
    + apply ret_Ok in Htag. destruct Htag as [-> ->].
      rewrite E1 in *.
      refine (AddTags_cons rid label rest (db s) t (db s) _ (db s')
                _ Hpk Hfk1 Hfk2 H).
      now constructor.
    + step Htag Hid. apply randomUUID_Ok in Hid. destruct Hid as [E4 ->].
      step Htag Hat. apply newDate_Ok in Hat. destruct Hat as [E5 ->].
      apply insertTags_Ok in Htag. destruct Htag as (-> & Hpk' & E6).
      rewrite E5, E4, E1 in E6, Hpk'.
      rewrite E6 in *.
      refine (AddTags_cons rid label rest (db s) _ (addTag _ (db s)) _
                (db s') _ Hpk Hfk1 Hfk2 H).
      now constructor.
Qed.

Lemma createTags_Ok rid o s u s' :
  match o with
  | Some (l :: ls) => addTags host rid (l :: ls)
  | _ => ret tt
  end s = (Ok u, s') ->
  AddTags rid (tagsGiven o) (db s) (db s').
Proof.
  destruct o as [[| l ls] |]; intros H.
  - apply ret_Ok in H. destruct H as [_ ->]. constructor.
  - eapply addTags_Ok. exact H.
  - apply ret_Ok in H. destruct H as [_ ->]. constructor.
Qed.

Lemma create_Ok input s r s' :
  create host input s = (Ok r, s') ->
  exists cAt uAt vid vAt,
    r = ContentResource.mk (uuidAt host (uuids s))
          (CreateContentResourceInput.type input)
          (CreateContentResourceInput.createdById input)
          (CreateContentResourceInput.fields input)
          None draft cAt uAt None /\
    memS (ContentResource.id r) (resourceIds (db s)) = false /\
    memS vid (versionIds (db s)) = false /\
    AddTags (ContentResource.id r)
      (tagsGiven (CreateContentResourceInput.tags input))
      (addVersion
         (ContentVersion.mk vid (ContentResource.id r)
            (CreateContentResourceInput.content input) vAt
            (CreateContentResourceInput.createdById input))
         (addResource (setCurrentVersionId vid r) (db s)))
      (db s').
Proof.
  unfold create. intros H. apply transaction_Ok in H. unfold createTx in H.
  step H Hid. apply randomUUID_Ok in Hid. destruct Hid as [E1 ->].
  step H Hc. apply newDate_Ok in Hc. destruct Hc as [E2 ->].
  step H Hu. apply newDate_Ok in Hu. destruct Hu as [E3 ->].
  step H Hres. apply insertContentResources_Ok in Hres.
  destruct Hres as (-> & Hpk & E4).
  step H Hvid. apply randomUUID_Ok in Hvid. destruct Hvid as [E5 ->].
  step H Hvat. apply newDate_Ok in Hvat. destruct Hvat as [E6 ->].
  step H Hver. apply insertContentVersions_Ok in Hver.
  destruct Hver as (-> & Hpkv & Hfk & E7).
  step H Hptr. apply updateContentResources_Ok in Hptr.
  step H Htags. apply ret_Ok in H. destruct H as [-> <-].
  apply createTags_Ok in Htags.
  simpl in *.
  rewrite E3, E2, E1 in E4, Hpk.
  rewrite E6, E5, E4 in E7, Hpkv. simpl in E7, Hpkv.
  rewrite E7 in Hptr. simpl in Hptr.
  rewrite setWhereId_app in Hptr.
  rewrite setWhereId_notIn in Hptr by (now apply memS_notIn).
  simpl in Hptr. rewrite String.eqb_refl in Hptr.
  rewrite Hptr in Htags.
  eexists _, _, _, _. split; [| split; [| split]].
  - reflexivity.
  - exact Hpk.
  - exact Hpkv.
  - exact Htags.
Qed.

Lemma update_Ok id input updatedById s res s' :
  update host id input updatedById s = (Ok res, s') ->
  exists found d1 d2,
    selectById (db s) id = Some found /\
    FieldsUpdated id (UpdateContentResourceInput.fields input) (db s) d1 /\
    ContentUpdated id updatedById
      (UpdateContentResourceInput.content input) d1 d2 /\
    TagsUpdated id (UpdateContentResourceInput.tags input) d2 (db s') /\
    res = selectById (db s') id.
Proof.
  unfold update. intros H. apply transaction_Ok in H. unfold updateTx in H.
  step H Hfind. apply findById_Ok in Hfind. destruct Hfind as [E0 ->].
  destruct (selectById (db s) id) as [found |] eqn:Hfound;
    [| discriminate].
  step H Hfields. step H Hcontent. step H Htags.
  apply findById_Ok in H. destruct H as [E9 ->]. rewrite E9.
  exists found, (db s1), (db s2). split; [reflexivity |].
  split; [| split; [| split; [| reflexivity]]].
  - unfold FieldsUpdated.
    destruct (UpdateContentResourceInput.fields input) as [f |].
    + step Hfields Hat. apply newDate_Ok in Hat. destruct Hat as [E1 ->].
      apply updateContentResources_Ok in Hfields.
      rewrite E1, E0 in Hfields. eexists. exact Hfields.
    + apply ret_Ok in Hfields. destruct Hfields as [_ ->]. exact E0.
  - unfold ContentUpdated.
    destruct (UpdateContentResourceInput.content input) as [c |].
    + step Hcontent Hvid. apply randomUUID_Ok in Hvid.
      destruct Hvid as [E1 ->].
      step Hcontent Hvat. apply newDate_Ok in Hvat.
      destruct Hvat as [E2 ->].
      step Hcontent Hver. apply insertContentVersions_Ok in Hver.
      destruct Hver as (-> & Hpk & Hfk & E3).
      step Hcontent Hat. apply newDate_Ok in Hat. destruct Hat as [E4 ->].
      apply updateContentResources_Ok in Hcontent.
      simpl in *. rewrite E2, E1 in Hpk, Hfk, E3.
      rewrite E4, E3 in Hcontent.
      eexists _, _, _. split; [exact Hpk |]. split; [exact Hfk |].
      exact Hcontent.
    + apply ret_Ok in Hcontent. destruct Hcontent as [_ ->]. reflexivity.
  - unfold TagsUpdated.
    destruct (UpdateContentResourceInput.tags input) as [ls |].
    + step Htags Hdel. apply deleteContentResourceTags_Ok in Hdel.
      apply addTags_Ok in Htags. rewrite Hdel in Htags. exact Htags.
    + apply ret_Ok in Htags. destruct Htags as [_ ->]. reflexivity.
Qed.

Lemma softDelete_Ok id s u s' :
  softDelete host id s = (Ok u, s') ->
  exists del upd, db s' = setResources (setDeletedAt del upd) id (db s).
Proof.
  unfold softDelete. intros H.
  step H Hdel. apply newDate_Ok in Hdel. destruct Hdel as [E1 ->].
  step H Hupd. apply newDate_Ok in Hupd. destruct Hupd as [E2 ->].
  apply updateContentResources_Ok in H. rewrite E2, E1 in H.
  eexists _, _. exact H.
Qed.

Lemma softDelete_Throw id s e s' :
  softDelete host id s = (Throw e, s') -> db s' = db s.
Proof.
  unfold softDelete, bind, newDate, updateContentResources, bind, statement,
    getDb, putDb. simpl.
  destruct (failsAt host (statements s)); intros H; inversion H; reflexivity.
Qed.

(** Reads leave the tables alone, whether they return or throw. *)
Lemma findById_db id s o s' : findById host id s = (o, s') -> db s' = db s.
Proof.
  unfold findById, bind, statement, getDb, ret. simpl.
  destruct (failsAt host (statements s)); intros H; inversion H; reflexivity.
Qed.

Lemma findByType_db type s o s' :
  findByType host type s = (o, s') -> db s' = db s.
Proof.
  unfold findByType, bind, statement, getDb, ret. simpl.
  destruct (failsAt host (statements s)); intros H; inversion H; reflexivity.
Qed.

Lemma getVersionHistory_db id s o s' :
  getVersionHistory host id s = (o, s') -> db s' = db s.
Proof.
  unfold getVersionHistory, bind, statement, getDb, ret. simpl.
  destruct (failsAt host (statements s)); intros H; inversion H; reflexivity.
Qed.

(** Reads return what the tables hold when the engine answers. *)
Lemma findById_run id s :
  failsAt host (statements s) = false ->
  fst (findById host id s) = Ok (selectById (db s) id).
Proof.
  intros Hf. unfold findById, bind, statement, getDb, ret. simpl.
  rewrite Hf. reflexivity.
Qed.

Lemma findByType_run type s :
  failsAt host (statements s) = false ->
  fst (findByType host type s) = Ok (selectByType (db s) type).
Proof.
  intros Hf. unfold findByType, bind, statement, getDb, ret. simpl.
  rewrite Hf. reflexivity.
Qed.

Lemma getVersionHistory_run id s :
  failsAt host (statements s) = false ->
  fst (getVersionHistory host id s) = Ok (selectVersionHistory (db s) id).
Proof.
  intros Hf. unfold getVersionHistory, bind, statement, getDb, ret. simpl.
  rewrite Hf. reflexivity.
Qed.

End Summaries.

(** ** Single effects keep the invariants *)

Lemma NoDup_snoc {A} (l : list A) (x : A) :
  NoDup l -> ~ In x l -> NoDup (l ++ [x]).
Proof.
  induction l as [| y l IH]; simpl; intros Hnd Hx.
  - constructor; [intros [] | constructor].
  - inversion Hnd as [| ? ? Hy Hl]; subst. constructor.
    + rewrite in_app_iff. simpl. intros [H | [H | []]]; [auto |].
      apply Hx. left. symmetry. assumption.
    + apply IH; [assumption |]. intros H. apply Hx. right. assumption.
Qed.

(** Deleting link rows keeps the composite key unique. *)
Lemma filter_links_NoDup (keep : ContentResourceTag.t -> bool)
    (rows : list ContentResourceTag.t) :
  NoDup (map ContentResourceTag.pk rows) ->
  NoDup (map ContentResourceTag.pk (filter keep rows)).
Proof.
  induction rows as [| row rows IH]; simpl; intros Hnd; [constructor |].
  inversion Hnd as [| ? ? Hrow Hrows]; subst.
  destruct (keep row); simpl; [constructor |]; auto.
  intros Hin. apply Hrow. apply in_map_iff in Hin.
  destruct Hin as (other & E & Hother). apply filter_In in Hother.
  apply in_map_iff. exists other. tauto.
Qed.

Lemma emptyDb_Consistent : Consistent emptyDb.
Proof.
  constructor.
  - constructor; simpl; try constructor; intros ? [].
  - constructor.
  - intros r [].
Qed.

Lemma Schema_addResource r d :
  Schema d -> ~ In (ContentResource.id r) (resourceIds d) ->
  Schema (addResource r d).
Proof.
  intros [H1 H2 H3 H4 H5 H6 H7] Hr.
  constructor; unfold resourceIds in *; simpl; auto.
  - rewrite map_app. simpl. apply NoDup_snoc; assumption.
  - intros v Hv. rewrite map_app, in_app_iff. left. auto.
  - intros l Hl. rewrite map_app, in_app_iff. left. auto.
Qed.

Lemma Schema_addVersion v d :
  Schema d -> ~ In (ContentVersion.id v) (versionIds d) ->
  In (ContentVersion.resourceId v) (resourceIds d) ->
  Schema (addVersion v d).
Proof.
  intros [H1 H2 H3 H4 H5 H6 H7] Hv Hfk.
  constructor; unfold versionIds in *; simpl; auto.
  - rewrite map_app. simpl. apply NoDup_snoc; assumption.
  - intros w Hw. apply in_app_iff in Hw. destruct Hw as [Hw | [<- | []]];
      auto.
Qed.

Lemma Schema_addTag t d :
  Schema d -> ~ In (Tag.id t) (tagIds d) -> Schema (addTag t d).
Proof.
  intros [H1 H2 H3 H4 H5 H6 H7] Ht.
  constructor; unfold tagIds in *; simpl; auto.
  - rewrite map_app. simpl. apply NoDup_snoc; assumption.
  - intros l Hl. rewrite map_app, in_app_iff. left. auto.
Qed.

Lemma Schema_addLink l d :
  Schema d -> ~ In (ContentResourceTag.pk l) (linkKeys d) ->
  In (ContentResourceTag.resourceId l) (resourceIds d) ->
  In (ContentResourceTag.tagId l) (tagIds d) ->
  Schema (addLink l d).
Proof.
  intros [H1 H2 H3 H4 H5 H6 H7] Hl Hr Ht.
  constructor; unfold linkKeys in *; simpl; auto.
  - rewrite map_app. simpl. apply NoDup_snoc; assumption.
  - intros k Hk. apply in_app_iff in Hk. destruct Hk as [Hk | [<- | []]];
      auto.
  - intros k Hk. apply in_app_iff in Hk. destruct Hk as [Hk | [<- | []]];
      auto.
Qed.

Lemma Schema_setResources g id d :
  (forall r, ContentResource.id (g r) = ContentResource.id r) ->
  Schema d -> Schema (setResources g id d).
Proof.
  intros Hg [H1 H2 H3 H4 H5 H6 H7].
  constructor; unfold resourceIds in *; simpl;
    rewrite ?setWhereId_ids by assumption; auto.
Qed.

Lemma Schema_dropLinks id d : Schema d -> Schema (dropLinks id d).
Proof.
  intros [H1 H2 H3 H4 H5 H6 H7].
  constructor; unfold linkKeys in *; simpl; auto.
  - apply filter_links_NoDup. assumption.
  - intros l Hl. apply filter_In in Hl. apply H6. tauto.
  - intros l Hl. apply filter_In in Hl. apply H7. tauto.
Qed.

Lemma selectTagByLabel_None d label :
  selectTagByLabel d label = None -> ~ In label (tagLabels d).
Proof.
  unfold selectTagByLabel, tagLabels. intros Hnone Hin.
  apply in_map_iff in Hin. destruct Hin as (t & E & Ht).
  apply (find_none _ _ Hnone) in Ht. simpl in Ht.
  rewrite E, String.eqb_refl in Ht. discriminate.
Qed.

Lemma selectTagByLabel_Some d label t :
  selectTagByLabel d label = Some t -> In t (tags d) /\ Tag.label t = label.
Proof.
  unfold selectTagByLabel. intros H. apply find_some in H.
  destruct H as [Hin E]. apply String.eqb_eq in E. auto.
Qed.

Lemma Pointers_ext d d' :
  contentResources d' = contentResources d ->
  contentVersions d' = contentVersions d ->
  Pointers d -> Pointers d'.
Proof. unfold Pointers. intros -> ->. auto. Qed.

Lemma in_setWhereId g rid rows r' :
  In r' (setWhereId g rid rows) ->
  exists r, In r rows /\
    ((ContentResource.id r = rid /\ r' = g r) \/
     (ContentResource.id r <> rid /\ r' = r)).
Proof.
  unfold setWhereId. intros H. apply in_map_iff in H.
  destruct H as (r & E & Hr). exists r. split; [assumption |].
  destruct (String.eqb_spec (ContentResource.id r) rid); auto.
Qed.

(** Rewriting columns other than the key and the pointer. *)
Lemma Pointers_frame g rid d :
  (forall r, ContentResource.id (g r) = ContentResource.id r) ->
  (forall r, ContentResource.currentVersionId (g r)
             = ContentResource.currentVersionId r) ->
  Pointers d -> Pointers (setResources g rid d).
Proof.
  intros Hid Hcur HP r' Hr'. simpl in *.
  apply in_setWhereId in Hr'.
  destruct Hr' as (r & Hr & [[E ->] | [E ->]]);
    rewrite ?Hid, ?Hcur; apply HP; assumption.
Qed.

(** A new version together with the repointing of its resource. *)
Lemma Pointers_newVersion g v d :
  (forall r, ContentResource.id (g r) = ContentResource.id r) ->
  (forall r, ContentResource.currentVersionId (g r)
             = Some (ContentVersion.id v)) ->
  Pointers d ->
  Pointers (setResources g (ContentVersion.resourceId v) (addVersion v d)).
Proof.
  intros Hid Hcur HP r' Hr'. simpl in *.
  apply in_setWhereId in Hr'.
  destruct Hr' as (r & Hr & [[E ->] | [E ->]]).
  - rewrite Hid, Hcur. split.
    + intros; discriminate.
    + intros vid Hv. inversion Hv; subst vid. exists v.
      rewrite in_app_iff. simpl. auto.
  - destruct (HP r Hr) as [Ha Hb]. split.
    + intros w Hw Ew. apply in_app_iff in Hw.
      destruct Hw as [Hw | [<- | []]]; [eauto | congruence].
    + intros vid Hv. destruct (Hb vid Hv) as (w & Hw & E1 & E2).
      exists w. rewrite in_app_iff. auto.
Qed.

(** A new resource together with its first version. *)
Lemma Pointers_create r v d :
  Schema d ->
  ~ In (ContentResource.id r) (resourceIds d) ->
  ContentVersion.resourceId v = ContentResource.id r ->
  ContentResource.currentVersionId r = Some (ContentVersion.id v) ->
  Pointers d -> Pointers (addVersion v (addResource r d)).
Proof.
  intros HS Hfresh Ev Ecur HP r' Hr'. simpl in *.
  apply in_app_iff in Hr'. destruct Hr' as [Hr' | [<- | []]].
  - destruct (HP r' Hr') as [Ha Hb]. split.
    + intros w Hw Ew. apply in_app_iff in Hw.
      destruct Hw as [Hw | [<- | []]]; [eauto |].
      exfalso. apply Hfresh. rewrite <- Ev, Ew.
      unfold resourceIds. apply in_map. assumption.
    + intros vid Hv. destruct (Hb vid Hv) as (w & Hw & E1 & E2).
      exists w. rewrite in_app_iff. auto.
  - split.
    + intros; congruence.
    + intros vid Hv. rewrite Ecur in Hv. inversion Hv; subst vid.
      exists v. rewrite in_app_iff. simpl. auto.
Qed.

(** ** The tag loop *)

Lemma find_app_Some {A} (p : A -> bool) (l l' : list A) x :
  find p l = Some x -> find p (l ++ l') = Some x.
Proof.
  induction l as [| y l IH]; simpl; [discriminate |].
  destruct (p y); auto.
Qed.

Lemma find_app_None {A} (p : A -> bool) (l l' : list A) :
  find p l = None -> find p (l ++ l') = find p l'.
Proof.
  induction l as [| y l IH]; simpl; [reflexivity |].
  destruct (p y); [discriminate | auto].
Qed.

Lemma TagResolved_select label d t d1 :
  TagResolved label d t d1 -> selectTagByLabel d1 label = Some t.
Proof.
  intros [Hsel | Hnone Hpk Hlabel]; [assumption |].
  unfold selectTagByLabel in *. simpl.
  rewrite find_app_None by assumption. simpl.
  rewrite Hlabel, String.eqb_refl. reflexivity.
Qed.

Lemma TagResolved_grows label d t d1 :
  TagResolved label d t d1 ->
  contentResources d1 = contentResources d /\
  contentVersions d1 = contentVersions d /\
  contentResourceTags d1 = contentResourceTags d /\
  (exists nt, tags d1 = (tags d ++ nt)%list).
Proof.
  intros [Hsel | Hnone Hpk Hlabel]; simpl; repeat split; trivial.
  - exists []. now rewrite app_nil_r.
  - now exists [t].
Qed.

Lemma AddTags_grows rid labels d d' :
  AddTags rid labels d d' ->
  contentResources d' = contentResources d /\
  contentVersions d' = contentVersions d /\
  (exists nt, tags d' = (tags d ++ nt)%list) /\
  (exists nl, contentResourceTags d' = (contentResourceTags d ++ nl)%list /\
              Forall (fun l => ContentResourceTag.resourceId l = rid) nl).
Proof.
  induction 1 as [d | label rest d t d1 at_ d' Hres Hpk Hfk1 Hfk2 Hrest IH].
  - repeat split; trivial.
    + exists []. now rewrite app_nil_r.
    + exists []. split; [now rewrite app_nil_r | constructor].
  - destruct IH as (E1 & E2 & (nt & E3) & (nl & E4 & Hnl)).
    apply TagResolved_grows in Hres.
    destruct Hres as (R1 & R2 & R3 & (nt1 & R4)). simpl in *.
    split; [congruence |]. split; [congruence |]. split.
    + exists (nt1 ++ nt)%list. rewrite E3, R4. now rewrite app_assoc.
    + exists (ContentResourceTag.mk rid (Tag.id t) at_ :: nl). split.
      * rewrite E4, R3, <- app_assoc. reflexivity.
      * constructor; [reflexivity | assumption].
Qed.

Lemma AddTags_select rid labels d d' label t :
  AddTags rid labels d d' ->
  selectTagByLabel d label = Some t -> selectTagByLabel d' label = Some t.
Proof.
  intros H Hsel. apply AddTags_grows in H.
  destruct H as (_ & _ & (nt & E) & _). unfold selectTagByLabel in *.
  rewrite E. now apply find_app_Some.
Qed.

Lemma AddTags_linkKeys rid labels d d' k :
  AddTags rid labels d d' -> In k (linkKeys d) -> In k (linkKeys d').
Proof.
  intros H Hk. apply AddTags_grows in H.
  destruct H as (_ & _ & _ & (nl & E & _)). unfold linkKeys in *.
  rewrite E, map_app, in_app_iff. auto.
Qed.

(** Every label of a completed loop is linked, through the first tag row
    that carries it. *)
Lemma AddTags_linked rid labels d d' :
  AddTags rid labels d d' ->
  forall label, In label labels ->
    exists t, selectTagByLabel d' label = Some t /\
              In (rid, Tag.id t) (linkKeys d').
Proof.
  induction 1 as [d | label rest d t d1 at_ d' Hres Hpk Hfk1 Hfk2 Hrest IH];
    intros l Hl; [destruct Hl |].
  destruct Hl as [<- | Hl]; [| auto].
  exists t. split.
  - eapply AddTags_select; [exact Hrest |].
    apply TagResolved_select in Hres. exact Hres.
  - eapply AddTags_linkKeys; [exact Hrest |].
    unfold linkKeys. simpl. rewrite map_app, in_app_iff. simpl. auto.
Qed.

(** A label whose tag is already linked to the resource cannot be processed:
    the link insert hits the composite primary key. *)
Lemma AddTags_not_linked rid labels d d' :
  AddTags rid labels d d' ->
  forall label t, In label labels ->
    selectTagByLabel d label = Some t ->
    In (rid, Tag.id t) (linkKeys d) -> False.
Proof.
  induction 1 as [d | label rest d t d1 at_ d' Hres Hpk Hfk1 Hfk2 Hrest IH];
    intros l t0 Hl Hsel Hin; [destruct Hl |].
  destruct Hl as [<- | Hl].
  - destruct Hres as [Hsel' | Hnone _ _]; [| congruence].
    assert (t0 = t) by congruence. subst t0.
    apply memK_notIn in Hpk. contradiction.
  - apply (IH l t0 Hl).
    + destruct Hres as [Hsel' | Hnone _ _]; simpl; [assumption |].
      unfold selectTagByLabel in *. simpl. now apply find_app_Some.
    + apply TagResolved_grows in Hres. destruct Hres as (_ & _ & R3 & _).
      unfold linkKeys in *. simpl. rewrite R3, map_app, in_app_iff. auto.
Qed.

(** Hence a completed loop was given pairwise distinct labels. *)
Lemma AddTags_NoDup rid labels d d' :
  AddTags rid labels d d' -> NoDup labels.
Proof.
  induction 1 as [d | label rest d t d1 at_ d' Hres Hpk Hfk1 Hfk2 Hrest IH];
    constructor; [| assumption].
  intros Hl.
  apply (AddTags_not_linked _ _ _ _ Hrest label t Hl).
  - apply TagResolved_select in Hres.
    unfold selectTagByLabel in *. simpl. exact Hres.
  - unfold linkKeys. simpl. rewrite map_app, in_app_iff. simpl. auto.
Qed.

Lemma AddTags_Schema rid labels d d' :
  AddTags rid labels d d' ->
  Schema d -> NoDup (tagLabels d) -> Schema d' /\ NoDup (tagLabels d').
Proof.
  induction 1 as [d | label rest d t d1 at_ d' Hres Hpk Hfk1 Hfk2 Hrest IH];
    intros HS HL; [auto |].
  assert (H1 : Schema d1 /\ NoDup (tagLabels d1)).
  { destruct Hres as [Hsel | Hnone Hpkt Hlabel]; [auto |]. split.
    - apply Schema_addTag; [assumption | now apply memS_notIn].
    - unfold tagLabels. simpl. rewrite map_app. simpl.
      apply NoDup_snoc; [assumption |].
      rewrite Hlabel. now apply selectTagByLabel_None. }
  destruct H1 as [HS1 HL1]. apply IH.
  - apply Schema_addLink; simpl.
    + assumption.
    + now apply memK_notIn.
    + now apply memS_In.
    + now apply memS_In.
  - exact HL1.
Qed.

Lemma AddTags_Consistent rid labels d d' :
  AddTags rid labels d d' -> Consistent d -> Consistent d'.
Proof.
  intros H [HS HL HP].
  destruct (AddTags_Schema _ _ _ _ H HS HL) as [HS' HL'].
  destruct (AddTags_grows _ _ _ _ H) as (E1 & E2 & _).
  constructor; trivial. now apply (Pointers_ext d).
Qed.

(** ** The write paths keep the tables consistent *)

Lemma FieldsUpdated_Consistent id o d d' :
  FieldsUpdated id o d d' -> Consistent d -> Consistent d'.
Proof.
  destruct o as [f |]; simpl; [| now intros ->].
  intros [at_ ->] [HS HL HP]. constructor.
  - now apply Schema_setResources.
  - exact HL.
  - now apply Pointers_frame.
Qed.

Lemma ContentUpdated_Consistent id by_ o d d' :
  ContentUpdated id by_ o d d' -> Consistent d -> Consistent d'.
Proof.
  destruct o as [c |]; simpl; [| now intros ->].
  intros (vid & vAt & at_ & Hpk & Hfk & ->) [HS HL HP]. constructor.
  - apply Schema_setResources; [reflexivity |].
    apply Schema_addVersion; simpl;
      [assumption | now apply memS_notIn | now apply memS_In].
  - exact HL.
  - apply (Pointers_newVersion (setCurrentVersionIdAt vid at_)
             (ContentVersion.mk vid id c vAt by_)); auto.
Qed.

Lemma dropLinks_Consistent id d : Consistent d -> Consistent (dropLinks id d).
Proof.
  intros [HS HL HP]. constructor.
  - now apply Schema_dropLinks.
  - exact HL.
  - now apply (Pointers_ext d).
Qed.

Lemma TagsUpdated_Consistent id o d d' :
  TagsUpdated id o d d' -> Consistent d -> Consistent d'.
Proof.
  destruct o as [ls |]; simpl; [| now intros ->].
  intros H HC. eapply AddTags_Consistent; [exact H |].
  now apply dropLinks_Consistent.
Qed.

Section Preservation.

Variable host : Host.

Lemma create_Consistent input s r s' :
  create host input s = (Ok r, s') ->
  Consistent (db s) -> Consistent (db s').
Proof.
  intros H [HS HL HP]. apply create_Ok in H.
  destruct H as (cAt & uAt & vid & vAt & -> & Hpk & Hpkv & HA).
  simpl in *. apply memS_notIn in Hpk, Hpkv.
  eapply AddTags_Consistent; [exact HA |]. constructor.
  - apply Schema_addVersion; simpl.
    + now apply Schema_addResource.
    + exact Hpkv.
    + unfold resourceIds. simpl. rewrite map_app, in_app_iff. simpl. auto.
  - exact HL.
  - apply Pointers_create; auto.
Qed.

Lemma update_Consistent id input by_ s res s' :
  update host id input by_ s = (Ok res, s') ->
  Consistent (db s) -> Consistent (db s').
Proof.
  intros H HC. apply update_Ok in H.
  destruct H as (found & d1 & d2 & _ & HF & HCo & HT & _).
  eapply TagsUpdated_Consistent; [exact HT |].
  eapply ContentUpdated_Consistent; [exact HCo |].
  eapply FieldsUpdated_Consistent; [exact HF | exact HC].
Qed.

Lemma softDelete_Consistent id s u s' :
  softDelete host id s = (Ok u, s') ->
  Consistent (db s) -> Consistent (db s').
Proof.
  intros H [HS HL HP]. apply softDelete_Ok in H.
  destruct H as (del & upd & ->). constructor.
  - now apply Schema_setResources.
  - exact HL.
  - now apply Pointers_frame.
Qed.

End Preservation.

(** ** States reached by calls that returned are consistent *)

Lemma exec_Consistent host c s :
  returned host c s = true ->
  Consistent (db s) -> Consistent (db (exec host c s)).
Proof.
  intros Hret HC.
  destruct c as [input | id input by_ | id | id | type | id];
    unfold returned in Hret; unfold exec.
  - destruct (create host input s) as [[r | e] s'] eqn:E; [| discriminate].
    eapply create_Consistent; eassumption.
  - destruct (update host id input by_ s) as [[r | e] s'] eqn:E;
      [| discriminate].
    eapply update_Consistent; eassumption.
  - destruct (softDelete host id s) as [[r | e] s'] eqn:E; [| discriminate].
    eapply softDelete_Consistent; eassumption.
  - destruct (findById host id s) as [o s'] eqn:E.
    apply findById_db in E. simpl. now rewrite E.
  - destruct (findByType host type s) as [o s'] eqn:E.
    apply findByType_db in E. simpl. now rewrite E.
  - destruct (getVersionHistory host id s) as [o s'] eqn:E.
    apply getVersionHistory_db in E. simpl. now rewrite E.
Qed.

Lemma run_Consistent host calls : forall s,
  allReturned host calls s = true ->
  Consistent (db s) -> Consistent (db (run host calls s)).
Proof.
  induction calls as [| c calls IH]; intros s Hret HC; [assumption |].
  simpl in Hret. apply andb_true_iff in Hret. destruct Hret as [Hc Hrest].
  change (run host (c :: calls) s) with (run host calls (exec host c s)).
  apply IH; [exact Hrest |]. now apply exec_Consistent.
Qed.

Lemma NoDup_map_eq {A B} (f : A -> B) (l : list A) x y :
  NoDup (map f l) -> In x l -> In y l -> f x = f y -> x = y.
Proof.
  induction l as [| z l IH]; simpl; intros Hnd Hx Hy E; [destruct Hx |].
  inversion Hnd as [| ? ? Hz Hl]; subst.
  destruct Hx as [-> | Hx], Hy as [-> | Hy]; auto.
  - exfalso. apply Hz. rewrite E. now apply in_map.
  - exfalso. apply Hz. rewrite <- E. now apply in_map.
Qed.

Lemma findVersion_In d v :
  NoDup (versionIds d) -> In v (contentVersions d) ->
  findVersion d (ContentVersion.id v) = Some v.
Proof.
  unfold findVersion, versionIds. intros Hnd Hin.
  destruct (find (fun w => String.eqb (ContentVersion.id w)
                             (ContentVersion.id v))
              (contentVersions d)) as [w |] eqn:E.
  - apply find_some in E. destruct E as [Hw E]. apply String.eqb_eq in E.
    f_equal. eapply NoDup_map_eq; eauto.
  - apply (find_none _ _ E) in Hin. simpl in Hin.
    rewrite String.eqb_refl in Hin. discriminate.
Qed.

(** C3 (the code departs from it).  The invariant holds as long as every
    call returns ([run_Consistent]), and [create] sets the pointer right
    after it has inserted the first version.  But the two statements are not
    one transaction: when the storage engine fails the pointer update, the
    resource row and its version row stay, and the resource -- not
    soft-deleted, owning a version -- has no current version. *)
Theorem failed_create_breaks_pointer_invariant_C3 :
  let s := run (failingHost 2) [CallCreate scenarioInput] initialStore in
  exists r v,
    In r (contentResources (db s)) /\
    ContentResource.deletedAt r = None /\
    In v (contentVersions (db s)) /\
    ContentVersion.resourceId v = ContentResource.id r /\
    ContentResource.currentVersionId r = None.
Proof.
  exists createdRow,
         (ContentVersion.mk "uuid-01" "uuid-00" [("title", JStr "T")]
            1700000000 "u1").
  vm_compute. repeat split; left; reflexivity.
Qed.

(** ** A write that fails part-way *)

(** C2 (the code departs from it).  [create] sends the resource insert,
    the version insert and then the pointer update: failing statement 2 is
    failing after the version insert and before the pointer update.  The
    call throws the engine's error, and the resource row (its pointer still
    null) and the version row stay in the tables.  Likewise an [update] that
    replaces the tags and fails at the insert of the new tag has already
    deleted the links of the resource.  The callback of [db.transaction] is
    [async]; the driver's transaction is over before its statements run. *)
Theorem failed_write_keeps_partial_rows_C2 :
  (let r := create (failingHost 2) scenarioInput initialStore in
   fst r = Throw (StorageFailure 2) /\
   contentResources (db (snd r)) = [createdRow] /\
   versionIds (db (snd r)) = ["uuid-01"]) /\
  (let r := update (failingHost 9) "uuid-00" replaceInput "u1" taggedStore in
   fst r = Throw (StorageFailure 9) /\
   linkKeys (db taggedStore) = [("uuid-00", "uuid-02")] /\
   linkKeys (db (snd r)) = []).
Proof.
  split; vm_compute; repeat split; reflexivity.
Qed.

(** ** Duplicate labels *)

Section DuplicateLabels.

Variable host : Host.

Lemma addTags_duplicate rid labels s u s' :
  ~ NoDup labels -> addTags host rid labels s <> (Ok u, s').
Proof.
  intros Hdup H. apply Hdup. apply addTags_Ok in H.
  eapply AddTags_NoDup. exact H.
Qed.

Lemma create_duplicate input labels s r s' :
  CreateContentResourceInput.tags input = Some labels ->
  ~ NoDup labels -> create host input s <> (Ok r, s').
Proof.
  intros Htags Hdup H. apply Hdup. apply create_Ok in H.
  destruct H as (cAt & uAt & vid & vAt & _ & _ & _ & HA).
  rewrite Htags in HA. simpl in HA. eapply AddTags_NoDup. exact HA.
Qed.

Lemma update_duplicate id input by_ labels s r s' :
  UpdateContentResourceInput.tags input = Some labels ->
  ~ NoDup labels -> update host id input by_ s <> (Ok r, s').
Proof.
  intros Htags Hdup H. apply Hdup. apply update_Ok in H.
  destruct H as (found & d1 & d2 & _ & _ & _ & HT & _).
  rewrite Htags in HT. simpl in HT. eapply AddTags_NoDup. exact HT.
Qed.

(** The loop over a list is the loop over its head part, then the loop over
    the rest. *)
Lemma addTags_app rid before after : forall s,
  addTags host rid (before ++ after) s
  = bind (addTags host rid before) (fun _ => addTags host rid after) s.
Proof.
  induction before as [| label before IH]; intros s.
  - reflexivity.
  - simpl. rewrite bind_assoc. apply bind_ext. intros found s1.
    rewrite bind_assoc. apply bind_ext. intros tag s2.
    rewrite bind_assoc. apply bind_ext. intros at_ s3.
    rewrite bind_assoc. apply bind_ext. intros u s4.
    apply IH.
Qed.

(** A label whose first tag row is already linked to the resource: the
    lookup finds that row and the link insert repeats the key. *)
Lemma addTags_repeated_label rid label after s t :
  selectTagByLabel (db s) label = Some t ->
  In (rid, Tag.id t) (linkKeys (db s)) ->
  failsAt host (statements s) = false ->
  failsAt host (S (statements s)) = false ->
  fst (addTags host rid (label :: after) s)
  = Throw (PrimaryKeyViolation "content_resource_tags").
Proof.
  intros Hsel Hin Hf1 Hf2. apply memK_In in Hin.
  simpl. unfold bind, findFirstTag, bind, statement, getDb, ret. simpl.
  rewrite Hf1. simpl. rewrite Hsel. simpl.
  unfold insertContentResourceTags, bind, statement, getDb. simpl.
  rewrite Hf2. simpl.
  unfold ContentResourceTag.pk. simpl. rewrite Hin. reflexivity.
Qed.

Lemma addTags_second_occurrence rid before label after s u s1 :
  In label before ->
  addTags host rid before s = (Ok u, s1) ->
  failsAt host (statements s1) = false ->
  failsAt host (S (statements s1)) = false ->
  fst (addTags host rid (before ++ label :: after) s)
  = Throw (PrimaryKeyViolation "content_resource_tags").
Proof.
  intros Hin H Hf1 Hf2. rewrite addTags_app. unfold bind. rewrite H.
  pose proof (addTags_Ok host rid before s u s1 H) as HA.
  destruct (AddTags_linked _ _ _ _ HA label Hin) as (t & Hsel & Hlinked).
  now apply (addTags_repeated_label rid label after s1 t).
Qed.

End DuplicateLabels.

(** C10 (the code departs from it).  Labels are not deduplicated, and a
    tag list that holds a label twice does make [create] and [update] throw
    ([create_duplicate], [update_duplicate]): on the second occurrence the
    loop finds the tag row it linked before and repeats the composite
    primary key of the link table ([addTags_second_occurrence]).  But the
    call is not undone: everything written before the second occurrence
    stays -- for [create] the resource, its version, the tags and the links
    made so far; for [update] the old links are gone and the new ones made
    so far are there. *)
Theorem duplicate_label_keeps_partial_rows_C10 :
  (let r := create demoHost duplicateInput initialStore in
   fst r = Throw (PrimaryKeyViolation "content_resource_tags") /\
   resourceIds (db (snd r)) = ["uuid-00"] /\
   versionIds (db (snd r)) = ["uuid-01"] /\
   tagLabels (db (snd r)) = ["x"; "y"] /\
   linkKeys (db (snd r)) = [("uuid-00", "uuid-02"); ("uuid-00", "uuid-03")])
  /\
  (let r := update demoHost "uuid-00" repeatedInput "u1" taggedStore in
   fst r = Throw (PrimaryKeyViolation "content_resource_tags") /\
   linkKeys (db taggedStore) = [("uuid-00", "uuid-02")] /\
   tagLabels (db (snd r)) = ["a"; "b"] /\
   linkKeys (db (snd r)) = [("uuid-00", "uuid-03")]).
Proof.
  split; vm_compute; repeat split; reflexivity.
Qed.

(** ** Soft delete *)

Lemma find_all_false {A} (p : A -> bool) (l : list A) :
  (forall x, In x l -> p x = false) -> find p l = None.
Proof.
  induction l as [| y l IH]; simpl; intros H; [reflexivity |].
  rewrite (H y) by auto. apply IH. auto.
Qed.

Lemma setDeletedAt_rows del upd rid rows :
  Forall2 (fun r r' =>
             if String.eqb (ContentResource.id r) rid
             then sameButTimestamps r r' /\
                  ContentResource.deletedAt r' <> None
             else r' = r)
    rows (setWhereId (setDeletedAt del upd) rid rows).
Proof.
  induction rows as [| r rows IH]; simpl; constructor; [| exact IH].
  destruct (String.eqb (ContentResource.id r) rid); [| reflexivity].
  unfold sameButTimestamps. simpl. repeat split. discriminate.
Qed.

Lemma deleted_not_selected del upd rid rows r' :
  In r' (setWhereId (setDeletedAt del upd) rid rows) ->
  ContentResource.deletedAt r' = None ->
  ContentResource.id r' <> rid.
Proof.
  intros Hin Hdel. apply in_setWhereId in Hin.
  destruct Hin as (r & _ & [[_ ->] | [E ->]]); [discriminate | exact E].
Qed.

(** C7. After a [softDelete id] that returned, [findById id] finds nothing
    and no [findByType] result holds a resource with that id; the version,
    tag and link tables are untouched, and the resource table holds the same
    rows as before, those with that id changed in [deletedAt] and
    [updatedAt] only. *)
Theorem soft_delete_visibility_C7 :
  forall (host : Host) (id : string) (s s' : Store) (u : unit),
    softDelete host id s = (Ok u, s') ->
    (failsAt host (statements s') = false ->
     fst (findById host id s') = Ok None) /\
    (forall type, failsAt host (statements s') = false ->
       exists found,
         fst (findByType host type s') = Ok found /\
         forall f, In f found ->
           ContentResource.id (Found.row f) <> id) /\
    contentVersions (db s') = contentVersions (db s) /\
    tags (db s') = tags (db s) /\
    contentResourceTags (db s') = contentResourceTags (db s) /\
    Forall2 (fun r r' =>
               if String.eqb (ContentResource.id r) id
               then sameButTimestamps r r' /\
                    ContentResource.deletedAt r' <> None
               else r' = r)
      (contentResources (db s)) (contentResources (db s')).
Proof.
  intros host id s s' u H. apply softDelete_Ok in H.
  destruct H as (del & upd & E).
  split; [| split; [| rewrite E; simpl; repeat split]].
  - intros Hf. rewrite (findById_run host id s' Hf). f_equal.
    unfold selectById. rewrite E. simpl.
    rewrite find_all_false; [reflexivity |].
    intros r' Hr'.
    destruct (ContentResource.deletedAt r') as [d |] eqn:Hdel;
      [now rewrite andb_false_r |].
    apply (deleted_not_selected _ _ _ _ _ Hr') in Hdel.
    apply String.eqb_neq in Hdel. now rewrite Hdel.
  - intros type Hf. exists (selectByType (db s') type).
    split; [exact (findByType_run host type s' Hf) |].
    intros f Hin. unfold selectByType in Hin. rewrite E in Hin. simpl in Hin.
    apply in_map_iff in Hin. destruct Hin as (r' & <- & Hr'). simpl.
    apply filter_In in Hr'. destruct Hr' as [Hr' Hp].
    apply andb_true_iff in Hp. destruct Hp as [_ Hp].
    apply (deleted_not_selected _ _ _ _ _ Hr').
    destruct (ContentResource.deletedAt r'); [discriminate | reflexivity].
  - apply setDeletedAt_rows.
Qed.

Lemma soft_delete_visibility_C7_witness :
  fst (findById demoHost "uuid-00"
         (snd (softDelete demoHost "uuid-00" scenarioStore))) = Ok None.
Proof.
  refine (proj1 (soft_delete_visibility_C7 demoHost "uuid-00" scenarioStore
                   (snd (softDelete demoHost "uuid-00" scenarioStore)) tt _)
            _).
  - vm_compute. reflexivity.
  - reflexivity.
Defined.

(** ** Version history *)



Lemma insertByCreatedAt_Forall (P : ContentVersion.t -> Prop) v l :
  P v -> Forall P l -> Forall P (insertByCreatedAt v l).
Proof.
  intros Hv Hl. induction Hl as [| w l Hw Hl IH]; simpl.
  - constructor; [assumption | constructor].
  - destruct (ContentVersion.createdAt v <=? ContentVersion.createdAt w)%Z;
      repeat constructor; assumption.
Qed.

Lemma insertByCreatedAt_sorted v l :
  StronglySorted createdAtLe l ->
  StronglySorted createdAtLe (insertByCreatedAt v l).
Proof.
  induction 1 as [| w l Hl IH Hw]; simpl.
  - repeat constructor.
  - destruct (Z.leb_spec (ContentVersion.createdAt v)
                (ContentVersion.createdAt w)) as [Hle | Hgt].
    + constructor; [constructor; assumption |].
      constructor; [exact Hle |].
      eapply Forall_impl; [| exact Hw].
      unfold createdAtLe. intros x Hx. lia.
    + constructor; [exact IH |].
      apply insertByCreatedAt_Forall; [unfold createdAtLe; lia | exact Hw].
Qed.

Lemma orderByCreatedAt_sorted l :
  StronglySorted createdAtLe (orderByCreatedAt l).
Proof.
  induction l as [| v l IH]; simpl; [constructor |].
  now apply insertByCreatedAt_sorted.
Qed.

Lemma insertByCreatedAt_perm v l : Permutation (v :: l) (insertByCreatedAt v l).
Proof.
  induction l as [| w l IH]; simpl; [reflexivity |].
  destruct (ContentVersion.createdAt v <=? ContentVersion.createdAt w)%Z;
    [reflexivity |].
  rewrite perm_swap. now constructor.
Qed.

Lemma orderByCreatedAt_perm l : Permutation l (orderByCreatedAt l).
Proof.
  induction l as [| v l IH]; simpl; [constructor |].
  rewrite <- insertByCreatedAt_perm. now constructor.
Qed.

Lemma selectById_rowOf d id :
  selectById d id = option_map (withRelations d) (rowOf d id).
Proof. reflexivity. Qed.

Lemma rowOf_setResources g rid id d :
  (forall r, ContentResource.id (g r) = ContentResource.id r) ->
  (forall r, ContentResource.deletedAt (g r) = ContentResource.deletedAt r) ->
  rowOf (setResources g rid d) id
  = option_map (fun r => if String.eqb (ContentResource.id r) rid
                         then g r else r)
      (rowOf d id).
Proof.
  intros Hid Hdel. unfold rowOf. simpl.
  induction (contentResources d) as [| r rows IH]; simpl; [reflexivity |].
  destruct (String.eqb (ContentResource.id r) rid) eqn:E;
    rewrite ?Hid, ?Hdel;
    destruct (String.eqb (ContentResource.id r) id
              && isNull (ContentResource.deletedAt r)); auto;
    simpl; now rewrite E.
Qed.

Lemma rowOf_id d id r : rowOf d id = Some r -> ContentResource.id r = id.
Proof.
  unfold rowOf. intros H. apply find_some in H. destruct H as [_ H].
  apply andb_true_iff in H. destruct H as [H _]. now apply String.eqb_eq.
Qed.

Lemma findVersion_fresh v d :
  ~ In (ContentVersion.id v) (versionIds d) ->
  findVersion (addVersion v d) (ContentVersion.id v) = Some v.
Proof.
  intros Hfresh. unfold findVersion. simpl.
  rewrite find_app_None.
  - simpl. now rewrite String.eqb_refl.
  - apply find_all_false. intros w Hw.
    apply String.eqb_neq. intros E. apply Hfresh. rewrite <- E.
    unfold versionIds. now apply in_map.
Qed.

Lemma versionsOf_fresh d rid :
  Schema d -> ~ In rid (resourceIds d) -> versionsOf d rid = [].
Proof.
  intros HS Hfresh. unfold versionsOf.
  destruct (filter _ (contentVersions d)) as [| v l] eqn:E; [reflexivity |].
  exfalso. assert (Hin : In v (v :: l)) by (left; reflexivity).
  rewrite <- E in Hin. apply filter_In in Hin. destruct Hin as [Hin Hv].
  apply String.eqb_eq in Hv. apply Hfresh. rewrite <- Hv.
  now apply (fk_versions d HS).
Qed.

Lemma History_ext rid n d d' :
  contentResources d' = contentResources d ->
  contentVersions d' = contentVersions d ->
  History rid n d -> History rid n d'.
Proof.
  unfold History, rowOf, versionsOf, findVersion. intros -> ->. auto.
Qed.




Section VersionHistory.

Variable host : Host.

Lemma History_create input s r s' :
  Schema (db s) ->
  create host input s = (Ok r, s') ->
  History (ContentResource.id r) 0 (db s').
Proof.
  intros HS H. apply create_Ok in H.
  destruct H as (cAt & uAt & vid & vAt & -> & Hpk & Hpkv & HA).
  simpl in *. apply memS_notIn in Hpk, Hpkv.
  apply AddTags_grows in HA. destruct HA as (E1 & E2 & _).
  eapply History_ext; [exact E1 | exact E2 |].
  eexists _, [], _. split; [| split; [| split; [| split]]].
  - unfold rowOf. simpl. rewrite find_app_None.
    + simpl. rewrite String.eqb_refl. simpl. reflexivity.
    + apply find_all_false. intros x Hx.
      apply andb_false_iff. left. apply String.eqb_neq.
      intros E. apply Hpk. rewrite <- E. unfold resourceIds.
      now apply in_map.
  - unfold versionsOf. simpl. rewrite filter_app. simpl.
    rewrite String.eqb_refl.
    change (filter _ (contentVersions (db s)))
      with (versionsOf (db s) (uuidAt host (uuids s))).
    rewrite versionsOf_fresh by assumption. reflexivity.
  - reflexivity.
  - reflexivity.
  - match goal with
    | |- findVersion (addVersion ?v ?d) _ = _ =>
        apply (findVersion_fresh v d)
    end.
    exact Hpkv.
Qed.



End VersionHistory.



(** ** Tag replacement *)

Lemma find_by_key {A} (key : A -> string) (l : list A) (x : A) :
  NoDup (map key l) -> In x l ->
  find (fun y => String.eqb (key y) (key x)) l = Some x.
Proof.
  intros Hnd Hin.
  destruct (find (fun y => String.eqb (key y) (key x)) l) as [w |] eqn:E.
  - apply find_some in E. destruct E as [Hw E]. apply String.eqb_eq in E.
    f_equal. eapply NoDup_map_eq; eauto.
  - apply (find_none _ _ E) in Hin. simpl in Hin.
    rewrite String.eqb_refl in Hin. discriminate.
Qed.

Lemma filter_negb {A} (p : A -> bool) (l : list A) :
  filter p (filter (fun x => negb (p x)) l) = [].
Proof.
  induction l as [| x l IH]; simpl; [reflexivity |].
  destruct (p x) eqn:E; simpl; [assumption |]. now rewrite E.
Qed.

Lemma FieldsUpdated_frame id o d d' :
  FieldsUpdated id o d d' ->
  tags d' = tags d /\ contentResourceTags d' = contentResourceTags d /\
  (forall row, rowOf d id = Some row -> exists row', rowOf d' id = Some row').
Proof.
  destruct o as [f |]; simpl.
  - intros [at_ ->]. simpl. repeat split. intros row Hrow.
    rewrite rowOf_setResources, Hrow by reflexivity. simpl. eauto.
  - intros ->. eauto.
Qed.

Lemma ContentUpdated_frame id by_ o d d' :
  ContentUpdated id by_ o d d' ->
  tags d' = tags d /\ contentResourceTags d' = contentResourceTags d /\
  (forall row, rowOf d id = Some row -> exists row', rowOf d' id = Some row').
Proof.
  destruct o as [c |]; simpl.
  - intros (vid & vAt & at_ & _ & _ & ->). simpl. repeat split.
    intros row Hrow. rewrite rowOf_setResources by reflexivity.
    unfold rowOf in *. simpl. rewrite Hrow. simpl. eauto.
  - intros ->. eauto.
Qed.



(** ** Shared labels *)

Lemma filter_none {A} (p : A -> bool) (l : list A) :
  (forall x, In x l -> p x = false) -> filter p l = [].
Proof.
  induction l as [| y l IH]; simpl; intros H; [reflexivity |].
  rewrite (H y) by auto. apply IH. auto.
Qed.




Section SharedLabels.

Variable host : Host.



End SharedLabels.



(** ** Progress *)

Lemma bind_run {A B} (m : M A) (f : A -> M B) s a s1 :
  m s = (Ok a, s1) -> bind m f s = f a s1.
Proof. intros H. unfold bind. now rewrite H. Qed.

Section Progress.
Variable host : Host.

Lemma insertContentResources_run row s :
  failsAt host (statements s) = false ->
  ~ In (ContentResource.id row) (resourceIds (db s)) ->
  insertContentResources host row s
  = (Ok row, mkStore (addResource row (db s)) (uuids s) (dates s)
               (S (statements s))).
Proof.
  intros Hf Hpk. apply memS_notIn in Hpk.
  unfold insertContentResources, bind, statement, getDb, putDb, ret, withDb.
  simpl. rewrite Hf. simpl. rewrite Hpk. reflexivity.
Qed.

Lemma insertContentVersions_run row s :
  failsAt host (statements s) = false ->
  ~ In (ContentVersion.id row) (versionIds (db s)) ->
  In (ContentVersion.resourceId row) (resourceIds (db s)) ->
  insertContentVersions host row s
  = (Ok row, mkStore (addVersion row (db s)) (uuids s) (dates s)
               (S (statements s))).
Proof.
  intros Hf Hpk Hfk. apply memS_notIn in Hpk. apply memS_In in Hfk.
  unfold insertContentVersions, bind, statement, getDb, putDb, ret, withDb.
  simpl. rewrite Hf. simpl. rewrite Hpk, Hfk. reflexivity.
Qed.

Lemma insertTags_run row s :
  failsAt host (statements s) = false ->
  ~ In (Tag.id row) (tagIds (db s)) ->
  insertTags host row s
  = (Ok row, mkStore (addTag row (db s)) (uuids s) (dates s)
               (S (statements s))).
Proof.
  intros Hf Hpk. apply memS_notIn in Hpk.
  unfold insertTags, bind, statement, getDb, putDb, ret, withDb.
  simpl. rewrite Hf. simpl. rewrite Hpk. reflexivity.
Qed.

Lemma insertContentResourceTags_run row s :
  failsAt host (statements s) = false ->
  ~ In (ContentResourceTag.pk row) (linkKeys (db s)) ->
  In (ContentResourceTag.resourceId row) (resourceIds (db s)) ->
  In (ContentResourceTag.tagId row) (tagIds (db s)) ->
  insertContentResourceTags host row s
  = (Ok tt, mkStore (addLink row (db s)) (uuids s) (dates s)
              (S (statements s))).
Proof.
  intros Hf Hpk Hfk1 Hfk2. apply memK_notIn in Hpk.
  apply memS_In in Hfk1, Hfk2.
  unfold insertContentResourceTags, bind, statement, getDb, putDb, withDb.
  simpl. rewrite Hf. simpl. rewrite Hpk, Hfk1, Hfk2. reflexivity.
Qed.

Lemma updateContentResources_run g id s :
  failsAt host (statements s) = false ->
  updateContentResources host g id s
  = (Ok tt, mkStore (setResources g id (db s)) (uuids s) (dates s)
              (S (statements s))).
Proof.
  intros Hf.
  unfold updateContentResources, bind, statement, getDb, putDb, withDb.
  simpl. rewrite Hf. reflexivity.
Qed.

Lemma deleteContentResourceTags_run id s :
  failsAt host (statements s) = false ->
  deleteContentResourceTags host id s
  = (Ok tt, mkStore (dropLinks id (db s)) (uuids s) (dates s)
              (S (statements s))).
Proof.
  intros Hf.
  unfold deleteContentResourceTags, bind, statement, getDb, putDb, withDb.
  simpl. rewrite Hf. reflexivity.
Qed.

Lemma findFirstTag_run label s :
  failsAt host (statements s) = false ->
  findFirstTag host label s
  = (Ok (selectTagByLabel (db s) label),
     mkStore (db s) (uuids s) (dates s) (S (statements s))).
Proof.
  intros Hf. unfold findFirstTag, bind, statement, getDb, ret.
  simpl. rewrite Hf. reflexivity.
Qed.

Lemma findById_runs id s :
  failsAt host (statements s) = false ->
  findById host id s
  = (Ok (selectById (db s) id),
     mkStore (db s) (uuids s) (dates s) (S (statements s))).
Proof.
  intros Hf. unfold findById, bind, statement, getDb, ret.
  simpl. rewrite Hf. reflexivity.
Qed.

Lemma randomUUID_run s :
  randomUUID host s
  = (Ok (uuidAt host (uuids s)),
     mkStore (db s) (S (uuids s)) (dates s) (statements s)).
Proof. reflexivity. Qed.

Lemma newDate_run s :
  newDate host s
  = (Ok (dateAt host (dates s)),
     mkStore (db s) (uuids s) (S (dates s)) (statements s)).
Proof. reflexivity. Qed.

Lemma ret_run {A} (a : A) s : ret a s = (Ok a, s).
Proof. reflexivity. Qed.

Ltac run_pure :=
  first [ rewrite (bind_run _ _ _ _ _ (randomUUID_run _))
        | rewrite (bind_run _ _ _ _ _ (newDate_run _))
        | rewrite (bind_run _ _ _ _ _ (ret_run _ _)) ]; simpl.

(** The tag loop goes through: the labels are pairwise distinct, and none of
    them is carried by a tag the resource is linked to already. *)
Lemma addTags_returns rid labels : forall s,
  NoDup labels ->
  Healthy host s -> FreshIds host s -> Schema (db s) ->
  In rid (resourceIds (db s)) ->
  (forall l t, In l (linksOf (db s) rid) -> In t (tags (db s)) ->
     Tag.id t = ContentResourceTag.tagId l -> ~ In (Tag.label t) labels) ->
  exists s', addTags host rid labels s = (Ok tt, s') /\ Healthy host s'.
Proof.
  induction labels as [| label rest IH]; intros s Hnd Hh Hfresh HS Hrid Hlinked.
  - exists s. split; [reflexivity | exact Hh].
  - inversion Hnd as [| ? ? Hlabel Hrest]; subst.
    assert (Hf0 : failsAt host (statements s) = false) by (apply Hh; lia).
    assert (Hf1 : failsAt host (S (statements s)) = false) by (apply Hh; lia).
    assert (Hf2 : failsAt host (S (S (statements s))) = false)
      by (apply Hh; lia).
    simpl. rewrite (bind_run _ _ _ _ _ (findFirstTag_run label s Hf0)).
    destruct (selectTagByLabel (db s) label) as [t |] eqn:Hsel.
    + destruct (selectTagByLabel_Some _ _ _ Hsel) as [Ht Hlt].
      do 2 run_pure.
      assert (Hnew : ~ In (rid, Tag.id t) (linkKeys (db s))).
      { intros Hin. apply in_map_iff in Hin.
        destruct Hin as (l & El & Hl). injection El as E1 E2.
        apply (Hlinked l t); trivial.
        - unfold linksOf. apply filter_In. split; [exact Hl |].
          now apply String.eqb_eq.
        - now symmetry.
        - rewrite Hlt. now left. }
      assert (Htid : In (Tag.id t) (tagIds (db s)))
        by (unfold tagIds; now apply in_map).
      match goal with
      | |- context [bind (insertContentResourceTags host ?row) _ ?s2] =>
          rewrite (bind_run _ _ _ _ _
                     (insertContentResourceTags_run row s2 Hf1 Hnew Hrid Htid))
      end.
      apply IH; simpl; trivial.
      * intros n Hn. apply Hh. simpl in Hn. lia.
      * apply Schema_addLink; simpl; trivial.
      * intros l t' Hl Ht' E Hin'.
        unfold linksOf in Hl. simpl in Hl. rewrite filter_app in Hl.
        apply in_app_iff in Hl. destruct Hl as [Hl | Hl].
        -- apply (Hlinked l t' Hl Ht' E). now right.
        -- simpl in Hl. rewrite String.eqb_refl in Hl.
           destruct Hl as [<- | []]. simpl in E.
           assert (t' = t).
           { apply (NoDup_map_eq Tag.id (tags (db s))); trivial.
             exact (pk_tags _ HS). }
           subst t'. apply Hlabel. now rewrite <- Hlt.
    + destruct Hfresh as [Hunused Hdistinct].
      destruct (Hunused (uuids s) (le_n _)) as (_ & _ & Htid).
      rewrite bind_assoc. run_pure. rewrite bind_assoc. run_pure.
      match goal with
      | |- context [bind (insertTags host ?row) _ ?s2] =>
          rewrite (bind_run _ _ _ _ _ (insertTags_run row s2 Hf1 Htid))
      end.
      run_pure.
      assert (Hnew : ~ In (rid, uuidAt host (uuids s)) (linkKeys (db s))).
      { intros Hin. apply in_map_iff in Hin.
        destruct Hin as (l & El & Hl). injection El as E1 E2.
        apply Htid. rewrite <- E2. exact (fk_links_tag _ HS l Hl). }
      match goal with
      | |- context [bind (insertContentResourceTags host ?row) _ ?s2] =>
          assert (Htid' : In (ContentResourceTag.tagId row) (tagIds (db s2)))
            by (unfold tagIds; simpl; rewrite map_app, in_app_iff; simpl;
                auto);
          rewrite (bind_run _ _ _ _ _
                     (insertContentResourceTags_run row s2 Hf2 Hnew Hrid
                        Htid'))
      end.
      apply IH; simpl; trivial.
      * intros n Hn. apply Hh. simpl in Hn. lia.
      * split.
        -- intros n Hn. simpl in Hn.
           destruct (Hunused n ltac:(lia)) as (H1 & H2 & H3).
           repeat split; trivial.
           unfold tagIds. simpl. rewrite map_app, in_app_iff. simpl.
           intros [Hin | [E | []]]; [now apply H3 |].
           apply (Hdistinct (uuids s) n); [lia | lia | exact E].
        -- intros m n Hm Hmn. simpl in Hm. apply Hdistinct; lia.
      * apply Schema_addLink; simpl.
        -- now apply Schema_addTag.
        -- exact Hnew.
        -- exact Hrid.
        -- exact Htid'.
      * intros l t' Hl Ht' E Hin'.
        unfold linksOf in Hl. simpl in Hl. rewrite filter_app in Hl.
        apply in_app_iff in Ht'. apply in_app_iff in Hl.
        destruct Hl as [Hl | Hl].
        -- destruct Ht' as [Ht' | [<- | []]].
           ++ apply (Hlinked l t' Hl Ht' E). now right.
           ++ simpl in E. apply Htid. rewrite E.
              apply filter_In in Hl. exact (fk_links_tag _ HS l (proj1 Hl)).
        -- simpl in Hl. rewrite String.eqb_refl in Hl.
           destruct Hl as [<- | []]. simpl in E.
           destruct Ht' as [Ht' | [<- | []]].
           ++ apply Htid. rewrite <- E. unfold tagIds. now apply in_map.
           ++ simpl in Hin'. contradiction.
Qed.

Lemma transaction_run {A} (body : M A) s a s' :
  body s = (Ok a, s') -> transaction body s = (Ok a, s').
Proof. intros H. unfold transaction. now rewrite H. Qed.

(** Identifiers stay fresh along a step that added to the key columns only
    identifiers it drew from the host. *)
Lemma FreshIds_step s s' :
  FreshIds host s ->
  uuids s <= uuids s' ->
  (forall x, In x (resourceIds (db s')) ->
     In x (resourceIds (db s)) \/
     exists m, uuids s <= m < uuids s' /\ x = uuidAt host m) ->
  (forall x, In x (versionIds (db s')) ->
     In x (versionIds (db s)) \/
     exists m, uuids s <= m < uuids s' /\ x = uuidAt host m) ->
  (forall x, In x (tagIds (db s')) ->
     In x (tagIds (db s)) \/
     exists m, uuids s <= m < uuids s' /\ x = uuidAt host m) ->
  FreshIds host s'.
Proof.
  intros [Hunused Hdistinct] Hle Hr Hv Ht. split.
  - intros n Hn. destruct (Hunused n ltac:(lia)) as (H1 & H2 & H3).
    repeat split; intros Hin.
    + destruct (Hr _ Hin) as [Hold | (m & Hm & E)]; [now apply H1 |].
      symmetry in E. revert E. apply Hdistinct; lia.
    + destruct (Hv _ Hin) as [Hold | (m & Hm & E)]; [now apply H2 |].
      symmetry in E. revert E. apply Hdistinct; lia.
    + destruct (Ht _ Hin) as [Hold | (m & Hm & E)]; [now apply H3 |].
      symmetry in E. revert E. apply Hdistinct; lia.
  - intros m n Hm Hmn. apply Hdistinct; lia.
Qed.

(** A resource insert followed by the first version and the repointing, as
    [create] performs them. *)
Lemma create_returns input s :
  Healthy host s -> FreshIds host s -> Schema (db s) ->
  NoDup (tagsGiven (CreateContentResourceInput.tags input)) ->
  exists r s', create host input s = (Ok r, s').
Proof.
  intros Hh Hfresh HS Hnd.
  assert (Hf0 : failsAt host (statements s) = false) by (apply Hh; lia).
  assert (Hf1 : failsAt host (S (statements s)) = false) by (apply Hh; lia).
  assert (Hf2 : failsAt host (S (S (statements s))) = false)
    by (apply Hh; lia).
  pose proof Hfresh as [Hunused Hdistinct].
  destruct (Hunused (uuids s) (le_n _)) as (Hrid & _ & _).
  destruct (Hunused (S (uuids s)) ltac:(lia)) as (_ & Hvid & _).
  cut (exists r s', createTx host input s = (Ok r, s')).
  { intros (r & s' & H). exists r, s'. now apply transaction_run. }
  unfold createTx. do 3 run_pure.
  match goal with
  | |- context [bind (insertContentResources host ?row) _ ?s2] =>
      rewrite (bind_run _ _ _ _ _ (insertContentResources_run row s2 Hf0 Hrid))
  end.
  do 2 run_pure.
  match goal with
  | |- context [bind (insertContentVersions host ?row) _ ?s2] =>
      assert (Hfk : In (ContentVersion.resourceId row) (resourceIds (db s2)))
        by (unfold resourceIds; simpl; rewrite map_app, in_app_iff; simpl;
            auto);
      rewrite (bind_run _ _ _ _ _
                 (insertContentVersions_run row s2 Hf1 Hvid Hfk))
  end.
  simpl.
  match goal with
  | |- context [bind (updateContentResources host ?g ?id) _ ?s2] =>
      rewrite (bind_run _ _ _ _ _ (updateContentResources_run g id s2 Hf2))
  end.
  simpl.
  match goal with
  | |- context [bind _ _ ?s3] =>
      assert (Htags : exists s',
                 match CreateContentResourceInput.tags input with
                 | Some (l :: ls) =>
                     addTags host (uuidAt host (uuids s)) (l :: ls)
                 | _ => ret tt
                 end s3 = (Ok tt, s'))
  end.
  { destruct (CreateContentResourceInput.tags input) as [[| l ls] |];
      try (eexists; reflexivity).
    simpl in Hnd.
    match goal with
    | |- exists s', addTags _ _ _ ?s3 = _ =>
        destruct (addTags_returns (uuidAt host (uuids s)) (l :: ls) s3)
          as (s' & H & _)
    end; trivial.
    - intros n Hn. apply Hh. simpl in Hn. lia.
    - apply (FreshIds_step s); trivial; simpl; try lia.
      + intros x Hx. unfold resourceIds in Hx. simpl in Hx.
        rewrite setWhereId_ids, map_app, in_app_iff in Hx by reflexivity.
        destruct Hx as [Hx | [<- | []]]; [now left |].
        right. exists (uuids s). split; [lia | reflexivity].
      + intros x Hx. unfold versionIds in Hx. simpl in Hx.
        rewrite map_app, in_app_iff in Hx.
        destruct Hx as [Hx | [<- | []]]; [now left |].
        right. exists (S (uuids s)). split; [lia | reflexivity].
      + intros x Hx. now left.
    - simpl. apply Schema_setResources; [reflexivity |].
      apply Schema_addVersion; simpl; trivial.
      now apply Schema_addResource.
    - simpl. unfold resourceIds. simpl.
      rewrite setWhereId_ids, map_app, in_app_iff by reflexivity.
      simpl. auto.
    - intros l0 t Hl0. exfalso. simpl in Hl0. apply filter_In in Hl0.
      destruct Hl0 as [Hl0 E]. apply String.eqb_eq in E.
      apply Hrid. rewrite <- E. exact (fk_links_resource _ HS l0 Hl0).
    - eauto. }
  destruct Htags as (s' & Htags).
  rewrite (bind_run _ _ _ _ _ Htags). eexists _, _. reflexivity.
Qed.

Lemma fieldsStep_returns id o s :
  Ready host s ->
  exists s',
    match o with
    | Some f =>
        at_ <- newDate host ;;
        updateContentResources host (setFieldsAt f at_) id
    | None => ret tt
    end s = (Ok tt, s') /\
    Ready host s' /\ resourceIds (db s') = resourceIds (db s).
Proof.
  intros (Hh & Hfresh & HS). destruct o as [f |].
  - assert (Hf0 : failsAt host (statements s) = false) by (apply Hh; lia).
    run_pure.
    match goal with
    | |- context [updateContentResources host ?g id ?s2] =>
        rewrite (updateContentResources_run g id s2 Hf0)
    end.
    eexists. split; [reflexivity |]. simpl.
    assert (Hids : resourceIds
                     (setResources (setFieldsAt f (dateAt host (dates s)))
                        id (db s))
                   = resourceIds (db s))
      by (unfold resourceIds; simpl; now rewrite setWhereId_ids).
    split; [| exact Hids]. split; [| split].
    + intros n Hn. apply Hh. simpl in Hn. lia.
    + apply (FreshIds_step s); trivial; simpl; try lia; intros x Hx;
        left; trivial. now rewrite Hids in Hx.
    + simpl. now apply Schema_setResources.
  - exists s. split; [reflexivity |].
    split; [exact (conj Hh (conj Hfresh HS)) | reflexivity].
Qed.

Lemma contentStep_returns id by_ o s :
  Ready host s -> In id (resourceIds (db s)) ->
  exists s',
    match o with
    | Some c =>
        vid <- randomUUID host ;;
        vAt <- newDate host ;;
        version <- insertContentVersions host
          (ContentVersion.mk vid id c vAt by_) ;;
        at_ <- newDate host ;;
        updateContentResources host
          (setCurrentVersionIdAt (ContentVersion.id version) at_) id
    | None => ret tt
    end s = (Ok tt, s') /\
    Ready host s' /\ resourceIds (db s') = resourceIds (db s).
Proof.
  intros (Hh & Hfresh & HS) Hid. destruct o as [c |].
  - assert (Hf0 : failsAt host (statements s) = false) by (apply Hh; lia).
    assert (Hf1 : failsAt host (S (statements s)) = false) by (apply Hh; lia).
    pose proof Hfresh as [Hunused Hdistinct].
    destruct (Hunused (uuids s) (le_n _)) as (_ & Hvid & _).
    do 2 run_pure.
    match goal with
    | |- context [bind (insertContentVersions host ?row) _ ?s2] =>
        rewrite (bind_run _ _ _ _ _
                   (insertContentVersions_run row s2 Hf0 Hvid Hid))
    end.
    run_pure.
    match goal with
    | |- context [updateContentResources host ?g id ?s2] =>
        rewrite (updateContentResources_run g id s2 Hf1)
    end.
    eexists. split; [reflexivity |]. simpl.
    match goal with
    | |- _ /\ resourceIds ?d = _ =>
        assert (Hids : resourceIds d = resourceIds (db s))
          by (unfold resourceIds; simpl; now rewrite setWhereId_ids)
    end.
    split; [| exact Hids]. split; [| split].
    + intros n Hn. apply Hh. simpl in Hn. lia.
    + apply (FreshIds_step s); trivial; simpl; try lia.
      * intros x Hx. left. now rewrite Hids in Hx.
      * intros x Hx. unfold versionIds in Hx. simpl in Hx.
        rewrite map_app, in_app_iff in Hx.
        destruct Hx as [Hx | [<- | []]]; [now left |].
        right. exists (uuids s). split; [lia | reflexivity].
      * intros x Hx. now left.
    + simpl. apply Schema_setResources; [reflexivity |].
      apply Schema_addVersion; simpl; trivial.
  - exists s. split; [reflexivity |].
    split; [exact (conj Hh (conj Hfresh HS)) | reflexivity].
Qed.

Lemma tagsStep_returns id o s :
  Ready host s -> In id (resourceIds (db s)) -> NoDup (tagsGiven o) ->
  exists s',
    match o with
    | Some ls => deleteContentResourceTags host id ;;; addTags host id ls
    | None => ret tt
    end s = (Ok tt, s') /\
    Healthy host s'.
Proof.
  intros (Hh & Hfresh & HS) Hid Hnd. destruct o as [ls |].
  - assert (Hf0 : failsAt host (statements s) = false) by (apply Hh; lia).
    rewrite (bind_run _ _ _ _ _ (deleteContentResourceTags_run id s Hf0)).
    simpl in Hnd. apply (addTags_returns id ls _ Hnd).
    + intros n Hn. apply Hh. simpl in Hn. lia.
    + apply (FreshIds_step s); trivial; simpl; try lia; intros x Hx;
        now left.
    + now apply Schema_dropLinks.
    + exact Hid.
    + intros l t Hl. exfalso. unfold linksOf in Hl. simpl in Hl.
      rewrite (filter_negb
                 (fun l => String.eqb (ContentResourceTag.resourceId l) id))
        in Hl.
      destruct Hl.
  - exists s. split; [reflexivity | exact Hh].
Qed.

Lemma update_result id input by_ s res s' :
  update host id input by_ s = (Ok res, s') -> exists found, res = Some found.
Proof.
  intros H. apply update_Ok in H.
  destruct H as (found & d1 & d2 & Hfound & HF & HCo & HT & ->).
  rewrite selectById_rowOf in Hfound.
  destruct (rowOf (db s) id) as [row |] eqn:Hrow; [| discriminate].
  apply FieldsUpdated_frame in HF. destruct HF as (_ & _ & F3).
  apply ContentUpdated_frame in HCo. destruct HCo as (_ & _ & C3).
  destruct (F3 row Hrow) as (row1 & Hrow1).
  destruct (C3 row1 Hrow1) as (row2 & Hrow2).
  assert (E : contentResources (db s') = contentResources d2).
  { unfold TagsUpdated in HT.
    destruct (UpdateContentResourceInput.tags input) as [ls |].
    - apply AddTags_grows in HT. destruct HT as (E & _). exact E.
    - now rewrite HT. }
  exists (withRelations (db s') row2).
  rewrite selectById_rowOf. unfold rowOf in *. rewrite E, Hrow2. reflexivity.
Qed.

(** An update of a readable resource goes through, whatever fields, content
    and state it carries, when its tag labels are pairwise distinct. *)
Lemma update_returns id input by_ s :
  Ready host s ->
  selectById (db s) id <> None ->
  NoDup (tagsGiven (UpdateContentResourceInput.tags input)) ->
  exists found s', update host id input by_ s = (Ok (Some found), s').
Proof.
  intros HR Hfound Hnd.
  cut (exists res s', update host id input by_ s = (Ok res, s')).
  { intros (res & s' & H). destruct (update_result _ _ _ _ _ _ H) as (f & ->).
    eauto. }
  cut (exists res s', updateTx host id input by_ s = (Ok res, s')).
  { intros (res & s' & H). exists res, s'. now apply transaction_run. }
  pose proof HR as (Hh & Hfresh & HS).
  assert (Hf0 : failsAt host (statements s) = false) by (apply Hh; lia).
  unfold updateTx. rewrite (bind_run _ _ _ _ _ (findById_runs id s Hf0)).
  destruct (selectById (db s) id) as [found |] eqn:Hsel; [| congruence].
  assert (Hid : In id (resourceIds (db s))).
  { rewrite selectById_rowOf in Hsel.
    destruct (rowOf (db s) id) as [row |] eqn:Hrow; [| discriminate].
    rewrite <- (rowOf_id _ _ _ Hrow). unfold rowOf in Hrow.
    apply find_some in Hrow. unfold resourceIds. apply in_map. tauto. }
  match goal with
  | |- context [bind _ _ ?s1] =>
      destruct (fieldsStep_returns id
                  (UpdateContentResourceInput.fields input) s1)
        as (s2 & H2 & HR2 & E2)
  end.
  { split; [| split]; trivial. intros n Hn. apply Hh. simpl in Hn. lia. }
  rewrite (bind_run _ _ _ _ _ H2).
  destruct (contentStep_returns id by_
              (UpdateContentResourceInput.content input) s2 HR2)
    as (s3 & H3 & HR3 & E3).
  { rewrite E2. exact Hid. }
  rewrite (bind_run _ _ _ _ _ H3).
  destruct (tagsStep_returns id (UpdateContentResourceInput.tags input) s3 HR3)
    as (s4 & H4 & Hh4); trivial.
  { rewrite E3, E2. exact Hid. }
  rewrite (bind_run _ _ _ _ _ H4).
  rewrite (findById_runs id s4 (Hh4 _ (le_n _))). eauto.
Qed.

End Progress.

Lemma unary_injective m : forall n, unary m = unary n -> m = n.
Proof.
  induction m as [| m IH]; intros [| n] H; simpl in H;
    try discriminate; [reflexivity |].
  injection H as H. f_equal. now apply IH.
Qed.

Lemma unaryHost_Ready u t n : Ready unaryHost (mkStore emptyDb u t n).
Proof.
  split; [| split].
  - intros k _. reflexivity.
  - split.
    + intros k _. simpl. tauto.
    + intros m k _ Hlt E. apply unary_injective in E. lia.
  - exact (schema _ emptyDb_Consistent).
Qed.

(** The hypotheses of the progress lemmas can be met. *)
Example create_returns_from_empty :
  exists r s', create unaryHost scenarioInput initialStore = (Ok r, s').
Proof.
  destruct (unaryHost_Ready 0 0 0) as (Hh & Hfresh & HS).
  apply create_returns; trivial.
  simpl. repeat constructor; simpl; intuition discriminate.
Qed.

(** ** What [create] returns *)

(** The value [create] returns is the row as the first insert returned it:
    its pointer is still null, although the stored row has been repointed at
    the first version by the time [create] returns. *)
Lemma create_returns_row_as_inserted host input s r s' :
  Schema (db s) ->
  create host input s = (Ok r, s') ->
  ContentResource.currentVersionId r = None /\
  ContentResource.fields r = CreateContentResourceInput.fields input /\
  exists found latest,
    selectById (db s') (ContentResource.id r) = Some found /\
    ContentResource.currentVersionId (Found.row found)
    = Some (ContentVersion.id latest).
Proof.
  intros HS H.
  pose proof (History_create host input s r s' HS H)
    as (row & earlier & latest & Hrow & _ & _ & Hcur & _).
  apply create_Ok in H.
  destruct H as (cAt & uAt & vid & vAt & -> & _). simpl in *.
  repeat split. exists (withRelations (db s') row), latest.
  rewrite selectById_rowOf, Hrow. auto.
Qed.

(** C1 (the code departs from it). On the scenario input the value returned
    by [create] carries a null current-version pointer and no tags, while
    the denormalized read of the same resource has the pointer set to the
    version just inserted and embeds the two tags. *)
Theorem create_returns_stale_row_C1 :
  let out := create demoHost scenarioInput initialStore in
  exists r found,
    fst out = Ok r /\
    ContentResource.currentVersionId r = None /\
    selectById (db (snd out)) (ContentResource.id r) = Some found /\
    ContentResource.currentVersionId (Found.row found) = Some "uuid-01" /\
    option_map ContentVersion.id (Found.currentVersion found)
    = Some "uuid-01" /\
    map (fun l => option_map Tag.label (Found.tag l)) (Found.tags found)
    = [Some "x"; Some "y"].
Proof.
  vm_compute. eexists _, _. repeat split.
Qed.

(** ** The workflow state *)

Lemma setWhereId_states g rid rows :
  (forall r, ContentResource.state (g r) = ContentResource.state r) ->
  map ContentResource.state (setWhereId g rid rows)
  = map ContentResource.state rows.
Proof.
  intros Hg. unfold setWhereId. rewrite map_map. apply map_ext.
  intros r. destruct (String.eqb (ContentResource.id r) rid); auto.
Qed.

(** No [update] writes the [state] column, whatever its input holds. *)
Lemma update_keeps_state host id input by_ s res s' :
  update host id input by_ s = (Ok res, s') ->
  map ContentResource.state (contentResources (db s'))
  = map ContentResource.state (contentResources (db s)).
Proof.
  intros H. apply update_Ok in H.
  destruct H as (found & d1 & d2 & _ & HF & HCo & HT & _).
  assert (E1 : map ContentResource.state (contentResources d1)
               = map ContentResource.state (contentResources (db s))).
  { unfold FieldsUpdated in HF.
    destruct (UpdateContentResourceInput.fields input) as [f |].
    - destruct HF as [at_ ->]. simpl. now apply setWhereId_states.
    - now rewrite HF. }
  assert (E2 : map ContentResource.state (contentResources d2)
               = map ContentResource.state (contentResources d1)).
  { unfold ContentUpdated in HCo.
    destruct (UpdateContentResourceInput.content input) as [c |].
    - destruct HCo as (vid & vAt & at_ & _ & _ & ->). simpl.
      now apply setWhereId_states.
    - now rewrite HCo. }
  assert (E3 : contentResources (db s') = contentResources d2).
  { unfold TagsUpdated in HT.
    destruct (UpdateContentResourceInput.tags input) as [ls |].
    - apply AddTags_grows in HT. destruct HT as (E & _). exact E.
    - now rewrite HT. }
  rewrite E3, E2, E1. reflexivity.
Qed.

(** An update that carries a state and nothing else goes through for each
    of the five states, without any check, and returns the resource as it
    was: the state given is not stored. *)
Lemma update_with_state_only host id st by_ s found :
  Ready host s ->
  selectById (db s) id = Some found ->
  exists s',
    update host id (UpdateContentResourceInput.mk None None None (Some st))
      by_ s = (Ok (Some found), s') /\
    db s' = db s.
Proof.
  intros HR Hfound.
  destruct (update_returns host id
              (UpdateContentResourceInput.mk None None None (Some st)) by_ s
              HR)
    as (found' & s' & H).
  - congruence.
  - constructor.
  - exists s'. pose proof (update_Ok _ _ _ _ _ _ _ H) as HO.
    destruct HO as (f0 & d1 & d2 & _ & HF & HCo & HT & E).
    simpl in HF, HCo, HT. subst d1 d2.
    split; [| exact HT]. rewrite H. rewrite HT, Hfound in E. now rewrite E.
Qed.

(** C6 (the code departs from it). An update of an existing draft resource
    with [state = published] returns without any check, and the resource it
    returns is still a draft; through the service the same input is refused
    as an empty update. *)
Theorem update_ignores_state_C6 :
  (exists found,
      fst (update demoHost "uuid-00" publishInput "u1" scenarioStore)
      = Ok (Some found) /\
      ContentResource.state (Found.row found) = draft) /\
  fst (ContentResourceService.updateResource demoHost "uuid-00" publishInput
         "u1" scenarioStore)
  = Throw (ContentResourceError
             "Invalid update data: At least one field must be provided for update"
             INVALID_INPUT).
Proof.
  split.
  - vm_compute. eexists. split; reflexivity.
  - vm_compute. reflexivity.
Qed.

(** ** Error translation in the service *)

Section Translation.

Variable host : Host.

Lemma createResource_throws input s e s' :
  ContentResourceService.createResource host input s = (Throw e, s') ->
  isContentResourceError e.
Proof.
  unfold ContentResourceService.createResource, tryCatch.
  destruct ((zodParse (createInputIssues input);;; create host input) s)
    as [[r | e0] s1]; [discriminate |].
  destruct e0; unfold throw; intros H; inversion H;
    unfold isContentResourceError; eauto.
Qed.

Lemma updateResource_throws id input by_ s e s' :
  ContentResourceService.updateResource host id input by_ s = (Throw e, s') ->
  isContentResourceError e.
Proof.
  unfold ContentResourceService.updateResource, tryCatch.
  destruct (isBlank id);
    [unfold throw; intros H; inversion H;
     unfold isContentResourceError; eauto |].
  destruct (isBlank by_);
    [unfold throw; intros H; inversion H;
     unfold isContentResourceError; eauto |].
  match goal with
  | |- match ?body s with _ => _ end = _ -> _ =>
      destruct (body s) as [[r | e0] s1]; [discriminate |]
  end.
  destruct e0; unfold throw; intros H; inversion H;
    unfold isContentResourceError; eauto.
Qed.

Lemma deleteResource_throws id s e s' :
  ContentResourceService.deleteResource host id s = (Throw e, s') ->
  isContentResourceError e.
Proof.
  unfold ContentResourceService.deleteResource, tryCatch.
  destruct (isBlank id);
    [unfold throw; intros H; inversion H;
     unfold isContentResourceError; eauto |].
  match goal with
  | |- match ?body s with _ => _ end = _ -> _ =>
      destruct (body s) as [[r | e0] s1]; [discriminate |]
  end.
  destruct e0; unfold throw; intros H; inversion H;
    unfold isContentResourceError; eauto.
Qed.

Lemma serviceGetVersionHistory_throws id s e s' :
  ContentResourceService.getVersionHistory host id s = (Throw e, s') ->
  isContentResourceError e.
Proof.
  unfold ContentResourceService.getVersionHistory, tryCatch.
  destruct (isBlank id);
    [unfold throw; intros H; inversion H;
     unfold isContentResourceError; eauto |].
  match goal with
  | |- match ?body s with _ => _ end = _ -> _ =>
      destruct (body s) as [[r | e0] s1]; [discriminate |]
  end.
  destruct e0; unfold throw; intros H; inversion H;
    unfold isContentResourceError; eauto.
Qed.

End Translation.

(** C5 (the code departs from it). [getResource] and [getResourcesByType]
    call the repository outside any try/catch: when the storage engine fails
    their query, the caller receives the raw storage error, which is no
    [ContentResourceError].  The four other service methods translate
    ([createResource_throws], [updateResource_throws],
    [deleteResource_throws], [serviceGetVersionHistory_throws]). *)
Theorem reads_leak_storage_errors_C5 :
  fst (ContentResourceService.getResource (failingHost 0) "resource-1"
         initialStore)
  = Throw (StorageFailure 0) /\
  fst (ContentResourceService.getResourcesByType (failingHost 0) "article"
         initialStore)
  = Throw (StorageFailure 0) /\
  ~ isContentResourceError (StorageFailure 0).
Proof.
  split; [vm_compute; reflexivity |].
  split; [vm_compute; reflexivity |].
  intros (message & code & E). discriminate.
Qed.

(** * Further properties of the repository and the service *)

(** ** What the write paths raise *)

Lemma bind_Throw {A B} (m : M A) (f : A -> M B) s e s2 :
  bind m f s = (Throw e, s2) ->
  m s = (Throw e, s2) \/
  exists a s1, m s = (Ok a, s1) /\ f a s1 = (Throw e, s2).
Proof.
  unfold bind. destruct (m s) as [[a | e1] s1]; intros H.
  - right. eauto.
  - left. inversion H. reflexivity.
Qed.

Lemma EngineError_failure n : EngineError (StorageFailure n).
Proof. left. eauto. Qed.

Lemma EngineError_key table : EngineError (PrimaryKeyViolation table).
Proof. right. eauto. Qed.

Section Raised.
Variable host : Host.

Ltac tstep H H1 :=
  let a := fresh "a" in
  let s := fresh "s" in
  apply bind_Throw in H; destruct H as [H | (a & s & H1 & H)].

Lemma statement_Throw s e s' :
  statement host s = (Throw e, s') ->
  e = StorageFailure (statements s) /\ db s' = db s.
Proof.
  unfold statement. destruct (failsAt host (statements s)); intros H;
    inversion H. auto.
Qed.

Ltac statement_throw H :=
  let H1 := fresh "Hst" in
  let E := fresh "Edb" in
  tstep H H1;
  [apply statement_Throw in H; destruct H as [-> _] |
   apply statement_Ok in H1; destruct H1 as [E _];
   let H2 := fresh "Hget" in
   tstep H H2;
   [discriminate |
    apply getDb_Ok in H2; destruct H2 as [-> ->]; rewrite ?E in H]].

Lemma insertContentResources_Throw row s e s' :
  insertContentResources host row s = (Throw e, s') -> EngineError e.
Proof.
  unfold insertContentResources. intros H.
  statement_throw H; [apply EngineError_failure |].
  destruct (memS _ _).
  - inversion H. apply EngineError_key.
  - tstep H Hput; discriminate.
Qed.

Lemma insertContentVersions_Throw row s e s' :
  insertContentVersions host row s = (Throw e, s') ->
  EngineError e \/
  memS (ContentVersion.resourceId row) (resourceIds (db s)) = false.
Proof.
  unfold insertContentVersions. intros H.
  statement_throw H; [left; apply EngineError_failure |].
  destruct (memS (ContentVersion.id row) _).
  - inversion H. left. apply EngineError_key.
  - destruct (memS (ContentVersion.resourceId row) _); simpl in H.
    + tstep H Hput; discriminate.
    + right. reflexivity.
Qed.

Lemma insertTags_Throw row s e s' :
  insertTags host row s = (Throw e, s') -> EngineError e.
Proof.
  unfold insertTags. intros H.
  statement_throw H; [apply EngineError_failure |].
  destruct (memS _ _).
  - inversion H. apply EngineError_key.
  - tstep H Hput; discriminate.
Qed.

Lemma insertContentResourceTags_Throw row s e s' :
  insertContentResourceTags host row s = (Throw e, s') ->
  EngineError e \/
  memS (ContentResourceTag.resourceId row) (resourceIds (db s)) = false \/
  memS (ContentResourceTag.tagId row) (tagIds (db s)) = false.
Proof.
  unfold insertContentResourceTags. intros H.
  statement_throw H; [left; apply EngineError_failure |].
  destruct (memK _ _).
  - inversion H. left. apply EngineError_key.
  - destruct (memS (ContentResourceTag.resourceId row) _); simpl in H.
    + destruct (memS (ContentResourceTag.tagId row) _); simpl in H.
      * discriminate.
      * auto.
    + auto.
Qed.

Lemma updateContentResources_Throw g id s e s' :
  updateContentResources host g id s = (Throw e, s') -> EngineError e.
Proof.
  unfold updateContentResources. intros H.
  statement_throw H; [apply EngineError_failure | discriminate].
Qed.

Lemma deleteContentResourceTags_Throw id s e s' :
  deleteContentResourceTags host id s = (Throw e, s') -> EngineError e.
Proof.
  unfold deleteContentResourceTags. intros H.
  statement_throw H; [apply EngineError_failure | discriminate].
Qed.

Lemma findFirstTag_Throw label s e s' :
  findFirstTag host label s = (Throw e, s') -> EngineError e.
Proof.
  unfold findFirstTag. intros H.
  statement_throw H; [apply EngineError_failure | discriminate].
Qed.

Lemma findById_Throw id s e s' :
  findById host id s = (Throw e, s') -> EngineError e.
Proof.
  unfold findById. intros H.
  statement_throw H; [apply EngineError_failure | discriminate].
Qed.

Ltac ostep H H1 :=
  let a := fresh "a" in
  let s := fresh "s" in
  apply bind_Ok in H; destruct H as (a & s & H1 & H).

Lemma addTags_Throw rid labels : forall s e s',
  memS rid (resourceIds (db s)) = true ->
  addTags host rid labels s = (Throw e, s') -> EngineError e.
Proof.
  induction labels as [| label rest IH]; intros s e s' Hrid H;
    [discriminate |].
  simpl in H.
  tstep H Hfind; [now apply findFirstTag_Throw in H |].
  apply findFirstTag_Ok in Hfind. destruct Hfind as [E1 ->].
  assert (Htag : forall tag s2,
             match selectTagByLabel (db s) label with
             | Some t => ret t
             | None =>
                 id <- randomUUID host ;;
                 at_ <- newDate host ;;
                 insertTags host (Tag.mk id label at_)
             end s0 = (Ok tag, s2) ->
             contentResources (db s2) = contentResources (db s) /\
             memS (Tag.id tag) (tagIds (db s2)) = true).
  { intros tag s2 Ht.
    destruct (selectTagByLabel (db s) label) as [t |] eqn:Hsel.
    - apply ret_Ok in Ht. destruct Ht as [-> ->]. rewrite E1.
      split; [reflexivity |]. apply memS_In.
      apply selectTagByLabel_Some in Hsel. unfold tagIds.
      apply in_map. tauto.
    - ostep Ht Hid. apply randomUUID_Ok in Hid. destruct Hid as [E2 ->].
      ostep Ht Hat. apply newDate_Ok in Hat. destruct Hat as [E3 ->].
      apply insertTags_Ok in Ht. destruct Ht as (-> & _ & E4).
      rewrite E4, E3, E2, E1. simpl. split; [reflexivity |].
      apply memS_In. unfold tagIds. simpl.
      rewrite map_app, in_app_iff. simpl. auto. }
  tstep H Hres.
  { destruct (selectTagByLabel (db s) label) as [t |]; [discriminate |].
    tstep H Hid; [discriminate |].
    tstep H Hat; [discriminate |].
    now apply insertTags_Throw in H. }
  destruct (Htag _ _ Hres) as [Er Ht].
  tstep H Hat; [discriminate |].
  apply newDate_Ok in Hat. destruct Hat as [E5 ->].
  tstep H Hlink.
  - apply insertContentResourceTags_Throw in H. simpl in H.
    rewrite E5 in H. unfold resourceIds in H. rewrite Er in H.
    fold (resourceIds (db s)) in H.
    destruct H as [H | [H | H]]; [exact H | congruence | congruence].
  - apply insertContentResourceTags_Ok in Hlink.
    destruct Hlink as (_ & _ & _ & E6).
    apply (IH _ _ _) in H; [exact H |].
    rewrite E6. unfold resourceIds in *. simpl. rewrite E5, Er. exact Hrid.
Qed.

(** [create] throws what the storage engine raised, and nothing else: no
    foreign key is ever violated, the rows it references being its own. *)
Lemma create_Throw input s e s' :
  create host input s = (Throw e, s') -> EngineError e.
Proof.
  unfold create. intros H. apply transaction_Throw in H. unfold createTx in H.
  tstep H Hid; [discriminate |].
  apply randomUUID_Ok in Hid. destruct Hid as [E1 ->].
  tstep H Hc; [discriminate |].
  apply newDate_Ok in Hc. destruct Hc as [E2 ->].
  tstep H Hu; [discriminate |].
  apply newDate_Ok in Hu. destruct Hu as [E3 ->].
  tstep H Hres; [now apply insertContentResources_Throw in H |].
  apply insertContentResources_Ok in Hres. destruct Hres as (-> & _ & E4).
  simpl in H.
  match type of E4 with
  | db ?sx = _ =>
      assert (Hrid : memS (uuidAt host (uuids s)) (resourceIds (db sx)) = true)
        by (apply memS_In; unfold resourceIds; rewrite E4; simpl;
            rewrite map_app, in_app_iff; simpl; auto)
  end.
  tstep H Hvid; [discriminate |].
  apply randomUUID_Ok in Hvid. destruct Hvid as [E5 ->].
  tstep H Hvat; [discriminate |].
  apply newDate_Ok in Hvat. destruct Hvat as [E6 ->].
  tstep H Hver.
  { apply insertContentVersions_Throw in H. simpl in H.
    destruct H as [H | H]; [exact H |].
    rewrite E6, E5, Hrid in H. discriminate. }
  apply insertContentVersions_Ok in Hver. destruct Hver as (-> & _ & _ & E7).
  simpl in H.
  tstep H Hptr; [now apply updateContentResources_Throw in H |].
  apply updateContentResources_Ok in Hptr.
  tstep H Htags; [| discriminate].
  destruct (CreateContentResourceInput.tags input) as [[| l ls] |];
    try discriminate.
  refine (addTags_Throw _ (l :: ls) _ _ _ _ H).
  unfold resourceIds in *. rewrite Hptr. simpl.
  rewrite setWhereId_ids by reflexivity.
  rewrite E7. simpl. rewrite E6, E5. exact Hrid.
Qed.

(** [update] throws what the storage engine raised, or "Resource not found"
    when no readable row has the id, before it has written anything. *)
Lemma update_Throw id input by_ s e s' :
  update host id input by_ s = (Throw e, s') ->
  EngineError e \/
  (e = Error "Resource not found" /\ selectById (db s) id = None /\
   db s' = db s).
Proof.
  unfold update. intros H. apply transaction_Throw in H. unfold updateTx in H.
  tstep H Hfind; [left; now apply findById_Throw in H |].
  apply findById_Ok in Hfind. destruct Hfind as [E0 ->].
  destruct (selectById (db s) id) as [found |] eqn:Hsel.
  2:{ inversion H; subst. right. auto. }
  left.
  assert (Hid : memS id (resourceIds (db s)) = true).
  { apply memS_In. rewrite selectById_rowOf in Hsel.
    destruct (rowOf (db s) id) as [row |] eqn:Hrow; [| discriminate].
    rewrite <- (rowOf_id _ _ _ Hrow). unfold rowOf in Hrow.
    apply find_some in Hrow. unfold resourceIds. apply in_map. tauto. }
  tstep H Hfields.
  { destruct (UpdateContentResourceInput.fields input); [| discriminate].
    tstep H Hat; [discriminate |].
    now apply updateContentResources_Throw in H. }
  assert (E1 : resourceIds (db s1) = resourceIds (db s)).
  { destruct (UpdateContentResourceInput.fields input) as [f |].
    - ostep Hfields Hat. apply newDate_Ok in Hat. destruct Hat as [E ->].
      apply updateContentResources_Ok in Hfields. rewrite Hfields.
      unfold resourceIds. simpl. rewrite setWhereId_ids by reflexivity.
      now rewrite E, E0.
    - apply ret_Ok in Hfields. destruct Hfields as [_ ->]. now rewrite E0. }
  tstep H Hcontent.
  { destruct (UpdateContentResourceInput.content input); [| discriminate].
    tstep H Hvid; [discriminate |].
    apply randomUUID_Ok in Hvid. destruct Hvid as [E2 ->].
    tstep H Hvat; [discriminate |].
    apply newDate_Ok in Hvat. destruct Hvat as [E3 ->].
    tstep H Hver.
    - apply insertContentVersions_Throw in H. simpl in H.
      destruct H as [H | H]; [exact H |].
      rewrite E3, E2, E1, Hid in H. discriminate.
    - tstep H Hat; [discriminate |].
      now apply updateContentResources_Throw in H. }
  assert (E2 : resourceIds (db s2) = resourceIds (db s)).
  { destruct (UpdateContentResourceInput.content input) as [c |].
    - ostep Hcontent Hvid. apply randomUUID_Ok in Hvid.
      destruct Hvid as [Ea ->].
      ostep Hcontent Hvat. apply newDate_Ok in Hvat. destruct Hvat as [Eb ->].
      ostep Hcontent Hver. apply insertContentVersions_Ok in Hver.
      destruct Hver as (-> & _ & _ & Ec).
      ostep Hcontent Hat. apply newDate_Ok in Hat. destruct Hat as [Ed ->].
      apply updateContentResources_Ok in Hcontent. rewrite Hcontent.
      unfold resourceIds. simpl. rewrite setWhereId_ids by reflexivity.
      rewrite Ed, Ec. simpl. rewrite Eb, Ea. exact E1.
    - apply ret_Ok in Hcontent. destruct Hcontent as [_ ->]. exact E1. }
  tstep H Htags.
  { destruct (UpdateContentResourceInput.tags input) as [ls |];
      [| discriminate].
    tstep H Hdel; [now apply deleteContentResourceTags_Throw in H |].
    apply deleteContentResourceTags_Ok in Hdel.
    apply addTags_Throw in H; [exact H |].
    rewrite Hdel. unfold resourceIds in *. simpl. rewrite E2. exact Hid. }
  now apply findById_Throw in H.
Qed.

End Raised.

(** ** Reading back what was written *)

Lemma AddTags_links rid labels d d' :
  AddTags rid labels d d' ->
  exists nl,
    contentResourceTags d' = (contentResourceTags d ++ nl)%list /\
    LinkedInOrder rid d' labels nl.
Proof.
  induction 1 as [d | label rest d t d1 at_ d' Hres Hpk Hfk1 Hfk2 Hrest IH].
  - exists []. split; [now rewrite app_nil_r | constructor].
  - destruct IH as (nl & E & Hnl).
    destruct (TagResolved_grows _ _ _ _ Hres) as (_ & _ & R3 & _).
    destruct (AddTags_grows _ _ _ _ Hrest) as (_ & _ & (nt & Et) & _).
    simpl in E, Et.
    exists (ContentResourceTag.mk rid (Tag.id t) at_ :: nl). split.
    + rewrite E, R3, <- app_assoc. reflexivity.
    + constructor; [| exact Hnl]. split; [reflexivity |].
      exists t. split; [| split; [reflexivity |]].
      * rewrite Et, in_app_iff. left.
        destruct Hres as [Hsel | _ _ _].
        -- now apply selectTagByLabel_Some in Hsel.
        -- simpl. rewrite in_app_iff. simpl. auto.
      * destruct Hres as [Hsel | _ _ Hl]; [| exact Hl].
        now apply selectTagByLabel_Some in Hsel.
Qed.

Lemma LinkedInOrder_labels rid d labels links :
  NoDup (tagIds d) ->
  LinkedInOrder rid d labels links ->
  map (fun l => option_map Tag.label (findTag d (ContentResourceTag.tagId l)))
    links = map Some labels /\
  filter (fun l => String.eqb (ContentResourceTag.resourceId l) rid) links
  = links.
Proof.
  intros Hnd H. induction H as [| label l labels links (Hr & t & Ht & Ei & El) _ IH];
    simpl; [auto |].
  destruct IH as [IH1 IH2]. rewrite Hr, String.eqb_refl, IH1, IH2.
  split; [| reflexivity]. f_equal.
  unfold findTag. rewrite <- Ei.
  rewrite (find_by_key Tag.id (tags d) t Hnd Ht). simpl. now rewrite El.
Qed.

Lemma linksOf_fresh d rid :
  Schema d -> ~ In rid (resourceIds d) -> linksOf d rid = [].
Proof.
  intros HS Hfresh. unfold linksOf. apply filter_none. intros l Hl.
  apply String.eqb_neq. intros E. apply Hfresh. rewrite <- E.
  exact (fk_links_resource _ HS l Hl).
Qed.

Lemma pkLtb_asym a b : pkLtb a b = true -> pkLtb b a = false.
Proof.
  unfold pkLtb, String.ltb.
  rewrite (String.compare_antisym (ContentResourceTag.resourceId b)
             (ContentResourceTag.resourceId a)),
          (String.compare_antisym (ContentResourceTag.tagId b)
             (ContentResourceTag.tagId a)).
  destruct (String.compare (ContentResourceTag.resourceId a)
              (ContentResourceTag.resourceId b)); simpl;
    try discriminate; trivial.
  destruct (String.compare (ContentResourceTag.tagId a)
              (ContentResourceTag.tagId b)); simpl;
    try discriminate; trivial.
Qed.

Lemma insertByPrimaryKey_sorted l rows :
  Sorted pkLe rows -> Sorted pkLe (insertByPrimaryKey l rows).
Proof.
  induction 1 as [| r rows Hs IH Hhd]; simpl.
  - repeat constructor.
  - destruct (pkLtb l r) eqn:E.
    + constructor; [constructor; assumption |].
      constructor. unfold pkLe. now apply pkLtb_asym.
    + constructor; [exact IH |].
      destruct rows as [| r2 rest]; simpl.
      * constructor. exact E.
      * destruct (pkLtb l r2); constructor;
          [exact E | inversion Hhd; assumption].
Qed.

Lemma orderByPrimaryKey_sorted rows : Sorted pkLe (orderByPrimaryKey rows).
Proof.
  induction rows as [| l rows IH]; simpl; [constructor |].
  now apply insertByPrimaryKey_sorted.
Qed.

Lemma insertByPrimaryKey_perm l rows :
  Permutation (l :: rows) (insertByPrimaryKey l rows).
Proof.
  induction rows as [| r rows IH]; simpl; [reflexivity |].
  destruct (pkLtb l r); [reflexivity |].
  rewrite perm_swap. now constructor.
Qed.

Lemma orderByPrimaryKey_perm rows : Permutation rows (orderByPrimaryKey rows).
Proof.
  induction rows as [| l rows IH]; simpl; [constructor |].
  rewrite <- insertByPrimaryKey_perm. now constructor.
Qed.

Lemma linksRead_withRelations d r :
  linksRead (withRelations d r)
  = orderByPrimaryKey (linksOf d (ContentResource.id r)).
Proof. unfold linksRead. simpl. rewrite map_map. simpl. apply map_id. Qed.

Lemma labelsOf_withRelations d r :
  labelsOf (withRelations d r)
  = map (fun l => option_map Tag.label
                    (findTag d (ContentResourceTag.tagId l)))
      (orderByPrimaryKey (linksOf d (ContentResource.id r))).
Proof. unfold labelsOf. simpl. now rewrite map_map. Qed.

(** What a read shows of a resource whose links are those of a tag list. *)
Lemma labels_read d r labels :
  map (fun l => option_map Tag.label
                  (findTag d (ContentResourceTag.tagId l)))
    (linksOf d (ContentResource.id r)) = map Some labels ->
  Permutation (labelsOf (withRelations d r)) (map Some labels) /\
  Sorted pkLe (linksRead (withRelations d r)).
Proof.
  intros H. split.
  - rewrite labelsOf_withRelations, <- H. apply Permutation_map.
    symmetry. apply orderByPrimaryKey_perm.
  - rewrite linksRead_withRelations. apply orderByPrimaryKey_sorted.
Qed.

Section ReadBack.
Variable host : Host.

(** X1. What [findById] shows of a resource that [create] just returned. *)
Theorem create_then_findById_X1 :
  forall (input : CreateContentResourceInput.t) (s s' : Store)
         (r : ContentResource.t),
    Consistent (db s) ->
    create host input s = (Ok r, s') ->
    failsAt host (statements s') = false ->
    exists found v,
      fst (findById host (ContentResource.id r) s') = Ok (Some found) /\
      Found.row found = setCurrentVersionId (ContentVersion.id v) r /\
      ContentResource.type r = CreateContentResourceInput.type input /\
      ContentResource.createdById r
      = CreateContentResourceInput.createdById input /\
      ContentResource.fields r = CreateContentResourceInput.fields input /\
      ContentResource.state r = draft /\
      ContentResource.deletedAt r = None /\
      Found.currentVersion found = Some v /\
      ContentVersion.resourceId v = ContentResource.id r /\
      ContentVersion.content v = CreateContentResourceInput.content input /\
      ContentVersion.createdById v
      = CreateContentResourceInput.createdById input /\
      Permutation (labelsOf found)
        (map Some (tagsGiven (CreateContentResourceInput.tags input))) /\
      Sorted pkLe (linksRead found).
Proof.
  intros input s s' r HC H Hf.
  pose proof (create_Consistent host input s r s' H HC) as HC'.
  apply create_Ok in H.
  destruct H as (cAt & uAt & vid & vAt & -> & Hpk & Hpkv & HA).
  simpl in *. apply memS_notIn in Hpk, Hpkv.
  destruct (AddTags_grows _ _ _ _ HA) as (E1 & E2 & _).
  destruct (AddTags_links _ _ _ _ HA) as (nl & El & Hnl).
  destruct (LinkedInOrder_labels _ _ _ _ (pk_tags _ (schema _ HC')) Hnl)
    as [Hlabels Hfilter].
  simpl in E1, E2, El.
  eexists _, (ContentVersion.mk vid _ _ vAt _).
  rewrite (findById_run host _ s' Hf).
  split.
  { f_equal. unfold selectById. rewrite E1. rewrite find_app_None.
    - simpl. rewrite String.eqb_refl. simpl. reflexivity.
    - apply find_all_false. intros x Hx.
      apply andb_false_iff. left. apply String.eqb_neq.
      intros E. apply Hpk. rewrite <- E. unfold resourceIds.
      now apply in_map. }
  match goal with
  | |- context [labelsOf ?f] =>
      assert (Hread : Permutation (labelsOf f)
                        (map Some (tagsGiven
                                     (CreateContentResourceInput.tags input)))
                      /\ Sorted pkLe (linksRead f))
  end.
  { apply labels_read. simpl.
    unfold linksOf. rewrite El, filter_app, Hfilter.
    change (filter _ (contentResourceTags (db s)))
      with (linksOf (db s) (uuidAt host (uuids s))).
    rewrite linksOf_fresh; [exact Hlabels | exact (schema _ HC) | exact Hpk]. }
  destruct Hread as [Hperm Hsorted].
  repeat match goal with |- _ /\ _ => split end;
    try reflexivity; try assumption.
  unfold withRelations. simpl. unfold findVersion.
  rewrite E2. rewrite find_app_None.
  - simpl. now rewrite String.eqb_refl.
  - apply find_all_false. intros w Hw. apply String.eqb_neq.
    intros E. apply Hpkv. rewrite <- E. unfold versionIds.
    now apply in_map.
Qed.

End ReadBack.

Lemma TagsUpdated_frame id o d d' :
  TagsUpdated id o d d' ->
  contentResources d' = contentResources d /\
  contentVersions d' = contentVersions d /\
  exists nt, tags d' = (tags d ++ nt)%list.
Proof.
  destruct o as [ls |]; simpl.
  - intros H. apply AddTags_grows in H.
    destruct H as (E1 & E2 & Hnt & _). simpl in *. auto.
  - intros ->. repeat split. exists []. now rewrite app_nil_r.
Qed.

Section Updates.
Variable host : Host.

(** X2. A content update appends one version and returns it as current. *)
Theorem update_content_X2 :
  forall (id updatedById : string) (input : UpdateContentResourceInput.t)
         (c : JsonRecord) (s s' : Store) (res : option Found.t),
    UpdateContentResourceInput.content input = Some c ->
    update host id input updatedById s = (Ok res, s') ->
    exists found v,
      res = Some found /\
      Found.currentVersion found = Some v /\
      ContentResource.currentVersionId (Found.row found)
      = Some (ContentVersion.id v) /\
      ContentVersion.resourceId v = id /\
      ContentVersion.content v = c /\
      ContentVersion.createdById v = updatedById /\
      contentVersions (db s') = (contentVersions (db s) ++ [v])%list.
Proof.
  intros id by_ input c s s' res Hc H. apply update_Ok in H.
  destruct H as (found0 & d1 & d2 & Hfound & HF & HCo & HT & ->).
  rewrite Hc in HCo. simpl in HCo.
  destruct HCo as (vid & vAt & at_ & Hpk & _ & ->).
  rewrite selectById_rowOf in Hfound.
  destruct (rowOf (db s) id) as [row |] eqn:Hrow; [| discriminate].
  pose proof HF as HF'.
  apply FieldsUpdated_frame in HF. destruct HF as (_ & _ & F3).
  destruct (F3 row Hrow) as (row1 & Hrow1).
  assert (Ev : contentVersions d1 = contentVersions (db s)).
  { unfold FieldsUpdated in HF'.
    destruct (UpdateContentResourceInput.fields input).
    - destruct HF' as [a ->]. reflexivity.
    - now rewrite HF'. }
  apply TagsUpdated_frame in HT. destruct HT as (T1 & T2 & _).
  simpl in T1, T2.
  exists (withRelations (db s') (setCurrentVersionIdAt vid at_ row1)),
         (ContentVersion.mk vid id c vAt by_).
  split.
  { rewrite selectById_rowOf. f_equal. unfold rowOf. rewrite T1.
    change (find _ (setWhereId ?g id (contentResources d1)))
      with (rowOf (setResources g id d1) id).
    rewrite rowOf_setResources, Hrow1 by reflexivity. simpl.
    now rewrite (rowOf_id _ _ _ Hrow1), String.eqb_refl. }
  simpl. repeat split.
  - unfold findVersion. rewrite T2. rewrite find_app_None.
    + simpl. now rewrite String.eqb_refl.
    + apply find_all_false. intros w Hw. apply String.eqb_neq.
      intros E. apply memS_notIn in Hpk. apply Hpk. rewrite <- E.
      unfold versionIds. now apply in_map.
  - rewrite T2, Ev. reflexivity.
Qed.

(** X3. An update that carries fields only rewrites that column (and
    [updatedAt]) of the resource, and nothing else anywhere. *)
Theorem update_fields_only_X3 :
  forall (id updatedById : string) (f : JsonRecord) (st : option WorkflowState)
         (s s' : Store) (res : option Found.t),
    update host id (UpdateContentResourceInput.mk (Some f) None None st)
      updatedById s = (Ok res, s') ->
    exists before after at_,
      selectById (db s) id = Some before /\
      res = Some after /\
      Found.row after = setFieldsAt f at_ (Found.row before) /\
      Found.currentVersion after = Found.currentVersion before /\
      Found.tags after = Found.tags before /\
      db s' = setResources (setFieldsAt f at_) id (db s).
Proof.
  intros id by_ f st s s' res H. apply update_Ok in H.
  destruct H as (found0 & d1 & d2 & Hfound & HF & HCo & HT & ->).
  simpl in HF, HCo, HT. destruct HF as [at_ ->]. subst d2.
  rewrite HT. clear HT.
  rewrite selectById_rowOf in Hfound.
  destruct (rowOf (db s) id) as [row |] eqn:Hrow; [| discriminate].
  inversion Hfound; subst found0. clear Hfound.
  exists (withRelations (db s) row),
         (withRelations (setResources (setFieldsAt f at_) id (db s))
            (setFieldsAt f at_ row)), at_.
  rewrite !selectById_rowOf, rowOf_setResources, Hrow by reflexivity.
  simpl. rewrite (rowOf_id _ _ _ Hrow), String.eqb_refl.
  repeat split.
Qed.

End Updates.

(** ** Statement by statement *)

(** The tables change one statement at a time, and a statement that goes
    through makes one of six changes, each under the guard the code or the
    engine puts on it.  A relation that is reflexive, transitive and holds
    across each of the six therefore holds across every call, returned or
    thrown, and across every sequence of calls. *)

Section Stepwise.
Variable host : Host.
Variable R : Db -> Db -> Prop.
Hypothesis R_refl : forall d, R d d.
Hypothesis R_trans : forall d1 d2 d3, R d1 d2 -> R d2 d3 -> R d1 d3.
Hypothesis R_addResource : forall d r,
  ~ In (ContentResource.id r) (resourceIds d) -> R d (addResource r d).
Hypothesis R_addVersion : forall d v,
  ~ In (ContentVersion.id v) (versionIds d) ->
  In (ContentVersion.resourceId v) (resourceIds d) ->
  R d (addVersion v d).
Hypothesis R_addTag : forall d t,
  ~ In (Tag.id t) (tagIds d) -> ~ In (Tag.label t) (tagLabels d) ->
  R d (addTag t d).
Hypothesis R_addLink : forall d l,
  ~ In (ContentResourceTag.pk l) (linkKeys d) ->
  In (ContentResourceTag.resourceId l) (resourceIds d) ->
  In (ContentResourceTag.tagId l) (tagIds d) ->
  R d (addLink l d).
Hypothesis R_setResources : forall d g id,
  (forall r, ContentResource.id (g r) = ContentResource.id r) ->
  R d (setResources g id d).
Hypothesis R_dropLinks : forall d id, R d (dropLinks id d).

Lemma step_bind {A B} (m : M A) (f : A -> M B) s :
  R (db s) (db (snd (m s))) ->
  (forall a s1, m s = (Ok a, s1) -> R (db s1) (db (snd (f a s1)))) ->
  R (db s) (db (snd (bind m f s))).
Proof.
  intros Hm Hf. unfold bind.
  destruct (m s) as [[a | e] s1] eqn:E; simpl in *; [| exact Hm].
  eapply R_trans; [exact Hm | now apply Hf].
Qed.

Lemma step_pure {A} (m : M A) s :
  db (snd (m s)) = db s -> R (db s) (db (snd (m s))).
Proof. intros ->. apply R_refl. Qed.

Lemma insertContentResources_step row s :
  R (db s) (db (snd (insertContentResources host row s))).
Proof.
  unfold insertContentResources, bind, statement, getDb, putDb, ret, throw.
  simpl. destruct (failsAt host (statements s)); simpl; [apply R_refl |].
  destruct (memS _ _) eqn:E; simpl; [apply R_refl |].
  apply R_addResource. now apply memS_notIn.
Qed.

Lemma insertContentVersions_step row s :
  R (db s) (db (snd (insertContentVersions host row s))).
Proof.
  unfold insertContentVersions, bind, statement, getDb, putDb, ret, throw.
  simpl. destruct (failsAt host (statements s)); simpl; [apply R_refl |].
  destruct (memS (ContentVersion.id row) _) eqn:E; simpl; [apply R_refl |].
  destruct (memS (ContentVersion.resourceId row) _) eqn:F; simpl;
    [| apply R_refl].
  apply R_addVersion; [now apply memS_notIn | now apply memS_In].
Qed.

Lemma insertTags_step row s :
  ~ In (Tag.label row) (tagLabels (db s)) ->
  R (db s) (db (snd (insertTags host row s))).
Proof.
  intros Hl.
  unfold insertTags, bind, statement, getDb, putDb, ret, throw.
  simpl. destruct (failsAt host (statements s)); simpl; [apply R_refl |].
  destruct (memS _ _) eqn:E; simpl; [apply R_refl |].
  apply R_addTag; [now apply memS_notIn | exact Hl].
Qed.

Lemma insertContentResourceTags_step row s :
  R (db s) (db (snd (insertContentResourceTags host row s))).
Proof.
  unfold insertContentResourceTags, bind, statement, getDb, putDb, ret, throw.
  simpl. destruct (failsAt host (statements s)); simpl; [apply R_refl |].
  destruct (memK _ _) eqn:E; simpl; [apply R_refl |].
  destruct (memS (ContentResourceTag.resourceId row) _) eqn:F; simpl;
    [| apply R_refl].
  destruct (memS (ContentResourceTag.tagId row) _) eqn:G; simpl;
    [| apply R_refl].
  apply R_addLink; [now apply memK_notIn | now apply memS_In ..].
Qed.

Lemma updateContentResources_step g id s :
  (forall r, ContentResource.id (g r) = ContentResource.id r) ->
  R (db s) (db (snd (updateContentResources host g id s))).
Proof.
  intros Hg. unfold updateContentResources, bind, statement, getDb, putDb.
  simpl. destruct (failsAt host (statements s)); simpl; [apply R_refl |].
  now apply R_setResources.
Qed.

Lemma deleteContentResourceTags_step id s :
  R (db s) (db (snd (deleteContentResourceTags host id s))).
Proof.
  unfold deleteContentResourceTags, bind, statement, getDb, putDb.
  simpl. destruct (failsAt host (statements s)); simpl; [apply R_refl |].
  apply R_dropLinks.
Qed.

Lemma findFirstTag_step label s :
  R (db s) (db (snd (findFirstTag host label s))).
Proof.
  apply step_pure. destruct (findFirstTag host label s) as [o s'] eqn:E.
  unfold findFirstTag, bind, statement, getDb, ret in E. simpl in E.
  destruct (failsAt host (statements s)); inversion E; reflexivity.
Qed.

Lemma findById_step id s : R (db s) (db (snd (findById host id s))).
Proof.
  apply step_pure. destruct (findById host id s) as [o s'] eqn:E.
  exact (findById_db host _ _ _ _ E).
Qed.

Lemma addTags_step rid labels : forall s,
  R (db s) (db (snd (addTags host rid labels s))).
Proof.
  induction labels as [| label rest IH]; intros s; simpl; [apply R_refl |].
  apply step_bind; [apply findFirstTag_step |].
  intros found s1 Hfind. apply findFirstTag_Ok in Hfind.
  destruct Hfind as [E1 ->].
  apply step_bind.
  - destruct (selectTagByLabel (db s) label) as [t |] eqn:Hsel;
      [apply R_refl |].
    apply step_bind; [apply R_refl |]. intros id s2 Hid.
    apply randomUUID_Ok in Hid. destruct Hid as [E2 _].
    apply step_bind; [apply R_refl |]. intros at_ s3 Hat.
    apply newDate_Ok in Hat. destruct Hat as [E3 _].
    apply insertTags_step. simpl. rewrite E3, E2, E1.
    now apply selectTagByLabel_None.
  - intros tag s2 _.
    apply step_bind; [apply R_refl |]. intros at_ s3 _.
    apply step_bind; [apply insertContentResourceTags_step |].
    intros u s4 _. apply IH.
Qed.

Lemma create_step input s : R (db s) (db (snd (create host input s))).
Proof.
  unfold create, transaction, createTx.
  apply step_bind; [apply R_refl |]. intros id s1 _.
  apply step_bind; [apply R_refl |]. intros cAt s2 _.
  apply step_bind; [apply R_refl |]. intros uAt s3 _.
  apply step_bind; [apply insertContentResources_step |]. intros r s4 _.
  apply step_bind; [apply R_refl |]. intros vid s5 _.
  apply step_bind; [apply R_refl |]. intros vAt s6 _.
  apply step_bind; [apply insertContentVersions_step |]. intros v s7 _.
  apply step_bind; [now apply updateContentResources_step |]. intros u s8 _.
  apply step_bind; [| intros; apply R_refl].
  destruct (CreateContentResourceInput.tags input) as [[| l ls] |];
    [apply R_refl | apply addTags_step | apply R_refl].
Qed.

Lemma update_step id input by_ s :
  R (db s) (db (snd (update host id input by_ s))).
Proof.
  unfold update, transaction, updateTx.
  apply step_bind; [apply findById_step |]. intros [found |] s1 _;
    [| apply R_refl].
  apply step_bind.
  { destruct (UpdateContentResourceInput.fields input) as [f |];
      [| apply R_refl].
    apply step_bind; [apply R_refl |]. intros at_ s2 _.
    now apply updateContentResources_step. }
  intros u1 s2 _. apply step_bind.
  { destruct (UpdateContentResourceInput.content input) as [c |];
      [| apply R_refl].
    apply step_bind; [apply R_refl |]. intros vid s3 _.
    apply step_bind; [apply R_refl |]. intros vAt s4 _.
    apply step_bind; [apply insertContentVersions_step |]. intros v s5 _.
    apply step_bind; [apply R_refl |]. intros at_ s6 _.
    now apply updateContentResources_step. }
  intros u2 s3 _. apply step_bind; [| intros; apply findById_step].
  destruct (UpdateContentResourceInput.tags input) as [ls |];
    [| apply R_refl].
  apply step_bind; [apply deleteContentResourceTags_step |].
  intros u3 s4 _. apply addTags_step.
Qed.

Lemma softDelete_step id s : R (db s) (db (snd (softDelete host id s))).
Proof.
  unfold softDelete.
  apply step_bind; [apply R_refl |]. intros del s1 _.
  apply step_bind; [apply R_refl |]. intros upd s2 _.
  now apply updateContentResources_step.
Qed.

Lemma exec_step c s : R (db s) (db (exec host c s)).
Proof.
  destruct c as [input | id input by_ | id | id | type | id]; unfold exec.
  - apply create_step.
  - apply update_step.
  - apply softDelete_step.
  - apply findById_step.
  - apply step_pure. destruct (findByType host type s) as [o s'] eqn:E.
    exact (findByType_db host _ _ _ _ E).
  - apply step_pure. destruct (getVersionHistory host id s) as [o s'] eqn:E.
    exact (getVersionHistory_db host _ _ _ _ E).
Qed.

Lemma run_step calls : forall s, R (db s) (db (run host calls s)).
Proof.
  induction calls as [| c calls IH]; intros s; [apply R_refl |].
  change (run host (c :: calls) s) with (run host calls (exec host c s)).
  eapply R_trans; [apply exec_step | apply IH].
Qed.

End Stepwise.

(** ** What the writes leave alone *)

Lemma Grown_refl d : Grown d d.
Proof. repeat split; exists []; now rewrite app_nil_r. Qed.

Lemma Grown_trans d1 d2 d3 : Grown d1 d2 -> Grown d2 d3 -> Grown d1 d3.
Proof.
  intros ((a1 & A1) & (b1 & B1) & (c1 & C1)) ((a2 & A2) & (b2 & B2) & (c2 & C2)).
  repeat split.
  - exists (a1 ++ a2)%list. now rewrite A2, A1, app_assoc.
  - exists (b1 ++ b2)%list. now rewrite B2, B1, app_assoc.
  - exists (c1 ++ c2)%list. now rewrite C2, C1, app_assoc.
Qed.

Lemma Grown_setResources g id d :
  (forall r, ContentResource.id (g r) = ContentResource.id r) ->
  Grown d (setResources g id d).
Proof.
  intros Hg. repeat split; exists []; rewrite app_nil_r; trivial.
  unfold resourceIds. simpl. now apply setWhereId_ids.
Qed.

Lemma Grown_addResource r d : Grown d (addResource r d).
Proof.
  repeat split; simpl.
  - unfold resourceIds. simpl. rewrite map_app. eauto.
  - exists []. now rewrite app_nil_r.
  - exists []. now rewrite app_nil_r.
Qed.

Lemma Grown_addVersion v d : Grown d (addVersion v d).
Proof.
  repeat split; simpl; eauto; exists []; now rewrite app_nil_r.
Qed.

Lemma Grown_addTag t d : Grown d (addTag t d).
Proof.
  repeat split; simpl; eauto; exists []; now rewrite app_nil_r.
Qed.

Lemma Grown_same_rows d d' :
  contentResources d' = contentResources d ->
  contentVersions d' = contentVersions d ->
  tags d' = tags d ->
  Grown d d'.
Proof.
  intros E1 E2 E3. unfold Grown, resourceIds. rewrite E1, E2, E3.
  repeat split; exists []; now rewrite app_nil_r.
Qed.

Lemma Sound_empty : Sound emptyDb.
Proof. split; [exact (schema _ emptyDb_Consistent) | constructor]. Qed.

Section Everywhere.
Variable host : Host.

(** X6. Nothing is ever taken out.  Whatever calls are made, and however
    they end -- a call that throws keeps what it had written --, every
    resource id, every version row and every tag row that was there is still
    there, unchanged and in place. *)
Theorem append_only_X6 :
  forall (calls : list Call) (s : Store),
    Grown (db s) (db (run host calls s)).
Proof.
  intros calls s. apply run_step.
  - exact Grown_refl.
  - exact Grown_trans.
  - intros d r _. apply Grown_addResource.
  - intros d v _ _. apply Grown_addVersion.
  - intros d t _ _. apply Grown_addTag.
  - intros d l _ _ _. now apply Grown_same_rows.
  - intros d g id Hg. now apply Grown_setResources.
  - intros d id. now apply Grown_same_rows.
Qed.

(** X18. In every state reached from the empty database, whatever the calls
    and however they ended -- the rows a failed call had written are
    there --: primary keys are unique in the four tables, every version and
    every link references rows that exist, and no two tag rows carry the
    same label. *)
Theorem reachable_tables_are_sound_X18 :
  forall (calls : list Call) (u t n : nat),
    let d := db (run host calls (mkStore emptyDb u t n)) in
    Schema d /\ NoDup (tagLabels d).
Proof.
  intros calls u t n d.
  refine (run_step host (fun d d' => Sound d -> Sound d')
            _ _ _ _ _ _ _ _ calls (mkStore emptyDb u t n) Sound_empty).
  - auto.
  - auto.
  - intros d0 r Hr [HS HL]. split; [now apply Schema_addResource | exact HL].
  - intros d0 v Hv Hfk [HS HL].
    split; [now apply Schema_addVersion | exact HL].
  - intros d0 tg Hid Hl [HS HL]. split; [now apply Schema_addTag |].
    unfold tagLabels. simpl. rewrite map_app. simpl.
    now apply NoDup_snoc.
  - intros d0 l Hpk Hr Ht [HS HL].
    split; [now apply Schema_addLink | exact HL].
  - intros d0 g id Hg [HS HL].
    split; [now apply Schema_setResources | exact HL].
  - intros d0 id [HS HL]. split; [now apply Schema_dropLinks | exact HL].
Qed.

End Everywhere.

Lemma OnlyRow_refl id rows : OnlyRow id rows rows.
Proof. induction rows; constructor; auto. Qed.

Lemma OnlyRow_trans id r1 r2 r3 :
  OnlyRow id r1 r2 -> OnlyRow id r2 r3 -> OnlyRow id r1 r3.
Proof.
  intros H. revert r3. induction H as [| a b l1 l2 [Hid Hab] _ IH];
    intros r3 H'; inversion H' as [| b' c l2' l3 [Hid' Hbc] H'']; subst;
    constructor.
  - split; [congruence |]. intros Hne. rewrite Hbc; [auto | congruence].
  - now apply IH.
Qed.

Lemma OnlyRow_setWhereId g id rows :
  (forall r, ContentResource.id (g r) = ContentResource.id r) ->
  OnlyRow id rows (setWhereId g id rows).
Proof.
  intros Hg. induction rows as [| r rows IH]; simpl; constructor; trivial.
  destruct (String.eqb_spec (ContentResource.id r) id); split; auto.
  intros; contradiction.
Qed.

Lemma filter_filter {A} (p : A -> bool) (l : list A) :
  filter p (filter p l) = filter p l.
Proof.
  induction l as [| x l IH]; simpl; [reflexivity |].
  destruct (p x) eqn:E; simpl; rewrite ?E, IH; reflexivity.
Qed.

Section Frames.
Variable host : Host.

(** X5. An update touches its own resource only. *)
Theorem update_touches_one_resource_X5 :
  forall (id updatedById : string) (input : UpdateContentResourceInput.t)
         (s s' : Store) (res : option Found.t),
    update host id input updatedById s = (Ok res, s') ->
    OnlyRow id (contentResources (db s)) (contentResources (db s')) /\
    otherLinks (db s') id = otherLinks (db s) id /\
    exists nv,
      contentVersions (db s') = (contentVersions (db s) ++ nv)%list /\
      Forall (fun v => ContentVersion.resourceId v = id) nv.
Proof.
  intros id by_ input s s' res H. apply update_Ok in H.
  destruct H as (found & d1 & d2 & _ & HF & HCo & HT & _).
  assert (F : OnlyRow id (contentResources (db s)) (contentResources d1) /\
              contentResourceTags d1 = contentResourceTags (db s) /\
              contentVersions d1 = contentVersions (db s)).
  { unfold FieldsUpdated in HF.
    destruct (UpdateContentResourceInput.fields input).
    - destruct HF as [a ->]. simpl. repeat split.
      now apply OnlyRow_setWhereId.
    - rewrite HF. repeat split. apply OnlyRow_refl. }
  destruct F as (F1 & F2 & F3).
  assert (C : OnlyRow id (contentResources d1) (contentResources d2) /\
              contentResourceTags d2 = contentResourceTags d1 /\
              exists nv, contentVersions d2 = (contentVersions d1 ++ nv)%list /\
                         Forall (fun v => ContentVersion.resourceId v = id) nv).
  { unfold ContentUpdated in HCo.
    destruct (UpdateContentResourceInput.content input).
    - destruct HCo as (vid & vAt & at_ & _ & _ & ->). simpl. repeat split.
      + now apply OnlyRow_setWhereId.
      + eexists. split; [reflexivity |]. now repeat constructor.
    - rewrite HCo. repeat split; [apply OnlyRow_refl |].
      exists []. split; [now rewrite app_nil_r | constructor]. }
  destruct C as (C1 & C2 & (nv & C3 & C4)).
  assert (T : contentResources (db s') = contentResources d2 /\
              contentVersions (db s') = contentVersions d2 /\
              otherLinks (db s') id = otherLinks d2 id).
  { unfold TagsUpdated in HT.
    destruct (UpdateContentResourceInput.tags input).
    - destruct (AddTags_grows _ _ _ _ HT) as (E1 & E2 & _ & (nl & E3 & Hnl)).
      simpl in *. repeat split; trivial.
      unfold otherLinks. rewrite E3, filter_app.
      rewrite (filter_none _ nl).
      + rewrite app_nil_r. apply filter_filter.
      + intros x Hx. rewrite Forall_forall in Hnl.
        now rewrite (Hnl x Hx), String.eqb_refl.
    - rewrite HT. repeat split. }
  destruct T as (T1 & T2 & T3).
  split; [| split].
  - rewrite T1. eapply OnlyRow_trans; eassumption.
  - rewrite T3. unfold otherLinks. now rewrite C2, F2.
  - exists nv. rewrite T2, C3, F3. auto.
Qed.

(** X4. An update that carries tags leaves the resource with exactly those
    labels, one link each, read back in the order of the links' primary
    key. *)
Theorem update_tags_X4 :
  forall (id updatedById : string) (input : UpdateContentResourceInput.t)
         (labels : list string) (s s' : Store) (res : option Found.t),
    Consistent (db s) ->
    UpdateContentResourceInput.tags input = Some labels ->
    update host id input updatedById s = (Ok res, s') ->
    exists found,
      res = Some found /\
      Permutation (labelsOf found) (map Some labels) /\
      Sorted pkLe (linksRead found) /\
      List.length (linksOf (db s') id) = List.length labels.
Proof.
  intros id by_ input labels s s' res HC Htags H.
  pose proof (update_Consistent host id input by_ s res s' H HC) as HC'.
  destruct (update_result host _ _ _ _ _ _ H) as (found & ->).
  exists found. split; [reflexivity |].
  apply update_Ok in H.
  destruct H as (found0 & d1 & d2 & _ & _ & _ & HT & E).
  rewrite Htags in HT. simpl in HT.
  destruct (AddTags_links _ _ _ _ HT) as (nl & El & Hnl).
  destruct (LinkedInOrder_labels _ _ _ _ (pk_tags _ (schema _ HC')) Hnl)
    as [Hlabels Hfilter].
  simpl in El.
  assert (Hlinks : linksOf (db s') id = nl).
  { unfold linksOf. rewrite El, filter_app, Hfilter.
    rewrite (filter_negb
               (fun l => String.eqb (ContentResourceTag.resourceId l) id)).
    reflexivity. }
  rewrite selectById_rowOf in E.
  destruct (rowOf (db s') id) as [row |] eqn:Hrow; [| discriminate].
  inversion E; subst found.
  destruct (labels_read (db s') row labels) as [Hperm Hsorted].
  { rewrite (rowOf_id _ _ _ Hrow), Hlinks. exact Hlabels. }
  split; [exact Hperm |]. split; [exact Hsorted |].
  rewrite Hlinks. symmetry. eapply Forall2_length. exact Hnl.
Qed.

End Frames.

(** ** What the reads answer *)

Lemma NoDup_map_on {A B} (f : A -> B) (l : list A) :
  NoDup l ->
  (forall x y, In x l -> In y l -> f x = f y -> x = y) ->
  NoDup (map f l).
Proof.
  induction 1 as [| x l Hx Hnd IH]; intros Hinj; simpl; constructor.
  - intros Hin. apply in_map_iff in Hin. destruct Hin as (y & E & Hy).
    apply Hx. rewrite (Hinj x y); simpl; auto.
  - apply IH. intros a b Ha Hb. apply Hinj; simpl; auto.
Qed.

Lemma findTag_In d t :
  NoDup (tagIds d) -> In t (tags d) -> findTag d (Tag.id t) = Some t.
Proof. intros Hnd Hin. unfold findTag. now apply (find_by_key Tag.id). Qed.

Lemma linksOf_NoDup d rid :
  NoDup (linkKeys d) -> NoDup (map ContentResourceTag.tagId (linksOf d rid)).
Proof.
  unfold linkKeys, linksOf. generalize (contentResourceTags d) as links.
  induction links as [| l links IH]; simpl; intros Hnd; [constructor |].
  inversion Hnd as [| ? ? Hl Hnd']; subst.
  destruct (String.eqb_spec (ContentResourceTag.resourceId l) rid) as [E | E];
    [| now apply IH].
  simpl. constructor; [| now apply IH].
  intros Hin. apply in_map_iff in Hin. destruct Hin as (l' & E' & Hl').
  apply filter_In in Hl'. destruct Hl' as [Hl' Er].
  apply String.eqb_eq in Er. apply Hl. apply in_map_iff. exists l'.
  split; [| exact Hl']. unfold ContentResourceTag.pk. congruence.
Qed.

Lemma labels_injective d t1 t2 :
  NoDup (tagLabels d) -> In t1 (tags d) -> In t2 (tags d) ->
  Tag.label t1 = Tag.label t2 -> t1 = t2.
Proof.
  unfold tagLabels. generalize (tags d) as l.
  induction l as [| t l IH]; simpl; intros Hnd H1 H2 E; [contradiction |].
  inversion Hnd as [| ? ? Hn Hnd']; subst.
  destruct H1 as [-> | H1], H2 as [-> | H2]; trivial.
  - exfalso. apply Hn. rewrite E. now apply in_map.
  - exfalso. apply Hn. rewrite <- E. now apply in_map.
  - now apply IH.
Qed.

Lemma select_row_by_id (rows : list ContentResource.t) r :
  NoDup (map ContentResource.id rows) -> In r rows ->
  ContentResource.deletedAt r = None ->
  find (fun x => String.eqb (ContentResource.id x) (ContentResource.id r)
                 && isNull (ContentResource.deletedAt x)) rows
  = Some r.
Proof.
  induction rows as [| x rows IH]; simpl; intros Hnd Hin Hlive;
    [contradiction |].
  inversion Hnd as [| ? ? Hx Hnd']; subst.
  destruct Hin as [-> | Hin].
  - now rewrite String.eqb_refl, Hlive.
  - destruct (String.eqb_spec (ContentResource.id x) (ContentResource.id r))
      as [E |]; simpl; [| now apply IH].
    exfalso. apply Hx. rewrite E. now apply in_map.
Qed.

Lemma live_ids_NoDup (keep : ContentResource.t -> bool)
    (rows : list ContentResource.t) :
  NoDup (map ContentResource.id rows) ->
  NoDup (map ContentResource.id (filter keep rows)).
Proof.
  induction rows as [| r rows IH]; simpl; intros Hnd; [constructor |].
  inversion Hnd as [| ? ? Hr Hrows]; subst.
  destruct (keep r); simpl; [constructor |]; auto.
  intros Hin. apply Hr. apply in_map_iff in Hin.
  destruct Hin as (x & E & Hx). apply filter_In in Hx.
  apply in_map_iff. exists x. tauto.
Qed.

Section Reads.
Variable host : Host.

(** X7. What [findById] returns is a live row with that id, with every
    relation embedded: the version the pointer names, owned by the resource,
    and one tag row per link, no label twice. *)
Theorem findById_embeds_relations_X7 :
  forall (id : string) (s s' : Store) (found : Found.t),
    Consistent (db s) ->
    findById host id s = (Ok (Some found), s') ->
    In (Found.row found) (contentResources (db s)) /\
    ContentResource.id (Found.row found) = id /\
    ContentResource.deletedAt (Found.row found) = None /\
    (forall vid,
       ContentResource.currentVersionId (Found.row found) = Some vid ->
       exists v, Found.currentVersion found = Some v /\
                 ContentVersion.id v = vid /\
                 ContentVersion.resourceId v = id) /\
    (ContentResource.currentVersionId (Found.row found) = None ->
     Found.currentVersion found = None /\ versionsOf (db s) id = []) /\
    Forall (fun l =>
              ContentResourceTag.resourceId (Found.link l) = id /\
              exists t, Found.tag l = Some t /\ In t (tags (db s)) /\
                        Tag.id t = ContentResourceTag.tagId (Found.link l))
      (Found.tags found) /\
    NoDup (labelsOf found).
Proof.
  intros id s s' found HC H. apply findById_Ok in H. destruct H as [_ H].
  rewrite selectById_rowOf in H.
  destruct (rowOf (db s) id) as [row |] eqn:Hrow; [| discriminate].
  simpl in H. injection H as ->.
  pose proof (rowOf_id _ _ _ Hrow) as Hid.
  unfold rowOf in Hrow. apply find_some in Hrow. destruct Hrow as [Hin Hp].
  apply andb_true_iff in Hp. destruct Hp as [_ Hdel].
  destruct HC as [HS HL HP]. destruct (HP row Hin) as [Pa Pb].
  assert (Htags : forall l, In l (linksOf (db s) id) ->
            ContentResourceTag.resourceId l = id /\
            exists t, findTag (db s) (ContentResourceTag.tagId l) = Some t /\
                      In t (tags (db s)) /\
                      Tag.id t = ContentResourceTag.tagId l).
  { intros l Hl. apply filter_In in Hl. destruct Hl as [Hl E].
    apply String.eqb_eq in E. split; [exact E |].
    pose proof (fk_links_tag _ HS l Hl) as Ht. apply in_map_iff in Ht.
    destruct Ht as (t & Et & Ht). exists t. rewrite <- Et.
    split; [now apply findTag_In; [apply HS |] | auto]. }
  assert (HND : NoDup (labelsOf (withRelations (db s) row))).
  { rewrite labelsOf_withRelations, Hid.
    eapply Permutation_NoDup;
      [apply Permutation_map, orderByPrimaryKey_perm |].
    rewrite <- (map_map ContentResourceTag.tagId
                  (fun tid => option_map Tag.label (findTag (db s) tid))).
    apply NoDup_map_on; [apply linksOf_NoDup, HS |].
    intros x y Hx Hy E.
    apply in_map_iff in Hx. destruct Hx as (lx & <- & Hx).
    apply in_map_iff in Hy. destruct Hy as (ly & <- & Hy).
    destruct (Htags lx Hx) as (_ & tx & Fx & Ix & Ex).
    destruct (Htags ly Hy) as (_ & ty & Fy & Iy & Ey).
    rewrite Fx, Fy in E. simpl in E. injection E as E.
    rewrite <- Ex, <- Ey. f_equal. eapply labels_injective; eassumption. }
  split; [exact Hin |]. split; [exact Hid |].
  split.
  { change (ContentResource.deletedAt row = None).
    destruct (ContentResource.deletedAt row); [discriminate | reflexivity]. }
  split; [| split; [| split; [| exact HND]]]; unfold withRelations; simpl.
  - intros vid E. rewrite E. destruct (Pb vid E) as (v & Hv & E1 & E2).
    exists v. subst vid. split; [| split; congruence].
    apply findVersion_In; [apply HS | exact Hv].
  - intros E. rewrite E. split; [reflexivity |].
    apply filter_none. intros v Hv.
    destruct (String.eqb_spec (ContentVersion.resourceId v) id) as [Ev |];
      [| reflexivity].
    exfalso. apply (Pa v Hv); congruence.
  - rewrite Hid. apply Forall_forall. intros fl Hfl.
    apply in_map_iff in Hfl. destruct Hfl as (l & <- & Hl). simpl.
    apply Htags.
    exact (Permutation_in _ (Permutation_sym (orderByPrimaryKey_perm _)) Hl).
Qed.

(** X14. [findByType] and [findById] agree.  Every resource listed is live,
    of the type asked for, listed once, and is what [findById] answers for
    its id; every live resource of that type is listed. *)
Theorem findByType_agrees_with_findById_X14 :
  forall (type : string) (s s' : Store) (found : list Found.t),
    Schema (db s) ->
    findByType host type s = (Ok found, s') ->
    Forall (fun f =>
              ContentResource.type (Found.row f) = type /\
              ContentResource.deletedAt (Found.row f) = None /\
              selectById (db s) (ContentResource.id (Found.row f)) = Some f)
      found /\
    NoDup (map (fun f => ContentResource.id (Found.row f)) found) /\
    (forall id f, selectById (db s) id = Some f ->
                  ContentResource.type (Found.row f) = type -> In f found).
Proof.
  intros type s s' found HS H. apply findByType_Ok in H.
  destruct H as [_ ->]. unfold selectByType. split; [| split].
  - apply Forall_forall. intros f Hf. apply in_map_iff in Hf.
    destruct Hf as (r & <- & Hr). apply filter_In in Hr.
    destruct Hr as [Hr Hp]. apply andb_true_iff in Hp.
    destruct Hp as [Ht Hl]. apply String.eqb_eq in Ht.
    assert (Hlive : ContentResource.deletedAt r = None)
      by (destruct (ContentResource.deletedAt r); [discriminate | reflexivity]).
    simpl. repeat split; trivial.
    unfold selectById.
    rewrite (select_row_by_id _ r (pk_resources _ HS) Hr Hlive). reflexivity.
  - rewrite map_map. simpl. apply live_ids_NoDup. apply HS.
  - intros id f Hsel Ht. rewrite selectById_rowOf in Hsel.
    destruct (rowOf (db s) id) as [r |] eqn:Hrow; [| discriminate].
    injection Hsel as <-. apply in_map. unfold rowOf in Hrow.
    apply find_some in Hrow. destruct Hrow as [Hr Hp].
    apply andb_true_iff in Hp. destruct Hp as [_ Hl].
    apply filter_In. split; [exact Hr |]. simpl in Ht.
    now rewrite Ht, String.eqb_refl, Hl.
Qed.

(** X12. The version history of an id is the version rows of that id, all of
    them and no other, in ascending order of creation time; whether the
    resource is soft-deleted, or exists at all, plays no part. *)
Theorem getVersionHistory_lists_versions_X12 :
  forall (id : string) (s s' : Store) (history : list ContentVersion.t),
    getVersionHistory host id s = (Ok history, s') ->
    Permutation history (versionsOf (db s) id) /\
    StronglySorted createdAtLe history /\
    (forall v, In v history <->
               In v (contentVersions (db s)) /\
               ContentVersion.resourceId v = id) /\
    (~ In id (resourceIds (db s)) -> Schema (db s) -> history = []).
Proof.
  intros id s s' history H. apply getVersionHistory_Ok in H.
  destruct H as [_ ->]. unfold selectVersionHistory.
  pose proof (orderByCreatedAt_perm (versionsOf (db s) id)) as HP.
  split; [now symmetry |]. split; [apply orderByCreatedAt_sorted |].
  split.
  - intros v. split.
    + intros Hv. apply (Permutation_in _ (Permutation_sym HP)) in Hv.
      apply filter_In in Hv. destruct Hv as [Hv E].
      apply String.eqb_eq in E. auto.
    + intros [Hv E]. apply (Permutation_in _ HP). apply filter_In.
      split; [exact Hv | now apply String.eqb_eq].
  - intros Hid HS.
    replace (versionsOf (db s) id) with (@nil ContentVersion.t);
      [reflexivity |].
    symmetry. apply filter_none. intros v Hv.
    destruct (String.eqb_spec (ContentVersion.resourceId v) id) as [E |];
      [| reflexivity].
    exfalso. apply Hid. rewrite <- E. now apply (fk_versions _ HS).
Qed.

(** X19. What [update] returns is what a read of the same id answers right
    after it: the resource as stored, never [undefined]. *)
Theorem update_returns_what_findById_reads_X19 :
  forall (id updatedById : string) (input : UpdateContentResourceInput.t)
         (s s' : Store) (res : option Found.t),
    update host id input updatedById s = (Ok res, s') ->
    failsAt host (statements s') = false ->
    fst (findById host id s') = Ok res /\ res <> None.
Proof.
  intros id by_ input s s' res H Hf. split.
  - rewrite (findById_run host id s' Hf). apply update_Ok in H.
    destruct H as (found & d1 & d2 & _ & _ & _ & _ & ->). reflexivity.
  - destruct (update_result host _ _ _ _ _ _ H) as (f & ->). discriminate.
Qed.

End Reads.

(** ** Errors and progress of the repository *)

Section Outcomes.
Variable host : Host.

(** X9. The only errors [create] raises are the storage engine's own, a
    failed statement or a primary-key violation; in particular no foreign-key
    violation, the rows it links being inserted before their links. *)
Theorem create_raises_engine_errors_X9 :
  forall (input : CreateContentResourceInput.t) (s s' : Store) (e : Thrown),
    create host input s = (Throw e, s') ->
    EngineError e.
Proof.
  intros input s s' e H. exact (create_Throw host _ _ _ _ H).
Qed.

(** X17. [update] raises the engine's errors and its own "Resource not
    found", nothing else -- no foreign key is violated --, and it raises
    "Resource not found" only when no live resource has the id, before it
    has written anything. *)
Theorem update_raises_X17 :
  forall (id updatedById : string) (input : UpdateContentResourceInput.t)
         (s s' : Store) (e : Thrown),
    update host id input updatedById s = (Throw e, s') ->
    EngineError e \/
    e = Error "Resource not found" /\ selectById (db s) id = None /\
    db s' = db s.
Proof.
  intros id by_ input s s' e H.
  exact (update_Throw host _ _ _ _ _ _ H).
Qed.

(** X8. [update] gives up with "Resource not found" exactly when the id names
    no live resource; nothing is written then. *)
Theorem update_not_found_X8 :
  forall (id updatedById : string) (input : UpdateContentResourceInput.t)
         (s : Store),
    failsAt host (statements s) = false ->
    (selectById (db s) id = None <->
     exists s', update host id input updatedById s
                = (Throw (Error "Resource not found"), s')) /\
    (forall s', update host id input updatedById s
                = (Throw (Error "Resource not found"), s') ->
                db s' = db s).
Proof.
  intros id by_ input s Hf. split; [split |].
  - intros Hnone. unfold update, transaction, updateTx.
    rewrite (bind_run _ _ _ _ _ (findById_runs host id s Hf)).
    rewrite Hnone. eexists. reflexivity.
  - intros (s' & H). apply update_Throw in H.
    destruct H as [[(n & E) | (t & E)] | (_ & H & _)];
      [discriminate | discriminate | exact H].
  - intros s' H. apply update_Throw in H.
    destruct H as [[(n & E) | (t & E)] | (_ & _ & H)];
      [discriminate | discriminate | exact H].
Qed.

(** X11. [softDelete] never looks the resource up.  It returns for every id
    once its statement goes through; the rows with that id, deleted before
    or not, get the new deletion time, and where no row has the id the
    tables stay as they are. *)
Theorem softDelete_any_id_X11 :
  forall (id : string) (s : Store),
    failsAt host (statements s) = false ->
    exists s',
      softDelete host id s = (Ok tt, s') /\
      (forall r, In r (contentResources (db s')) ->
         ContentResource.id r = id ->
         ContentResource.deletedAt r = Some (dateAt host (dates s)) /\
         ContentResource.updatedAt r = dateAt host (S (dates s))) /\
      (~ In id (resourceIds (db s)) -> db s' = db s).
Proof.
  intros id s Hf. unfold softDelete.
  rewrite (bind_run _ _ _ _ _ (newDate_run host s)).
  match goal with
  | |- context [bind _ _ ?s1] =>
      rewrite (bind_run _ _ _ _ _ (newDate_run host s1))
  end.
  match goal with
  | |- context [updateContentResources _ ?g _ ?s2] =>
      rewrite (updateContentResources_run host g id s2 Hf)
  end.
  eexists. split; [reflexivity |]. simpl. split.
  - intros r Hr E. apply in_setWhereId in Hr.
    destruct Hr as (r0 & _ & [[_ ->] | [Hne ->]]); [simpl; auto |].
    congruence.
  - intros Hid. unfold setResources.
    rewrite setWhereId_notIn by exact Hid. apply db_eta.
Qed.

(** X10. From a store whose engine answers and whose identifiers are fresh,
    [create] returns exactly when the tag labels given are pairwise
    distinct. *)
Theorem create_returns_iff_X10 :
  forall (input : CreateContentResourceInput.t) (s : Store),
    Ready host s ->
    ((exists r s', create host input s = (Ok r, s')) <->
     NoDup (tagsGiven (CreateContentResourceInput.tags input))).
Proof.
  intros input s (Hh & Hfresh & HS). split.
  - intros (r & s' & H). apply create_Ok in H.
    destruct H as (cAt & uAt & vid & vAt & _ & _ & _ & HA).
    eapply AddTags_NoDup. exact HA.
  - now apply create_returns.
Qed.

(** X13. From such a store, [update] returns exactly when the id names a live
    resource and the tag labels given are pairwise distinct; it then returns
    the resource. *)
Theorem update_returns_iff_X13 :
  forall (id updatedById : string) (input : UpdateContentResourceInput.t)
         (s : Store),
    Ready host s ->
    ((exists res s', update host id input updatedById s = (Ok res, s')) <->
     selectById (db s) id <> None /\
     NoDup (tagsGiven (UpdateContentResourceInput.tags input))) /\
    (forall res s', update host id input updatedById s = (Ok res, s') ->
                    res <> None).
Proof.
  intros id by_ input s HR. split; [split |].
  - intros (res & s' & H). apply update_Ok in H.
    destruct H as (found & d1 & d2 & Hfound & _ & _ & HT & _).
    split; [congruence |].
    unfold TagsUpdated in HT.
    destruct (UpdateContentResourceInput.tags input) as [ls |]; simpl;
      [| constructor].
    eapply AddTags_NoDup. exact HT.
  - intros [Hfound Hnd].
    destruct (update_returns host id input by_ s HR Hfound Hnd)
      as (found & s' & H).
    eauto.
  - intros res s' H. destruct (update_result host _ _ _ _ _ _ H) as (f & ->).
    discriminate.
Qed.

End Outcomes.

(** ** The service *)

Lemma raised_Throw {A} (r : Outcome A * Store) e s' :
  raised r = (Some e, s') -> r = (Throw e, s').
Proof.
  destruct r as [[a | e0] s1]; unfold raised; simpl; intros H; inversion H.
  reflexivity.
Qed.

Lemma tryCatch_Throw {A} (body : M A) handler s e s' :
  tryCatch body handler s = (Throw e, s') ->
  exists e0 s1, body s = (Throw e0, s1) /\ handler e0 s1 = (Throw e, s').
Proof.
  unfold tryCatch. destruct (body s) as [[a | e0] s1]; intros H;
    [discriminate | eauto].
Qed.

Lemma zodParse_Throw issues s e s' :
  zodParse issues s = (Throw e, s') ->
  e = ZodError issues /\ s' = s /\ issues <> [].
Proof.
  destruct issues; simpl; unfold ret, throw; intros H; inversion H.
  repeat split. discriminate.
Qed.

Lemma zodParse_Ok issues s u s' :
  zodParse issues s = (Ok u, s') -> s' = s /\ issues = [].
Proof.
  destruct issues; simpl; unfold ret, throw; intros H; inversion H. auto.
Qed.

Section ServiceErrors.
Variable host : Host.

Lemma getVersionHistory_Throw id s e s' :
  getVersionHistory host id s = (Throw e, s') -> EngineError e.
Proof.
  unfold getVersionHistory, bind, statement, getDb, ret.
  destruct (failsAt host (statements s)); intros H; inversion H.
  apply EngineError_failure.
Qed.

Lemma findByType_Throw type s e s' :
  findByType host type s = (Throw e, s') -> exists n, e = StorageFailure n.
Proof.
  unfold findByType, bind, statement, getDb, ret.
  destruct (failsAt host (statements s)); intros H; inversion H. eauto.
Qed.

Lemma findById_fails id s e s' :
  findById host id s = (Throw e, s') -> exists n, e = StorageFailure n.
Proof.
  unfold findById, bind, statement, getDb, ret.
  destruct (failsAt host (statements s)); intros H; inversion H. eauto.
Qed.

Lemma softDelete_raises id s e s' :
  softDelete host id s = (Throw e, s') -> EngineError e.
Proof.
  unfold softDelete, bind, newDate, updateContentResources, bind, statement,
    getDb, putDb. simpl.
  destruct (failsAt host (statements s)); intros H; inversion H.
  apply EngineError_failure.
Qed.

(** The look-up every method but [createResource] starts with. *)
Lemma lookup_Throw {A} id (k : M A) s e s' :
  (exists_ <- findById host id ;;
   match exists_ with
   | None => throw (ContentResourceError "Resource not found" NOT_FOUND)
   | Some _ => k
   end) s = (Throw e, s') ->
  (EngineError e /\ db s' = db s) \/
  (e = ContentResourceError "Resource not found" NOT_FOUND /\
   selectById (db s) id = None /\ db s' = db s) \/
  (exists found s0, selectById (db s) id = Some found /\ db s0 = db s /\
                    k s0 = (Throw e, s')).
Proof.
  intros H. apply bind_Throw in H. destruct H as [H | (o & s0 & H0 & H)].
  - left. split; [exact (findById_Throw host _ _ _ _ H) |].
    exact (findById_db host _ _ _ _ H).
  - apply findById_Ok in H0. destruct H0 as [E ->]. right.
    destruct (selectById (db s) id) as [found |] eqn:Hsel.
    + right. eauto.
    + left. unfold throw in H. inversion H; subst. auto.
Qed.

End ServiceErrors.

Section Service.
Variable host : Host.

Ltac caught H :=
  let e0 := fresh "e0" in
  let s1 := fresh "s1" in
  let Hbody := fresh "Hbody" in
  apply tryCatch_Throw in H; destruct H as (e0 & s1 & Hbody & H).

Ltac invalid_input H :=
  unfold throw in H; inversion H; subst; left; eauto.

Ltac not_found H id Hnone Hdb :=
  unfold throw in H; inversion H; subst; right; left; exists id;
  repeat split; trivial.

Ltac system_error He H :=
  destruct He as [(?n & ->) | (?t & ->)]; unfold throw in H;
  cbv beta iota in H;
  match type of H with
  | (Throw (ContentResourceError (?p ++ getErrorMessage host ?c) _), _) = _ =>
      right; right; left; exists p, c;
      split; [congruence |];
      split; [first [apply EngineError_failure | apply EngineError_key]
             | reflexivity]
  end.

(** X15. Every error of the service, by cause.  INVALID_INPUT is raised
    before anything reaches the repository; NOT_FOUND only for a request
    about an id that names no live resource, with the tables untouched;
    SYSTEM_ERROR only by the four methods that catch, its message ending
    with the message of an error of the storage engine; and a storage
    failure as it is only by [getResource] and [getResourcesByType]. *)
Theorem service_errors_X15 :
  forall (req : Request) (s s' : Store) (e : Thrown),
    serve host req s = (Some e, s') ->
    (exists message,
       e = ContentResourceError message INVALID_INPUT /\ s' = s) \/
    (exists id,
       e = ContentResourceError "Resource not found" NOT_FOUND /\
       requestId req = Some id /\ selectById (db s) id = None /\
       db s' = db s) \/
    (exists prefix cause,
       e = ContentResourceError (prefix ++ getErrorMessage host cause)
             SYSTEM_ERROR /\
       EngineError cause /\ translates req = true) \/
    (exists n, e = StorageFailure n /\ translates req = false /\
               db s' = db s).
Proof.
  intros req s s' e H.
  destruct req as [input | id | type | id input by_ | id | id]; simpl in H;
    apply raised_Throw in H.
  - (* createResource *)
    unfold ContentResourceService.createResource in H. caught H.
    apply bind_Throw in Hbody.
    destruct Hbody as [Hz | (u & s0 & Hz & Hc)].
    + apply zodParse_Throw in Hz. destruct Hz as (-> & -> & _).
      invalid_input H.
    + pose proof (create_Throw host _ _ _ _ Hc) as He.
      system_error He H.
  - (* getResource *)
    unfold ContentResourceService.getResource in H.
    destruct (isBlank id); [invalid_input H |].
    apply bind_Throw in H. destruct H as [H | (o & s0 & H0 & H)].
    + pose proof (findById_db host _ _ _ _ H) as Hdb.
      apply findById_fails in H. destruct H as (n & ->).
      right; right; right. eauto.
    + apply findById_Ok in H0. destruct H0 as [E ->].
      destruct (selectById (db s) id) eqn:Hsel; unfold ret, throw in H;
        inversion H; subst.
      right; left. exists id. repeat split; trivial.
  - (* getResourcesByType *)
    unfold ContentResourceService.getResourcesByType in H.
    destruct (isBlank type); [invalid_input H |].
    pose proof (findByType_db host _ _ _ _ H) as Hdb.
    apply findByType_Throw in H. destruct H as (n & ->).
    right; right; right. eauto.
  - (* updateResource *)
    unfold ContentResourceService.updateResource in H.
    destruct (isBlank id); [invalid_input H |].
    destruct (isBlank by_); [invalid_input H |].
    caught H. apply bind_Throw in Hbody.
    destruct Hbody as [Hz | (u & s0 & Hz & Hl)].
    + apply zodParse_Throw in Hz. destruct Hz as (-> & -> & _).
      invalid_input H.
    + apply zodParse_Ok in Hz. destruct Hz as [-> _].
      apply lookup_Throw in Hl.
      destruct Hl as [[He Hdb] | [(-> & Hnone & Hdb) |
                                  (found & s2 & Hsome & Hdb & Hu)]].
      * system_error He H.
      * not_found H id Hnone Hdb.
      * pose proof (update_Throw host _ _ _ _ _ _ Hu) as He.
        destruct He as [He | (_ & Hnone & _)]; [| congruence].
        system_error He H.
  - (* deleteResource *)
    unfold ContentResourceService.deleteResource in H.
    destruct (isBlank id); [invalid_input H |].
    caught H. apply lookup_Throw in Hbody.
    destruct Hbody as [[He Hdb] | [(-> & Hnone & Hdb) |
                                   (found & s2 & Hsome & Hdb & Hd)]].
    + system_error He H.
    + not_found H id Hnone Hdb.
    + pose proof (softDelete_raises host _ _ _ _ Hd) as He.
      system_error He H.
  - (* getVersionHistory *)
    unfold ContentResourceService.getVersionHistory in H.
    destruct (isBlank id); [invalid_input H |].
    caught H. apply lookup_Throw in Hbody.
    destruct Hbody as [[He Hdb] | [(-> & Hnone & Hdb) |
                                   (found & s2 & Hsome & Hdb & Hd)]].
    + system_error He H.
    + not_found H id Hnone Hdb.
    + pose proof (getVersionHistory_Throw host _ _ _ _ Hd) as He.
      system_error He H.
Qed.

End Service.

Lemma tryCatch_Ok {A} (body : M A) handler s a s' :
  tryCatch body handler s = (Ok a, s') ->
  body s = (Ok a, s') \/
  exists e s1, body s = (Throw e, s1) /\ handler e s1 = (Ok a, s').
Proof.
  unfold tryCatch. destruct (body s) as [[b | e] s1]; intros H; eauto.
Qed.

Section AfterDelete.
Variable host : Host.

Lemma softDelete_hides id s u s' :
  softDelete host id s = (Ok u, s') -> selectById (db s') id = None.
Proof.
  intros H. apply softDelete_Ok in H. destruct H as (del & upd & ->).
  unfold selectById. simpl. rewrite find_all_false; [reflexivity |].
  intros r Hr.
  destruct (ContentResource.deletedAt r) as [d |] eqn:Hdel;
    [now rewrite andb_false_r |].
  apply (deleted_not_selected _ _ _ _ _ Hr) in Hdel.
  apply String.eqb_neq in Hdel. now rewrite Hdel.
Qed.

(** The look-up on an id that names no live resource. *)
Lemma lookup_none {A} id (k : M A) s :
  failsAt host (statements s) = false ->
  selectById (db s) id = None ->
  fst ((exists_ <- findById host id ;;
        match exists_ with
        | None => throw notFound
        | Some _ => k
        end) s) = Throw notFound.
Proof.
  intros Hf Hnone. rewrite (bind_run _ _ _ _ _ (findById_runs host id s Hf)).
  rewrite Hnone. reflexivity.
Qed.

(** X16. A resource deleted through the service is gone for the service:
    reading it, updating it, deleting it again and asking for its history
    all answer NOT_FOUND, while the repository still lists its versions. *)
Theorem deleted_resource_not_found_X16 :
  forall (id : string) (s s' : Store) (u : unit),
    ContentResourceService.deleteResource host id s = (Ok u, s') ->
    failsAt host (statements s') = false ->
    selectById (db s) id <> None /\
    fst (ContentResourceService.getResource host id s') = Throw notFound /\
    fst (ContentResourceService.deleteResource host id s') = Throw notFound /\
    fst (ContentResourceService.getVersionHistory host id s')
    = Throw notFound /\
    (forall input updatedById,
       isBlank updatedById = false -> updateInputIssues input = [] ->
       fst (ContentResourceService.updateResource host id input updatedById
              s')
       = Throw notFound) /\
    fst (getVersionHistory host id s')
    = Ok (selectVersionHistory (db s) id).
Proof.
  intros id s s' u H Hf.
  unfold ContentResourceService.deleteResource in H.
  destruct (isBlank id) eqn:Hid; [discriminate |].
  apply tryCatch_Ok in H. destruct H as [H | (e & s1 & _ & H)].
  2:{ destruct e; discriminate. }
  apply bind_Ok in H. destruct H as (o & s0 & H0 & H).
  apply findById_Ok in H0. destruct H0 as [E0 ->].
  destruct (selectById (db s) id) as [found |] eqn:Hsel; [| discriminate].
  pose proof (softDelete_hides _ _ _ _ H) as Hgone.
  apply softDelete_Ok in H. destruct H as (del & upd & E).
  split; [discriminate |]. split; [| split; [| split; [| split]]].
  - unfold ContentResourceService.getResource. rewrite Hid.
    rewrite (bind_run _ _ _ _ _ (findById_runs host id s' Hf)).
    rewrite Hgone. reflexivity.
  - unfold ContentResourceService.deleteResource, tryCatch. rewrite Hid.
    pose proof (lookup_none id (softDelete host id) s' Hf Hgone) as L.
    unfold notFound in L.
    destruct (bind (findById host id) _ s') as [[a | e] s2]; simpl in L;
      [discriminate |].
    injection L as ->. reflexivity.
  - unfold ContentResourceService.getVersionHistory, tryCatch. rewrite Hid.
    pose proof (lookup_none id (getVersionHistory host id) s' Hf Hgone) as L.
    unfold notFound in L.
    destruct (bind (findById host id) _ s') as [[a | e] s2]; simpl in L;
      [discriminate |].
    injection L as ->. reflexivity.
  - intros input by_ Hby Hissues.
    unfold ContentResourceService.updateResource, tryCatch.
    rewrite Hid, Hby, Hissues. simpl zodParse.
    rewrite (bind_run _ _ _ _ _ (ret_run tt s')).
    pose proof (lookup_none id (update host id input by_) s' Hf Hgone) as L.
    unfold notFound in L.
    destruct (bind (findById host id) _ s') as [[a | e] s2]; simpl in L;
      [discriminate |].
    injection L as ->. reflexivity.
  - rewrite (getVersionHistory_run host id s' Hf). f_equal.
    unfold selectVersionHistory, versionsOf. rewrite E, E0. reflexivity.
Qed.

End AfterDelete.

(** ** The hypotheses can be met *)

Lemma scenarioStore_Consistent : Consistent (db scenarioStore).
Proof. apply run_Consistent; [reflexivity | exact emptyDb_Consistent]. Qed.

Lemma unaryStore_Ready : Ready unaryHost unaryStore.
Proof.
  split; [| split].
  - intros k _. reflexivity.
  - split.
    + intros k Hk. change (uuids unaryStore) with 4 in Hk.
      change (resourceIds (db unaryStore)) with [unary 0].
      change (versionIds (db unaryStore)) with [unary 1].
      change (tagIds (db unaryStore)) with [unary 2; unary 3].
      change (uuidAt unaryHost k) with (unary k).
      repeat split; simpl In; intros H;
        repeat (destruct H as [H | H];
                [first [apply (unary_injective 0) in H; lia
                       | apply (unary_injective 1) in H; lia
                       | apply (unary_injective 2) in H; lia
                       | apply (unary_injective 3) in H; lia] |]);
        exact H.
    + intros m k _ Hlt E. apply unary_injective in E. lia.
  - apply schema.
    apply run_Consistent; [reflexivity | exact emptyDb_Consistent].
Qed.

Lemma create_then_findById_X1_witness :
  exists found,
    fst (findById demoHost "uuid-00" scenarioStore) = Ok (Some found) /\
    Permutation (labelsOf found) [Some "x"; Some "y"].
Proof.
  destruct (create_then_findById_X1 demoHost scenarioInput initialStore
              scenarioStore createdRow)
    as (found & v & H & _ & _ & _ & _ & _ & _ & _ & _ & _ & _ & Hl & _).
  - exact emptyDb_Consistent.
  - vm_compute. reflexivity.
  - reflexivity.
  - exists found. split; [exact H | exact Hl].
Defined.

Lemma update_content_X2_witness :
  exists v,
    ContentVersion.content v = [("title", JStr "T2")] /\
    contentVersions
      (db (snd (update demoHost "uuid-00" (contentUpdate "T2") "u1"
                  scenarioStore)))
    = (contentVersions (db scenarioStore) ++ [v])%list.
Proof.
  destruct (update_content_X2 demoHost "uuid-00" "u1" (contentUpdate "T2")
              [("title", JStr "T2")] scenarioStore
              (snd (update demoHost "uuid-00" (contentUpdate "T2") "u1"
                      scenarioStore))
              (match fst (update demoHost "uuid-00" (contentUpdate "T2") "u1"
                            scenarioStore)
               with Ok r => r | Throw _ => None end))
    as (found & v & _ & _ & _ & _ & Hc & _ & Hv).
  - reflexivity.
  - vm_compute. reflexivity.
  - exists v. split; [exact Hc | exact Hv].
Defined.

Lemma update_fields_only_X3_witness :
  exists at_,
    db (snd (update demoHost "uuid-00" fieldsUpdate "u1" scenarioStore))
    = setResources (setFieldsAt [("summary", JStr "S")] at_) "uuid-00"
        (db scenarioStore).
Proof.
  destruct (update_fields_only_X3 demoHost "uuid-00" "u1"
              [("summary", JStr "S")] None scenarioStore
              (snd (update demoHost "uuid-00" fieldsUpdate "u1"
                      scenarioStore))
              (match fst (update demoHost "uuid-00" fieldsUpdate "u1"
                            scenarioStore)
               with Ok r => r | Throw _ => None end))
    as (before & after & at_ & _ & _ & _ & _ & _ & H).
  - vm_compute. reflexivity.
  - exists at_. exact H.
Defined.

Lemma update_tags_X4_witness :
  exists found,
    Permutation (labelsOf found) [Some "y"; Some "z"] /\
    List.length
      (linksOf (db (snd (update demoHost "uuid-00" retagInput "u1"
                           scenarioStore))) "uuid-00") = 2.
Proof.
  destruct (update_tags_X4 demoHost "uuid-00" "u1" retagInput ["y"; "z"]
              scenarioStore
              (snd (update demoHost "uuid-00" retagInput "u1" scenarioStore))
              (match fst (update demoHost "uuid-00" retagInput "u1"
                            scenarioStore)
               with Ok r => r | Throw _ => None end))
    as (found & _ & Hl & _ & Hn).
  - exact scenarioStore_Consistent.
  - reflexivity.
  - vm_compute. reflexivity.
  - exists found. split; [exact Hl | exact Hn].
Defined.

Lemma update_touches_one_resource_X5_witness :
  otherLinks (db (snd (update demoHost "uuid-03" retagInput "u1" sharedStore)))
    "uuid-03"
  = otherLinks (db sharedStore) "uuid-03".
Proof.
  refine (proj1 (proj2
    (update_touches_one_resource_X5 demoHost "uuid-03" "u1" retagInput
       sharedStore
       (snd (update demoHost "uuid-03" retagInput "u1" sharedStore))
       (match fst (update demoHost "uuid-03" retagInput "u1" sharedStore)
        with Ok r => r | Throw _ => None end) _))).
  vm_compute. reflexivity.
Defined.

Lemma findById_embeds_relations_X7_witness :
  NoDup (labelsOf scenarioFound).
Proof.
  refine (proj2 (proj2 (proj2 (proj2 (proj2 (proj2
    (findById_embeds_relations_X7 demoHost "uuid-00" scenarioStore
       (snd (findById demoHost "uuid-00" scenarioStore)) scenarioFound
       _ _))))))).
  - exact scenarioStore_Consistent.
  - vm_compute. reflexivity.
Defined.

Lemma update_not_found_X8_witness :
  exists s', update demoHost "missing" publishInput "u1" scenarioStore
             = (Throw (Error "Resource not found"), s').
Proof.
  refine (proj1 (proj1
    (update_not_found_X8 demoHost "missing" "u1" publishInput scenarioStore
       _)) _); reflexivity.
Defined.

Lemma create_raises_engine_errors_X9_witness :
  EngineError (PrimaryKeyViolation "content_resource_tags").
Proof.
  apply (create_raises_engine_errors_X9 demoHost duplicateInput initialStore
           (snd (create demoHost duplicateInput initialStore))).
  vm_compute. reflexivity.
Defined.

Lemma create_returns_iff_X10_witness :
  exists r s', create unaryHost (taggedInput ["y"; "z"]) unaryStore
               = (Ok r, s').
Proof.
  refine (proj2
    (create_returns_iff_X10 unaryHost (taggedInput ["y"; "z"]) unaryStore
       unaryStore_Ready) _).
  simpl. repeat constructor; simpl; intuition discriminate.
Defined.

Lemma softDelete_any_id_X11_witness :
  exists s',
    softDelete demoHost "missing" scenarioStore = (Ok tt, s') /\
    db s' = db scenarioStore.
Proof.
  destruct (softDelete_any_id_X11 demoHost "missing" scenarioStore)
    as (s' & H & _ & Hdb).
  - reflexivity.
  - exists s'. split; [exact H |]. apply Hdb.
    vm_compute. intros [E | []]. discriminate E.
Defined.

Lemma getVersionHistory_lists_versions_X12_witness :
  Permutation (selectVersionHistory (db deletedStore) "uuid-00")
    (versionsOf (db deletedStore) "uuid-00").
Proof.
  refine (proj1
    (getVersionHistory_lists_versions_X12 demoHost "uuid-00" deletedStore
       (snd (getVersionHistory demoHost "uuid-00" deletedStore))
       (selectVersionHistory (db deletedStore) "uuid-00") _)).
  vm_compute. reflexivity.
Defined.

Lemma update_returns_iff_X13_witness :
  exists res s',
    update unaryHost "" (contentUpdate "T2") "u1" unaryStore = (Ok res, s').
Proof.
  refine (proj2 (proj1
    (update_returns_iff_X13 unaryHost "" "u1" (contentUpdate "T2") unaryStore
       unaryStore_Ready)) _).
  split; [vm_compute; discriminate | simpl; constructor].
Defined.

Lemma findByType_agrees_with_findById_X14_witness :
  NoDup (map (fun f => ContentResource.id (Found.row f))
           (selectByType (db sharedStore) "article")).
Proof.
  refine (proj1 (proj2
    (findByType_agrees_with_findById_X14 demoHost "article" sharedStore
       (snd (findByType demoHost "article" sharedStore))
       (selectByType (db sharedStore) "article") _ _))).
  - apply schema.
    apply run_Consistent; [reflexivity | exact emptyDb_Consistent].
  - vm_compute. reflexivity.
Defined.

Lemma service_errors_X15_witness :
  (exists message,
     notFound = ContentResourceError message INVALID_INPUT /\
     snd (serve demoHost (DeleteResource "missing") scenarioStore)
     = scenarioStore) \/
  (exists id,
     notFound = ContentResourceError "Resource not found" NOT_FOUND /\
     requestId (DeleteResource "missing") = Some id /\
     selectById (db scenarioStore) id = None /\
     db (snd (serve demoHost (DeleteResource "missing") scenarioStore))
     = db scenarioStore) \/
  (exists prefix cause,
     notFound = ContentResourceError
                  (prefix ++ getErrorMessage demoHost cause) SYSTEM_ERROR /\
     EngineError cause /\ translates (DeleteResource "missing") = true) \/
  (exists n, notFound = StorageFailure n /\
             translates (DeleteResource "missing") = false /\
             db (snd (serve demoHost (DeleteResource "missing")
                        scenarioStore))
             = db scenarioStore).
Proof.
  apply (service_errors_X15 demoHost (DeleteResource "missing") scenarioStore
           (snd (serve demoHost (DeleteResource "missing") scenarioStore))
           notFound).
  vm_compute. reflexivity.
Defined.

Lemma deleted_resource_not_found_X16_witness :
  fst (ContentResourceService.getResource demoHost "uuid-00"
         (snd (ContentResourceService.deleteResource demoHost "uuid-00"
                 scenarioStore)))
  = Throw notFound.
Proof.
  refine (proj1 (proj2
    (deleted_resource_not_found_X16 demoHost "uuid-00" scenarioStore
       (snd (ContentResourceService.deleteResource demoHost "uuid-00"
               scenarioStore)) tt _ _))).
  - vm_compute. reflexivity.
  - reflexivity.
Defined.

Lemma update_raises_X17_witness :
  EngineError (StorageFailure 9) \/
  StorageFailure 9 = Error "Resource not found" /\
  selectById (db taggedStore) "uuid-00" = None /\
  db (snd (update (failingHost 9) "uuid-00" replaceInput "u1" taggedStore))
  = db taggedStore.
Proof.
  apply (update_raises_X17 (failingHost 9) "uuid-00" "u1" replaceInput
           taggedStore).
  vm_compute. reflexivity.
Defined.

Lemma update_returns_what_findById_reads_X19_witness :
  fst (findById demoHost "uuid-00"
         (snd (update demoHost "uuid-00" retagInput "u1" scenarioStore)))
  = Ok (match fst (update demoHost "uuid-00" retagInput "u1" scenarioStore)
        with Ok r => r | Throw _ => None end).
Proof.
  refine (proj1
    (update_returns_what_findById_reads_X19 demoHost "uuid-00" "u1" retagInput
       scenarioStore
       (snd (update demoHost "uuid-00" retagInput "u1" scenarioStore))
       (match fst (update demoHost "uuid-00" retagInput "u1" scenarioStore)
        with Ok r => r | Throw _ => None end) _ _)).
  - vm_compute. reflexivity.
  - reflexivity.
Defined.
